(** * Upscale_v2: the enhancement orchestration core of [src/index.tsx]

    A shallow embedding of the reducer ([appReducer]), the prompt compiler
    ([buildPrompt]), the enhancement call ([enhanceImage]) and the batch
    effect of [App], followed by the properties of the settings history,
    the compiled prompt and the batch scheduler.

    Conventions of the embedding:
    - JavaScript strings are [string] (sequences of 8-bit characters);
    - JavaScript numbers held by the tool records are the integers the
      range sliders produce, modelled as [Z]; array indices are [nat];
    - an optional property ([result?], [error?], ...) is an [option];
    - a thrown exception is the [None] of an [option] result;
    - [Date.now()] and [Math.random()] are read from an explicit [Env];
    - names are those of the source; a property name shared by several
      object types is prefixed for all but one of them ([preset_id],
      [patch_status], [toast_id], [tools_of], ...), and the [error] property
      of a batch item is [error_msg], ['error'] being also a status. *)

From Stdlib Require Import String Ascii List ZArith Bool Arith Lia.
From Stdlib Require Import DecimalString Sorted.
Import ListNotations.

Local Open Scope string_scope.
Local Open Scope list_scope.
Local Open Scope nat_scope.

(** ** JavaScript primitives used by the source *)

Module JS.

Definition newline : string := String "010"%char EmptyString.
Definition dquote : string := String "034"%char EmptyString.

(** Rendering of an integral number inside a template literal. *)
Definition show_Z (z : Z) : string := NilZero.string_of_int (Z.to_int z).
Definition show_nat (n : nat) : string := NilZero.string_of_uint (Nat.to_uint n).

(** A string is truthy when it is not empty. *)
Definition truthy (s : string) : bool :=
  match s with EmptyString => false | String _ _ => true end.

(** White space removed by [String.prototype.trim] (8-bit part). *)
Definition is_space (c : ascii) : bool :=
  let n := nat_of_ascii c in
  ((9 <=? n) && (n <=? 13)) || (n =? 32) || (n =? 160).

Fixpoint trimStart (s : string) : string :=
  match s with
  | EmptyString => EmptyString
  | String c r => if is_space c then trimStart r else s
  end.

Fixpoint trimEnd (s : string) : string :=
  match s with
  | EmptyString => EmptyString
  | String c r =>
      match trimEnd r with
      | EmptyString => if is_space c then EmptyString else String c EmptyString
      | r' => String c r'
      end
  end.

Definition trim (s : string) : string := trimEnd (trimStart s).

Definition upper (c : ascii) : ascii :=
  let n := nat_of_ascii c in
  if (97 <=? n) && (n <=? 122) then ascii_of_nat (n - 32) else c.

Fixpoint toUpperCase (s : string) : string :=
  match s with
  | EmptyString => EmptyString
  | String c r => String (upper c) (toUpperCase r)
  end.

(** [s] starts with [pre]. *)
Fixpoint starts_with (pre s : string) : bool :=
  match pre with
  | EmptyString => true
  | String a pre' =>
      match s with
      | EmptyString => false
      | String b s' => Ascii.eqb a b && starts_with pre' s'
      end
  end.

(** [Array.prototype.join]. *)
Fixpoint join (sep : string) (l : list string) : string :=
  match l with
  | [] => EmptyString
  | [x] => x
  | x :: r => (x ++ sep ++ join sep r)%string
  end.

(** [a.map((x, i) => f x i)], with the index starting at [i0]. *)
Fixpoint mapi_from {A B} (i0 : nat) (f : A -> nat -> B) (l : list A) : list B :=
  match l with
  | [] => []
  | x :: r => f x i0 :: mapi_from (S i0) f r
  end.

Definition mapi {A B} (f : A -> nat -> B) (l : list A) : list B := mapi_from 0 f l.

(** [a.slice(0, n)] for an index [n] within [nat]. *)
Definition slice0 {A} (n : nat) (l : list A) : list A := firstn n l.

(** [o || d] on an optional object and [s || null] on an optional string. *)
Definition or_else {A} (o : option A) (d : A) : A :=
  match o with Some x => x | None => d end.

Definition str_or_null (o : option string) : option string :=
  match o with
  | Some s => if truthy s then Some s else None
  | None => None
  end.

(** [{...base, key: v}] restricted to one optional key of a partial object. *)
Definition over {A} (p : option A) (base : A) : A := or_else p base.

End JS.

(** ** Types *)

(** The string-literal union types of [ToolStates], each with the text a
    template literal renders for it. *)

Inductive Upscale := X2 | X4 | X8.
Inductive WhiteBalance := WbAuto | WbCustom.
Inductive SkinTone := Neutral | SlightlyWarm.
Inductive Intensity := Low | IMedium.
Inductive Strength := SMedium | High.
Inductive HairMode := HairKeep | HairColor | HairCustom.
Inductive BackgroundMode := BgKeep | BgSolid | BgBlur | BgCustom.
Inductive AspectRatio := Original | R1x1 | R4x5 | R16x9.

Definition show_upscale (u : Upscale) : string :=
  match u with X2 => "2x" | X4 => "4x" | X8 => "8x" end.
Definition show_whiteBalance (w : WhiteBalance) : string :=
  match w with WbAuto => "auto" | WbCustom => "custom" end.
Definition show_skinTone (k : SkinTone) : string :=
  match k with Neutral => "neutral" | SlightlyWarm => "slightly warm" end.
Definition show_intensity (i : Intensity) : string :=
  match i with Low => "low" | IMedium => "medium" end.
Definition show_strength (s : Strength) : string :=
  match s with SMedium => "medium" | High => "high" end.
Definition show_hairMode (m : HairMode) : string :=
  match m with HairKeep => "keep" | HairColor => "color" | HairCustom => "custom" end.
Definition show_backgroundMode (m : BackgroundMode) : string :=
  match m with BgKeep => "keep" | BgSolid => "solid" | BgBlur => "blur" | BgCustom => "custom" end.
Definition show_aspectRatio (a : AspectRatio) : string :=
  match a with Original => "original" | R1x1 => "1:1" | R4x5 => "4:5" | R16x9 => "16:9" end.

Definition hairMode_eqb (a b : HairMode) : bool :=
  match a, b with
  | HairKeep, HairKeep | HairColor, HairColor | HairCustom, HairCustom => true
  | _, _ => false
  end.

Definition backgroundMode_eqb (a b : BackgroundMode) : bool :=
  match a, b with
  | BgKeep, BgKeep | BgSolid, BgSolid | BgBlur, BgBlur | BgCustom, BgCustom => true
  | _, _ => false
  end.

Definition whiteBalance_eqb (a b : WhiteBalance) : bool :=
  match a, b with
  | WbAuto, WbAuto | WbCustom, WbCustom => true
  | _, _ => false
  end.

(** One module per tool of [ToolStates]: the record [t] of the tool, the
    partial record [patch] an [UPDATE_TOOL] payload carries for it, and
    [merge base p], the object spread [{ ...base, ...p }]. *)

Module SuperResolution.
Record t := { enabled : bool; upscale : Upscale }.
Record patch := { p_enabled : option bool; p_upscale : option Upscale }.
Definition merge (b : t) (p : patch) : t :=
  {| enabled := JS.over (p_enabled p) (enabled b);
     upscale := JS.over (p_upscale p) (upscale b) |}.
End SuperResolution.

Module ColorTone.
Record t := {
  enabled : bool; whiteBalance : WhiteBalance;
  temp : Z; tint : Z; exposure : Z; contrast : Z;
  highlights : Z; shadows : Z; vibrance : Z; saturation : Z;
  skinTone : SkinTone }.
Record patch := {
  p_enabled : option bool; p_whiteBalance : option WhiteBalance;
  p_temp : option Z; p_tint : option Z; p_exposure : option Z; p_contrast : option Z;
  p_highlights : option Z; p_shadows : option Z; p_vibrance : option Z;
  p_saturation : option Z; p_skinTone : option SkinTone }.
Definition merge (b : t) (p : patch) : t :=
  {| enabled := JS.over (p_enabled p) (enabled b);
     whiteBalance := JS.over (p_whiteBalance p) (whiteBalance b);
     temp := JS.over (p_temp p) (temp b);
     tint := JS.over (p_tint p) (tint b);
     exposure := JS.over (p_exposure p) (exposure b);
     contrast := JS.over (p_contrast p) (contrast b);
     highlights := JS.over (p_highlights p) (highlights b);
     shadows := JS.over (p_shadows p) (shadows b);
     vibrance := JS.over (p_vibrance p) (vibrance b);
     saturation := JS.over (p_saturation p) (saturation b);
     skinTone := JS.over (p_skinTone p) (skinTone b) |}.
End ColorTone.

Module FacialRetouch.
Record t := { enabled : bool; intensity : Intensity; eyeEnhance : bool; teethWhiten : bool }.
Record patch := {
  p_enabled : option bool; p_intensity : option Intensity;
  p_eyeEnhance : option bool; p_teethWhiten : option bool }.
Definition merge (b : t) (p : patch) : t :=
  {| enabled := JS.over (p_enabled p) (enabled b);
     intensity := JS.over (p_intensity p) (intensity b);
     eyeEnhance := JS.over (p_eyeEnhance p) (eyeEnhance b);
     teethWhiten := JS.over (p_teethWhiten p) (teethWhiten b) |}.
End FacialRetouch.

Module PreserveDetails.
Record t := { enabled : bool; strength : Strength }.
Record patch := { p_enabled : option bool; p_strength : option Strength }.
Definition merge (b : t) (p : patch) : t :=
  {| enabled := JS.over (p_enabled p) (enabled b);
     strength := JS.over (p_strength p) (strength b) |}.
End PreserveDetails.

Module HairStyling.
Record t := { enabled : bool; mode : HairMode; color : string; customInstruction : string }.
Record patch := {
  p_enabled : option bool; p_mode : option HairMode;
  p_color : option string; p_customInstruction : option string }.
Definition merge (b : t) (p : patch) : t :=
  {| enabled := JS.over (p_enabled p) (enabled b);
     mode := JS.over (p_mode p) (mode b);
     color := JS.over (p_color p) (color b);
     customInstruction := JS.over (p_customInstruction p) (customInstruction b) |}.
End HairStyling.

Module Background.
Record t := { enabled : bool; mode : BackgroundMode; solidColor : string; customInstruction : string }.
Record patch := {
  p_enabled : option bool; p_mode : option BackgroundMode;
  p_solidColor : option string; p_customInstruction : option string }.
Definition merge (b : t) (p : patch) : t :=
  {| enabled := JS.over (p_enabled p) (enabled b);
     mode := JS.over (p_mode p) (mode b);
     solidColor := JS.over (p_solidColor p) (solidColor b);
     customInstruction := JS.over (p_customInstruction p) (customInstruction b) |}.
End Background.

Module Crop.
Record t := { enabled : bool; aspectRatio : AspectRatio }.
Record patch := { p_enabled : option bool; p_aspectRatio : option AspectRatio }.
Definition merge (b : t) (p : patch) : t :=
  {| enabled := JS.over (p_enabled p) (enabled b);
     aspectRatio := JS.over (p_aspectRatio p) (aspectRatio b) |}.
End Crop.

Module Distractions.
Record t := { enabled : bool; list : string }.
Record patch := { p_enabled : option bool; p_list : option string }.
Definition merge (b : t) (p : patch) : t :=
  {| enabled := JS.over (p_enabled p) (enabled b);
     list := JS.over (p_list p) (list b) |}.
End Distractions.

Module NoiseAndOptics.
Record t := {
  enabled : bool; lumaNoise : Z; chromaNoise : Z; caFix : Z; vignette : Z; distortion : Z }.
Record patch := {
  p_enabled : option bool; p_lumaNoise : option Z; p_chromaNoise : option Z;
  p_caFix : option Z; p_vignette : option Z; p_distortion : option Z }.
Definition merge (b : t) (p : patch) : t :=
  {| enabled := JS.over (p_enabled p) (enabled b);
     lumaNoise := JS.over (p_lumaNoise p) (lumaNoise b);
     chromaNoise := JS.over (p_chromaNoise p) (chromaNoise b);
     caFix := JS.over (p_caFix p) (caFix b);
     vignette := JS.over (p_vignette p) (vignette b);
     distortion := JS.over (p_distortion p) (distortion b) |}.
End NoiseAndOptics.

Record ToolStates := {
  superResolution : SuperResolution.t;
  colorTone : ColorTone.t;
  facialRetouch : FacialRetouch.t;
  preserveDetails : PreserveDetails.t;
  hairStyling : HairStyling.t;
  background : Background.t;
  crop : Crop.t;
  distractions : Distractions.t;
  noiseAndOptics : NoiseAndOptics.t }.

(** The payload of [UPDATE_TOOL]: a tool key together with a partial record
    of that tool. *)
Inductive ToolUpdate :=
| UpSuperResolution (p : SuperResolution.patch)
| UpColorTone (p : ColorTone.patch)
| UpFacialRetouch (p : FacialRetouch.patch)
| UpPreserveDetails (p : PreserveDetails.patch)
| UpHairStyling (p : HairStyling.patch)
| UpBackground (p : Background.patch)
| UpCrop (p : Crop.patch)
| UpDistractions (p : Distractions.patch)
| UpNoiseAndOptics (p : NoiseAndOptics.patch).

Inductive ModelName := gemini_2_5_flash_image_preview.

Record ImageFile := { name : string; type : string; data : string }.

Record Preset := {
  preset_id : string; preset_name : string; preset_tools : ToolStates;
  isBuiltIn : option bool }.

Inductive Status := pending | processing | done | error | cancelled.

Definition status_eqb (a b : Status) : bool :=
  match a, b with
  | pending, pending | processing, processing | done, done
  | error, error | cancelled, cancelled => true
  | _, _ => false
  end.

Record BatchItem := {
  id : string; file : ImageFile; status : Status;
  result : option string; prompt : option string; error_msg : option string;
  preset : option ToolStates }.

(** [Partial<BatchItem> & { id: string }], the payload of [UPDATE_BATCH_ITEM]. *)
Record BatchItemPatch := {
  patch_id : string; patch_file : option ImageFile; patch_status : option Status;
  patch_result : option string; patch_prompt : option string;
  patch_error : option string; patch_preset : option ToolStates }.

Inductive ToastType := success | toast_error.
Record Toast := { toast_id : Z; message : string; toast_type : ToastType }.

Record HistoryEntry := { tools_of : ToolStates }.

Record AppState := {
  history : list HistoryEntry; historyIndex : nat;
  currentImage : option ImageFile; enhancedImage : option string;
  isLoading : bool;
  toast : option Toast;
  activeModel : ModelName; tools : ToolStates; currentPrompt : string;
  userPresets : list Preset; showBuiltInPresets : bool; batchQueue : list BatchItem;
  enhancedLibrary : list BatchItem }.

Inductive Action :=
| UPDATE_TOOL (payload : ToolUpdate)
| UNDO
| REDO
| SET_IMAGE (payload : option ImageFile)
| SELECT_BATCH_ITEM (payload : BatchItem)
| ENHANCE_START
| ENHANCE_SUCCESS (image : string) (prompt : string)
| ENHANCE_FAILURE (payload : string)
| SHOW_TOAST (message : string) (type : ToastType)
| HIDE_TOAST
| RESET_STATE
| TOGGLE_BUILTIN_PRESETS
| SAVE_PRESET (preset : Preset)
| LOAD_PRESET (tools : ToolStates)
| DELETE_PRESET (id : string)
| RENAME_PRESET (id : string) (name : string)
| IMPORT_PRESETS (presets : list Preset)
| ADD_TO_BATCH (files : list ImageFile)
| UPDATE_BATCH_ITEM (payload : BatchItemPatch)
| CLEAR_BATCH
| APPLY_PRESET_TO_BATCH (tools : ToolStates)
| SET_ENHANCED_IMAGE (payload : option string)
| ADD_TO_LIBRARY (item : BatchItem)
| REMOVE_FROM_LIBRARY (id : string)
| CLEAR_LIBRARY
| LOAD_LIBRARY (library : list BatchItem).

(** The two impure reads of the reducer; [k] numbers the calls made while
    one action is reduced.  [Math_random] gives the text the number renders
    to inside the template literal of the item id. *)
Record Env := { Date_now : nat -> Z; Math_random : nat -> string }.

(** ** State *)

Definition initialToolStates : ToolStates := {|
  superResolution := {| SuperResolution.enabled := true; SuperResolution.upscale := X2 |};
  colorTone := {|
    ColorTone.enabled := true; ColorTone.whiteBalance := WbAuto;
    ColorTone.temp := 0; ColorTone.tint := 0; ColorTone.exposure := 0; ColorTone.contrast := 0;
    ColorTone.highlights := 0; ColorTone.shadows := 0; ColorTone.vibrance := 0;
    ColorTone.saturation := 0; ColorTone.skinTone := Neutral |};
  facialRetouch := {|
    FacialRetouch.enabled := true; FacialRetouch.intensity := Low;
    FacialRetouch.eyeEnhance := true; FacialRetouch.teethWhiten := true |};
  preserveDetails := {| PreserveDetails.enabled := false; PreserveDetails.strength := SMedium |};
  hairStyling := {|
    HairStyling.enabled := true; HairStyling.mode := HairColor;
    HairStyling.color := "#5C3D2E"; HairStyling.customInstruction := EmptyString |};
  background := {|
    Background.enabled := false; Background.mode := BgKeep;
    Background.solidColor := "#ffffff"; Background.customInstruction := EmptyString |};
  crop := {| Crop.enabled := false; Crop.aspectRatio := Original |};
  distractions := {| Distractions.enabled := false; Distractions.list := EmptyString |};
  noiseAndOptics := {|
    NoiseAndOptics.enabled := false; NoiseAndOptics.lumaNoise := 0;
    NoiseAndOptics.chromaNoise := 0; NoiseAndOptics.caFix := 0;
    NoiseAndOptics.vignette := 0; NoiseAndOptics.distortion := 0 |} |}.

Definition GEMINI_MODEL_NAME : ModelName := gemini_2_5_flash_image_preview.
Definition BATCH_CONCURRENCY : nat := 2.

Definition initialState : AppState := {|
  history := [ {| tools_of := initialToolStates |} ]; historyIndex := 0;
  currentImage := None; enhancedImage := None; isLoading := false; toast := None;
  activeModel := GEMINI_MODEL_NAME; tools := initialToolStates; currentPrompt := EmptyString;
  userPresets := []; showBuiltInPresets := false; batchQueue := []; enhancedLibrary := [] |}.

(** [{ ...state, field: v }], one setter for each field the reducer overwrites. *)

Definition set_history (v : list HistoryEntry) (s : AppState) : AppState :=
  {| history := v; historyIndex := historyIndex s; currentImage := currentImage s;
     enhancedImage := enhancedImage s; isLoading := isLoading s; toast := toast s;
     activeModel := activeModel s; tools := tools s; currentPrompt := currentPrompt s;
     userPresets := userPresets s; showBuiltInPresets := showBuiltInPresets s;
     batchQueue := batchQueue s; enhancedLibrary := enhancedLibrary s |}.

Definition set_historyIndex (v : nat) (s : AppState) : AppState :=
  {| history := history s; historyIndex := v; currentImage := currentImage s;
     enhancedImage := enhancedImage s; isLoading := isLoading s; toast := toast s;
     activeModel := activeModel s; tools := tools s; currentPrompt := currentPrompt s;
     userPresets := userPresets s; showBuiltInPresets := showBuiltInPresets s;
     batchQueue := batchQueue s; enhancedLibrary := enhancedLibrary s |}.

Definition set_currentImage (v : option ImageFile) (s : AppState) : AppState :=
  {| history := history s; historyIndex := historyIndex s; currentImage := v;
     enhancedImage := enhancedImage s; isLoading := isLoading s; toast := toast s;
     activeModel := activeModel s; tools := tools s; currentPrompt := currentPrompt s;
     userPresets := userPresets s; showBuiltInPresets := showBuiltInPresets s;
     batchQueue := batchQueue s; enhancedLibrary := enhancedLibrary s |}.

Definition set_enhancedImage (v : option string) (s : AppState) : AppState :=
  {| history := history s; historyIndex := historyIndex s; currentImage := currentImage s;
     enhancedImage := v; isLoading := isLoading s; toast := toast s;
     activeModel := activeModel s; tools := tools s; currentPrompt := currentPrompt s;
     userPresets := userPresets s; showBuiltInPresets := showBuiltInPresets s;
     batchQueue := batchQueue s; enhancedLibrary := enhancedLibrary s |}.

Definition set_isLoading (v : bool) (s : AppState) : AppState :=
  {| history := history s; historyIndex := historyIndex s; currentImage := currentImage s;
     enhancedImage := enhancedImage s; isLoading := v; toast := toast s;
     activeModel := activeModel s; tools := tools s; currentPrompt := currentPrompt s;
     userPresets := userPresets s; showBuiltInPresets := showBuiltInPresets s;
     batchQueue := batchQueue s; enhancedLibrary := enhancedLibrary s |}.

Definition set_toast (v : option Toast) (s : AppState) : AppState :=
  {| history := history s; historyIndex := historyIndex s; currentImage := currentImage s;
     enhancedImage := enhancedImage s; isLoading := isLoading s; toast := v;
     activeModel := activeModel s; tools := tools s; currentPrompt := currentPrompt s;
     userPresets := userPresets s; showBuiltInPresets := showBuiltInPresets s;
     batchQueue := batchQueue s; enhancedLibrary := enhancedLibrary s |}.

Definition set_tools (v : ToolStates) (s : AppState) : AppState :=
  {| history := history s; historyIndex := historyIndex s; currentImage := currentImage s;
     enhancedImage := enhancedImage s; isLoading := isLoading s; toast := toast s;
     activeModel := activeModel s; tools := v; currentPrompt := currentPrompt s;
     userPresets := userPresets s; showBuiltInPresets := showBuiltInPresets s;
     batchQueue := batchQueue s; enhancedLibrary := enhancedLibrary s |}.

Definition set_currentPrompt (v : string) (s : AppState) : AppState :=
  {| history := history s; historyIndex := historyIndex s; currentImage := currentImage s;
     enhancedImage := enhancedImage s; isLoading := isLoading s; toast := toast s;
     activeModel := activeModel s; tools := tools s; currentPrompt := v;
     userPresets := userPresets s; showBuiltInPresets := showBuiltInPresets s;
     batchQueue := batchQueue s; enhancedLibrary := enhancedLibrary s |}.

Definition set_userPresets (v : list Preset) (s : AppState) : AppState :=
  {| history := history s; historyIndex := historyIndex s; currentImage := currentImage s;
     enhancedImage := enhancedImage s; isLoading := isLoading s; toast := toast s;
     activeModel := activeModel s; tools := tools s; currentPrompt := currentPrompt s;
     userPresets := v; showBuiltInPresets := showBuiltInPresets s; batchQueue := batchQueue s;
     enhancedLibrary := enhancedLibrary s |}.

Definition set_showBuiltInPresets (v : bool) (s : AppState) : AppState :=
  {| history := history s; historyIndex := historyIndex s; currentImage := currentImage s;
     enhancedImage := enhancedImage s; isLoading := isLoading s; toast := toast s;
     activeModel := activeModel s; tools := tools s; currentPrompt := currentPrompt s;
     userPresets := userPresets s; showBuiltInPresets := v; batchQueue := batchQueue s;
     enhancedLibrary := enhancedLibrary s |}.

Definition set_batchQueue (v : list BatchItem) (s : AppState) : AppState :=
  {| history := history s; historyIndex := historyIndex s; currentImage := currentImage s;
     enhancedImage := enhancedImage s; isLoading := isLoading s; toast := toast s;
     activeModel := activeModel s; tools := tools s; currentPrompt := currentPrompt s;
     userPresets := userPresets s; showBuiltInPresets := showBuiltInPresets s; batchQueue := v;
     enhancedLibrary := enhancedLibrary s |}.

Definition set_enhancedLibrary (v : list BatchItem) (s : AppState) : AppState :=
  {| history := history s; historyIndex := historyIndex s; currentImage := currentImage s;
     enhancedImage := enhancedImage s; isLoading := isLoading s; toast := toast s;
     activeModel := activeModel s; tools := tools s; currentPrompt := currentPrompt s;
     userPresets := userPresets s; showBuiltInPresets := showBuiltInPresets s;
     batchQueue := batchQueue s; enhancedLibrary := v |}.

(** ** The reducer *)

(** [{ ...state.tools, [tool]: { ...state.tools[tool], ...settings } }]. *)
Definition update_tool (t : ToolStates) (u : ToolUpdate) : ToolStates :=
  match u with
  | UpSuperResolution p =>
      {| superResolution := SuperResolution.merge (superResolution t) p;
         colorTone := colorTone t; facialRetouch := facialRetouch t;
         preserveDetails := preserveDetails t; hairStyling := hairStyling t;
         background := background t; crop := crop t; distractions := distractions t;
         noiseAndOptics := noiseAndOptics t |}
  | UpColorTone p =>
      {| superResolution := superResolution t;
         colorTone := ColorTone.merge (colorTone t) p; facialRetouch := facialRetouch t;
         preserveDetails := preserveDetails t; hairStyling := hairStyling t;
         background := background t; crop := crop t; distractions := distractions t;
         noiseAndOptics := noiseAndOptics t |}
  | UpFacialRetouch p =>
      {| superResolution := superResolution t; colorTone := colorTone t;
         facialRetouch := FacialRetouch.merge (facialRetouch t) p;
         preserveDetails := preserveDetails t; hairStyling := hairStyling t;
         background := background t; crop := crop t; distractions := distractions t;
         noiseAndOptics := noiseAndOptics t |}
  | UpPreserveDetails p =>
      {| superResolution := superResolution t; colorTone := colorTone t;
         facialRetouch := facialRetouch t;
         preserveDetails := PreserveDetails.merge (preserveDetails t) p;
         hairStyling := hairStyling t;
         background := background t; crop := crop t; distractions := distractions t;
         noiseAndOptics := noiseAndOptics t |}
  | UpHairStyling p =>
      {| superResolution := superResolution t; colorTone := colorTone t;
         facialRetouch := facialRetouch t; preserveDetails := preserveDetails t;
         hairStyling := HairStyling.merge (hairStyling t) p;
         background := background t; crop := crop t; distractions := distractions t;
         noiseAndOptics := noiseAndOptics t |}
  | UpBackground p =>
      {| superResolution := superResolution t; colorTone := colorTone t;
         facialRetouch := facialRetouch t; preserveDetails := preserveDetails t;
         hairStyling := hairStyling t;
         background := Background.merge (background t) p;
         crop := crop t; distractions := distractions t;
         noiseAndOptics := noiseAndOptics t |}
  | UpCrop p =>
      {| superResolution := superResolution t; colorTone := colorTone t;
         facialRetouch := facialRetouch t; preserveDetails := preserveDetails t;
         hairStyling := hairStyling t; background := background t;
         crop := Crop.merge (crop t) p; distractions := distractions t;
         noiseAndOptics := noiseAndOptics t |}
  | UpDistractions p =>
      {| superResolution := superResolution t; colorTone := colorTone t;
         facialRetouch := facialRetouch t; preserveDetails := preserveDetails t;
         hairStyling := hairStyling t; background := background t; crop := crop t;
         distractions := Distractions.merge (distractions t) p;
         noiseAndOptics := noiseAndOptics t |}
  | UpNoiseAndOptics p =>
      {| superResolution := superResolution t; colorTone := colorTone t;
         facialRetouch := facialRetouch t; preserveDetails := preserveDetails t;
         hairStyling := hairStyling t; background := background t; crop := crop t;
         distractions := distractions t;
         noiseAndOptics := NoiseAndOptics.merge (noiseAndOptics t) p |}
  end.

(** [{ ...item, ...payload }] for an [UPDATE_BATCH_ITEM] payload. *)
Definition merge_item (item : BatchItem) (p : BatchItemPatch) : BatchItem :=
  {| id := patch_id p;
     file := JS.over (patch_file p) (file item);
     status := JS.over (patch_status p) (status item);
     result := match patch_result p with Some r => Some r | None => result item end;
     prompt := match patch_prompt p with Some r => Some r | None => prompt item end;
     error_msg := match patch_error p with Some r => Some r | None => error_msg item end;
     preset := match patch_preset p with Some r => Some r | None => preset item end |}.

(** The payload that spreads a whole item: [{ ...item }]. *)
Definition patch_of_item (item : BatchItem) : BatchItemPatch :=
  {| patch_id := id item; patch_file := Some (file item);
     patch_status := Some (status item); patch_result := result item;
     patch_prompt := prompt item; patch_error := error_msg item;
     patch_preset := preset item |}.

Definition with_preset (t : ToolStates) (item : BatchItem) : BatchItem :=
  {| id := id item; file := file item; status := status item; result := result item;
     prompt := prompt item; error_msg := error_msg item; preset := Some t |}.

Definition rename (n : string) (p : Preset) : Preset :=
  {| preset_id := preset_id p; preset_name := n; preset_tools := preset_tools p;
     isBuiltIn := isBuiltIn p |}.

(** [p.id && p.name && p.tools && !p.isBuiltIn]; [tools] is an object of
    every typed preset, hence truthy. *)
Definition importable (p : Preset) : bool :=
  JS.truthy (preset_id p) && JS.truthy (preset_name p)
  && negb (JS.or_else (isBuiltIn p) false).

(** The [forEach] of [IMPORT_PRESETS]: push the presets whose id is not yet
    in the growing array. *)
Fixpoint import_into (updatedPresets incoming : list Preset) : list Preset :=
  match incoming with
  | [] => updatedPresets
  | p :: rest =>
      if existsb (fun up => (preset_id up =? preset_id p)%string) updatedPresets
      then import_into updatedPresets rest
      else import_into (updatedPresets ++ [p]) rest
  end.

(** The id of the [k]-th file of an [ADD_TO_BATCH]:
    [`${file.name}-${Date.now()}-${Math.random()}`]. *)
Definition new_id (env : Env) (f : ImageFile) (k : nat) : string :=
  (name f ++ "-" ++ JS.show_Z (Date_now env k) ++ "-" ++ Math_random env k)%string.

Definition new_item (env : Env) (state_tools : ToolStates) (f : ImageFile) (k : nat)
  : BatchItem :=
  {| id := new_id env f k; file := f; status := pending;
     result := None; prompt := None; error_msg := None; preset := Some state_tools |}.

(** The [map] of [UPDATE_BATCH_ITEM]: every item whose id is the payload's
    takes the payload's fields. *)
Definition update_batch_item (payload : BatchItemPatch) (q : list BatchItem)
  : list BatchItem :=
  map (fun item => if (id item =? patch_id payload)%string
                   then merge_item item payload else item) q.

(** [appReducer]; [None] is the [TypeError] of reading [.tools] of a history
    slot that does not exist. *)
Definition appReducer (env : Env) (state : AppState) (action : Action) : option AppState :=
  match action with
  | UPDATE_TOOL payload =>
      let newTools := update_tool (tools state) payload in
      let newHistory :=
        JS.slice0 (historyIndex state + 1) (history state) ++ [ {| tools_of := newTools |} ] in
      Some (set_tools newTools
             (set_history newHistory (set_historyIndex (length newHistory - 1) state)))
  | UNDO =>
      if 0 <? historyIndex state then
        let i := historyIndex state - 1 in
        match nth_error (history state) i with
        | Some entry => Some (set_historyIndex i (set_tools (tools_of entry) state))
        | None => None
        end
      else Some state
  | REDO =>
      if historyIndex state <? length (history state) - 1 then
        let i := historyIndex state + 1 in
        match nth_error (history state) i with
        | Some entry => Some (set_historyIndex i (set_tools (tools_of entry) state))
        | None => None
        end
      else Some state
  | SET_IMAGE payload =>
      Some (set_currentImage payload (set_enhancedImage None (set_isLoading false
             (set_history [ {| tools_of := tools state |} ] (set_historyIndex 0 state)))))
  | SELECT_BATCH_ITEM payload =>
      let t := JS.or_else (preset payload) (tools state) in
      Some (set_currentImage (Some (file payload))
             (set_enhancedImage (JS.str_or_null (result payload))
               (set_tools t (set_history [ {| tools_of := t |} ] (set_historyIndex 0 state)))))
  | ENHANCE_START => Some (set_isLoading true (set_enhancedImage None state))
  | ENHANCE_SUCCESS image prompt =>
      Some (set_isLoading false (set_enhancedImage (Some image)
             (set_currentPrompt prompt state)))
  | ENHANCE_FAILURE _ => Some (set_isLoading false state)
  | SHOW_TOAST message type =>
      Some (set_toast
             (Some {| toast_id := Date_now env 0; message := message; toast_type := type |})
             state)
  | HIDE_TOAST => Some (set_toast None state)
  | RESET_STATE =>
      Some (set_currentImage (currentImage state)
             (set_userPresets (userPresets state)
               (set_showBuiltInPresets (showBuiltInPresets state)
                 (set_batchQueue (batchQueue state)
                   (set_enhancedLibrary (enhancedLibrary state) initialState)))))
  | TOGGLE_BUILTIN_PRESETS =>
      Some (set_showBuiltInPresets (negb (showBuiltInPresets state)) state)
  | SAVE_PRESET p => Some (set_userPresets (userPresets state ++ [p]) state)
  | LOAD_PRESET t =>
      let newHistory :=
        JS.slice0 (historyIndex state + 1) (history state) ++ [ {| tools_of := t |} ] in
      Some (set_tools t
             (set_history newHistory (set_historyIndex (length newHistory - 1) state)))
  | DELETE_PRESET i =>
      Some (set_userPresets
             (filter (fun p => negb (preset_id p =? i)%string) (userPresets state)) state)
  | RENAME_PRESET i n =>
      Some (set_userPresets
             (map (fun p => if (preset_id p =? i)%string then rename n p else p)
                  (userPresets state)) state)
  | IMPORT_PRESETS presets =>
      let incomingPresets := filter importable presets in
      Some (set_userPresets (import_into (userPresets state) incomingPresets) state)
  | ADD_TO_BATCH files =>
      let newItems := JS.mapi (new_item env (tools state)) files in
      Some (set_batchQueue (batchQueue state ++ newItems) state)
  | UPDATE_BATCH_ITEM payload =>
      Some (set_batchQueue (update_batch_item payload (batchQueue state)) state)
  | CLEAR_BATCH => Some (set_batchQueue [] state)
  | APPLY_PRESET_TO_BATCH t =>
      Some (set_batchQueue
             (map (fun item => if status_eqb (status item) pending
                               then with_preset t item else item)
                  (batchQueue state)) state)
  | SET_ENHANCED_IMAGE payload => Some (set_enhancedImage payload state)
  | ADD_TO_LIBRARY item =>
      Some (set_enhancedLibrary
             (item :: filter (fun i => negb (id i =? id item)%string) (enhancedLibrary state))
             state)
  | REMOVE_FROM_LIBRARY i =>
      Some (set_enhancedLibrary
             (filter (fun it => negb (id it =? i)%string) (enhancedLibrary state)) state)
  | CLEAR_LIBRARY => Some (set_enhancedLibrary [] state)
  | LOAD_LIBRARY library => Some (set_enhancedLibrary library state)
  end.

(** Dispatching a list of actions in order. *)
Fixpoint dispatch_all (env : Env) (state : AppState) (actions : list Action)
  : option AppState :=
  match actions with
  | [] => Some state
  | a :: rest =>
      match appReducer env state a with
      | Some state' => dispatch_all env state' rest
      | None => None
      end
  end.

(** ** The prompt compiler *)

Module Prompt.

Local Open Scope string_scope.

Definition superResolution_clause (t : ToolStates) : string :=
  "SUPER RESOLUTION: Perform a high-quality "
  ++ show_upscale (SuperResolution.upscale (superResolution t))
  ++ " super-resolution upscale, effectively doubling the image's pixel dimensions. The primary goal is to reconstruct and synthesize photorealistic fine details. Enhance textures like skin pores, individual hair strands, and fabric weaves with exceptional clarity. The final image must be sharp and artifact-free. Do not simply enlarge and smooth the image; new, believable detail must be generated.".

Definition colorTone_wb (c : ColorTone.t) : string :=
  let wb := "WB " ++ show_whiteBalance (ColorTone.whiteBalance c) in
  if whiteBalance_eqb (ColorTone.whiteBalance c) WbCustom
  then wb ++ " (temp:" ++ JS.show_Z (ColorTone.temp c)
          ++ ", tint:" ++ JS.show_Z (ColorTone.tint c) ++ ")"
  else wb.

Definition colorTone_clause (t : ToolStates) : string :=
  let c := colorTone t in
  "COLOR & EXPOSURE: " ++ colorTone_wb c
  ++ "; exposure " ++ JS.show_Z (ColorTone.exposure c)
  ++ "; contrast " ++ JS.show_Z (ColorTone.contrast c)
  ++ "; highlights/shadows recover; vibrance " ++ JS.show_Z (ColorTone.vibrance c)
  ++ "; saturation " ++ JS.show_Z (ColorTone.saturation c)
  ++ "; skin tone " ++ show_skinTone (ColorTone.skinTone c) ++ ".".

Definition on_off (b : bool) : string := if b then "on" else "off".

Definition facialRetouch_clause (t : ToolStates) : string :=
  let f := facialRetouch t in
  "FACIAL RETOUCH (SUBTLE): intensity " ++ show_intensity (FacialRetouch.intensity f)
  ++ "; eyes " ++ on_off (FacialRetouch.eyeEnhance f)
  ++ "; teeth " ++ on_off (FacialRetouch.teethWhiten f)
  ++ "; keep pores/texture; reduce shine; soften fine wrinkles/under-eye; reduce glasses glare; DO NOT change identity/age/facial structure/expression.".

Definition preserveDetails_clause (t : ToolStates) : string :=
  "PRESERVE DETAILS ("
  ++ JS.toUpperCase (show_strength (PreserveDetails.strength (preserveDetails t)))
  ++ "): Meticulously preserve unique, defining facial features like moles, scars, freckles, and birthmarks. Do not remove, soften, or alter them. Ensure original skin and fabric textures are fully maintained.".

Definition hair_text (h : HairStyling.t) : string :=
  let hair := "mode: " ++ show_hairMode (HairStyling.mode h) in
  let hair :=
    if hairMode_eqb (HairStyling.mode h) HairColor
    then hair ++ ", color: " ++ HairStyling.color h else hair in
  if hairMode_eqb (HairStyling.mode h) HairCustom
  then hair ++ ", instruction: " ++ JS.dquote ++ HairStyling.customInstruction h ++ JS.dquote
  else hair.

Definition hairStyling_clause (t : ToolStates) : string :=
  "HAIR STYLING: " ++ hair_text (hairStyling t)
  ++ "; maintain realistic texture/shine; precise masking; no color bleed.".

Definition background_text (b : Background.t) : string :=
  let bg := "mode: " ++ show_backgroundMode (Background.mode b) in
  let bg :=
    if backgroundMode_eqb (Background.mode b) BgSolid
    then bg ++ ", color: " ++ Background.solidColor b else bg in
  if backgroundMode_eqb (Background.mode b) BgCustom
  then bg ++ ", instruction: " ++ JS.dquote ++ Background.customInstruction b ++ JS.dquote
  else bg.

Definition background_clause (t : ToolStates) : string :=
  "BACKGROUND: " ++ background_text (background t)
  ++ "; hair-safe matting; realistic shadows; no halos/spill.".

Definition crop_clause (t : ToolStates) : string :=
  "CROP/ROTATE: aspect " ++ show_aspectRatio (Crop.aspectRatio (crop t))
  ++ "; straightened; safe headroom; keep ears/hair.".

Definition distractions_clause (t : ToolStates) : string :=
  "OBJECT REMOVAL: Carefully and seamlessly remove the following distractions: "
  ++ JS.dquote ++ JS.trim (Distractions.list (distractions t)) ++ JS.dquote
  ++ ". Fill the area with realistic, context-aware content. The edit must be undetectable.".

(** The [corrections] array of the noise and optics block. *)
Definition corrections (n : NoiseAndOptics.t) : list string :=
  ((if (0 <? NoiseAndOptics.lumaNoise n)%Z
    then [("luma noise reduction (" ++ JS.show_Z (NoiseAndOptics.lumaNoise n) ++ "/10)")%string]
    else [])
   ++ (if (0 <? NoiseAndOptics.chromaNoise n)%Z
       then [("chroma noise reduction (" ++ JS.show_Z (NoiseAndOptics.chromaNoise n) ++ "/10)")%string]
       else [])
   ++ (if (0 <? NoiseAndOptics.caFix n)%Z
       then [("chromatic aberration correction (" ++ JS.show_Z (NoiseAndOptics.caFix n) ++ "/10)")%string]
       else [])
   ++ (if negb (NoiseAndOptics.vignette n =? 0)%Z
       then [("vignette correction (" ++ JS.show_Z (NoiseAndOptics.vignette n) ++ "/10)")%string]
       else [])
   ++ (if negb (NoiseAndOptics.distortion n =? 0)%Z
       then [("lens distortion correction (" ++ JS.show_Z (NoiseAndOptics.distortion n) ++ "/10)")%string]
       else []))%list.

Definition noiseAndOptics_clause (t : ToolStates) : string :=
  "NOISE & OPTICS CORRECTION: " ++ JS.join ", " (corrections (noiseAndOptics t)) ++ ".".

(** What each block of [buildPrompt] pushes on [ops]: nothing or one clause. *)
Definition push_if (c : bool) (clause : string) : list string :=
  if c then [clause] else [].

Definition ops (t : ToolStates) : list string :=
  (push_if (SuperResolution.enabled (superResolution t)) (superResolution_clause t)
   ++ push_if (ColorTone.enabled (colorTone t)) (colorTone_clause t)
   ++ push_if (FacialRetouch.enabled (facialRetouch t)) (facialRetouch_clause t)
   ++ push_if (PreserveDetails.enabled (preserveDetails t)) (preserveDetails_clause t)
   ++ push_if (HairStyling.enabled (hairStyling t)
               && negb (hairMode_eqb (HairStyling.mode (hairStyling t)) HairKeep))
              (hairStyling_clause t)
   ++ push_if (Background.enabled (background t)) (background_clause t)
   ++ push_if (Crop.enabled (crop t)) (crop_clause t)
   ++ push_if (Distractions.enabled (distractions t)
               && JS.truthy (JS.trim (Distractions.list (distractions t))))
              (distractions_clause t)
   ++ push_if (NoiseAndOptics.enabled (noiseAndOptics t)
               && (0 <? length (corrections (noiseAndOptics t)))%nat)
              (noiseAndOptics_clause t))%list.

(** [ops.map((op, i) => `${i + 1}) ${op}`)]. *)
Definition numbered (l : list string) : list string :=
  JS.mapi (fun op i => JS.show_nat (i + 1) ++ ") " ++ op) l.

Definition numberedOps (t : ToolStates) : string := JS.join JS.newline (numbered (ops t)).

Definition buildPrompt (t : ToolStates) : string :=
  "Enhance this PORTRAIT while preserving identity and realism." ++ JS.newline
  ++ JS.newline
  ++ "ORDER OF OPERATIONS:" ++ JS.newline
  ++ numberedOps t ++ JS.newline
  ++ JS.newline
  ++ "CONSISTENCY: same intensity across faces; consistent skin tone." ++ JS.newline
  ++ "LIMITS: no style transfer; no makeup/clothing/body reshaping/new objects." ++ JS.newline
  ++ "OUTPUT: single high-res PNG (sRGB).".

(** The tool groups and the heading that opens the clause of each. *)
Inductive ToolGroup :=
| GSuperResolution | GColorTone | GFacialRetouch | GPreserveDetails | GHairStyling
| GBackground | GCrop | GDistractions | GNoiseAndOptics.

Definition canonical_order : list ToolGroup :=
  [GSuperResolution; GColorTone; GFacialRetouch; GPreserveDetails; GHairStyling;
   GBackground; GCrop; GDistractions; GNoiseAndOptics].

Definition heading (g : ToolGroup) : string :=
  match g with
  | GSuperResolution => "SUPER RESOLUTION:"
  | GColorTone => "COLOR & EXPOSURE:"
  | GFacialRetouch => "FACIAL RETOUCH (SUBTLE):"
  | GPreserveDetails => "PRESERVE DETAILS ("
  | GHairStyling => "HAIR STYLING:"
  | GBackground => "BACKGROUND:"
  | GCrop => "CROP/ROTATE:"
  | GDistractions => "OBJECT REMOVAL:"
  | GNoiseAndOptics => "NOISE & OPTICS CORRECTION:"
  end.

Definition rank (g : ToolGroup) : nat :=
  match g with
  | GSuperResolution => 0 | GColorTone => 1 | GFacialRetouch => 2
  | GPreserveDetails => 3 | GHairStyling => 4 | GBackground => 5
  | GCrop => 6 | GDistractions => 7 | GNoiseAndOptics => 8
  end.

(** The group a clause belongs to, read off its heading. *)
Definition group_of (clause : string) : option ToolGroup :=
  find (fun g => JS.starts_with (heading g) clause) canonical_order.

Definition is_clause_of (g : ToolGroup) (clause : string) : bool :=
  JS.starts_with (heading g) clause.

(** The compiled prompt has a clause for group [g]. *)
Definition has_clause (g : ToolGroup) (t : ToolStates) : bool :=
  existsb (is_clause_of g) (ops t).

Definition clause_groups (t : ToolStates) : list (option ToolGroup) :=
  map group_of (ops t).

(** The guards of the five [if] statements of the noise and optics block. *)
Definition any_correction (n : NoiseAndOptics.t) : bool :=
  (0 <? NoiseAndOptics.lumaNoise n)%Z || (0 <? NoiseAndOptics.chromaNoise n)%Z
  || (0 <? NoiseAndOptics.caFix n)%Z || negb (NoiseAndOptics.vignette n =? 0)%Z
  || negb (NoiseAndOptics.distortion n =? 0)%Z.

(** The guard under which [buildPrompt] pushes the clause of each group. *)
Definition contributes (t : ToolStates) (g : ToolGroup) : bool :=
  match g with
  | GSuperResolution => SuperResolution.enabled (superResolution t)
  | GColorTone => ColorTone.enabled (colorTone t)
  | GFacialRetouch => FacialRetouch.enabled (facialRetouch t)
  | GPreserveDetails => PreserveDetails.enabled (preserveDetails t)
  | GHairStyling =>
      HairStyling.enabled (hairStyling t)
      && negb (hairMode_eqb (HairStyling.mode (hairStyling t)) HairKeep)
  | GBackground => Background.enabled (background t)
  | GCrop => Crop.enabled (crop t)
  | GDistractions =>
      Distractions.enabled (distractions t)
      && JS.truthy (JS.trim (Distractions.list (distractions t)))
  | GNoiseAndOptics =>
      NoiseAndOptics.enabled (noiseAndOptics t)
      && (0 <? length (corrections (noiseAndOptics t)))%nat
  end.

Definition clause (t : ToolStates) (g : ToolGroup) : string :=
  match g with
  | GSuperResolution => superResolution_clause t
  | GColorTone => colorTone_clause t
  | GFacialRetouch => facialRetouch_clause t
  | GPreserveDetails => preserveDetails_clause t
  | GHairStyling => hairStyling_clause t
  | GBackground => background_clause t
  | GCrop => crop_clause t
  | GDistractions => distractions_clause t
  | GNoiseAndOptics => noiseAndOptics_clause t
  end.

Definition group_eqb (a b : ToolGroup) : bool := (rank a =? rank b)%nat.

End Prompt.

(** ** The enhancement call *)

Inductive GoogleGenAI := new_GoogleGenAI (apiKey : string).

(** [apiKey ? new GoogleGenAI({ apiKey }) : null], for the key the three
    configuration sources resolve to. *)
Definition make_ai (apiKey : option string) : option GoogleGenAI :=
  match apiKey with
  | Some k => if JS.truthy k then Some (new_GoogleGenAI k) else None
  | None => None
  end.

(** A thrown value: an [Error] with its message, or anything else. *)
Inductive Thrown := Error (message : string) | NotAnError.

Record InlineData := { mimeType : string; inline_data : string }.
Record Part := { inlineData : option InlineData }.

(** What the service answers: [parts] is [response.candidates?.[0]?.content?.parts ?? []]. *)
Record Response := { parts : list Part; text : option string }.

(** How the call [ai.models.generateContent] settles; chosen by the service. *)
Inductive ApiOutcome := Rejects (e : Thrown) | Resolves (r : Response).

Record Enhanced := { image : string; prompt_used : string }.

Definition MISSING_API_KEY : string :=
  "Missing API key. Set AI_STUDIO_API_KEY, VITE_API_KEY, or process.env.API_KEY.".

Definition has_inlineData (p : Part) : bool :=
  match inlineData p with Some _ => true | None => false end.

(** [enhanceImage]: [inl] is the exception the promise rejects with. *)
Definition enhanceImage (ai : option GoogleGenAI) (img : ImageFile) (t : ToolStates)
    (model : ModelName) (o : ApiOutcome) : Thrown + Enhanced :=
  match ai with
  | None => inl (Error MISSING_API_KEY)
  | Some _ =>
      let prompt := Prompt.buildPrompt t in
      match o with
      | Rejects e => inl e
      | Resolves response =>
          match find has_inlineData (parts response) with
          | Some {| inlineData := Some p |} =>
              inr {| image := ("data:" ++ mimeType p ++ ";base64," ++ inline_data p)%string;
                     prompt_used := prompt |}
          | _ =>
              inl (Error
                     (match text response with
                      | Some m =>
                          if JS.truthy m then m
                          else "The AI did not return an image. It may have refused the request."
                      | None =>
                          "The AI did not return an image. It may have refused the request."
                      end))
          end
      end
  end.

(** ** The batch effect of [App] *)

Definition is_processing (i : BatchItem) : bool := status_eqb (status i) processing.
Definition is_pending (i : BatchItem) : bool := status_eqb (status i) pending.

Definition count_processing (q : list BatchItem) : nat := length (filter is_processing q).

(** [itemsToProcess]; the early [return] of the effect leaves nothing to process. *)
Definition itemsToProcess (q : list BatchItem) : list BatchItem :=
  let processingItems := length (filter is_processing q) in
  let pendingItems := filter is_pending q in
  if (BATCH_CONCURRENCY <=? processingItems) || (length pendingItems =? 0) then []
  else JS.slice0 (BATCH_CONCURRENCY - processingItems) pendingItems.

(** [{ id: item.id, status: 'processing' }] and the two other payloads that
    name only some fields. *)
Definition status_payload (i : string) (s : Status) (e : option string) : BatchItemPatch :=
  {| patch_id := i; patch_file := None; patch_status := Some s; patch_result := None;
     patch_prompt := None; patch_error := e; patch_preset := None |}.

Definition processing_payload (item : BatchItem) : BatchItemPatch :=
  status_payload (id item) processing None.

Definition error_payload (item : BatchItem) (msg : string) : BatchItemPatch :=
  status_payload (id item) error (Some msg).

Definition cancel_payload (item_id : string) : BatchItemPatch :=
  status_payload item_id cancelled None.

(** [{ ...item, status: 'done', result: result.image, prompt: result.prompt }]. *)
Definition finishedItem (item : BatchItem) (r : Enhanced) : BatchItem :=
  {| id := id item; file := file item; status := done;
     result := Some (image r); prompt := Some (prompt_used r);
     error_msg := error_msg item; preset := preset item |}.

(** An outstanding call of the effect: the item and the [tools] and
    [activeModel] its closure captured. *)
Record Call := { call_item : BatchItem; call_tools : ToolStates; call_model : ModelName }.

(** The actions the [try]/[catch] of the effect dispatches once the awaited
    call has settled. *)
Definition settle (ai : option GoogleGenAI) (c : Call) (o : ApiOutcome) : list Action :=
  let item := call_item c in
  match enhanceImage ai (file item) (JS.or_else (preset item) (call_tools c)) (call_model c) o with
  | inr r =>
      [UPDATE_BATCH_ITEM (patch_of_item (finishedItem item r)); ADD_TO_LIBRARY (finishedItem item r)]
  | inl err =>
      let msg := match err with
                 | Error m => m
                 | NotAnError => "An unknown error occurred."
                 end in
      [UPDATE_BATCH_ITEM (error_payload item msg)]
  end.

(** The application together with the calls in flight. *)
Record World := { app : AppState; inflight : list Call }.

Definition initialWorld : World := {| app := initialState; inflight := [] |}.

Inductive Event :=
| Dispatch (env : Env) (a : Action)     (* an action dispatched by a control *)
| RunEffect                           (* the batch effect runs on the current state *)
| Settle (n : nat) (o : ApiOutcome).  (* the [n]-th outstanding call settles *)

Definition no_env : Env := {| Date_now := fun _ => 0%Z; Math_random := fun _ => EmptyString |}.

Definition remove_nth {A} (n : nat) (l : list A) : list A := firstn n l ++ skipn (S n) l.

(** One event.  The effect marks every item to process as ['processing']
    before any of the calls it starts can settle. *)
Definition step (ai : option GoogleGenAI) (w : World) (ev : Event) : option World :=
  match ev with
  | Dispatch env a =>
      match appReducer env (app w) a with
      | Some s => Some {| app := s; inflight := inflight w |}
      | None => None
      end
  | RunEffect =>
      let items := itemsToProcess (batchQueue (app w)) in
      match dispatch_all no_env (app w)
              (map (fun item => UPDATE_BATCH_ITEM (processing_payload item)) items) with
      | Some s =>
          Some {| app := s;
                  inflight := inflight w
                              ++ map (fun item => {| call_item := item;
                                                     call_tools := tools (app w);
                                                     call_model := activeModel (app w) |})
                                     items |}
      | None => None
      end
  | Settle n o =>
      match nth_error (inflight w) n with
      | Some c =>
          match dispatch_all no_env (app w) (settle ai c o) with
          | Some s => Some {| app := s; inflight := remove_nth n (inflight w) |}
          | None => None
          end
      | None => Some w
      end
  end.

Fixpoint run (ai : option GoogleGenAI) (w : World) (evs : list Event) : option World :=
  match evs with
  | [] => Some w
  | ev :: rest =>
      match step ai w ev with
      | Some w' => run ai w' rest
      | None => None
      end
  end.

(** *** Events the controls and the id generator can produce *)

Fixpoint distinct (l : list string) : bool :=
  match l with
  | [] => true
  | x :: r => negb (existsb (String.eqb x) r) && distinct r
  end.

Definition ids (q : list BatchItem) : list string := map id q.

(** The only [UPDATE_BATCH_ITEM] a control dispatches is the cancellation of
    the item it is shown next to; an [ADD_TO_BATCH] draws ids that are new. *)
Definition admissible (w : World) (ev : Event) : bool :=
  match ev with
  | Dispatch env (UPDATE_BATCH_ITEM p) =>
      match patch_status p with
      | Some cancelled => true
      | _ => false
      end
  | Dispatch env (ADD_TO_BATCH files) =>
      distinct (ids (batchQueue (app w)) ++ ids (JS.mapi (new_item env (tools (app w))) files))
  | _ => true
  end.

Fixpoint admissible_run (ai : option GoogleGenAI) (w : World) (evs : list Event) : bool :=
  match evs with
  | [] => true
  | ev :: rest =>
      admissible w ev
      && match step ai w ev with
         | Some w' => admissible_run ai w' rest
         | None => true
         end
  end.

(** *** The wording of the specification, for comparison *)

Module SpecWording.

Import Prompt.

Definition enabled_flag (t : ToolStates) (g : ToolGroup) : bool :=
  match g with
  | GSuperResolution => SuperResolution.enabled (superResolution t)
  | GColorTone => ColorTone.enabled (colorTone t)
  | GFacialRetouch => FacialRetouch.enabled (facialRetouch t)
  | GPreserveDetails => PreserveDetails.enabled (preserveDetails t)
  | GHairStyling => HairStyling.enabled (hairStyling t)
  | GBackground => Background.enabled (background t)
  | GCrop => Crop.enabled (crop t)
  | GDistractions => Distractions.enabled (distractions t)
  | GNoiseAndOptics => NoiseAndOptics.enabled (noiseAndOptics t)
  end.

(** The group is in its no-op mode ('keep'); only hair styling and
    background have one. *)
Definition in_noop_mode (t : ToolStates) (g : ToolGroup) : bool :=
  match g with
  | GHairStyling => hairMode_eqb (HairStyling.mode (hairStyling t)) HairKeep
  | GBackground => backgroundMode_eqb (Background.mode (background t)) BgKeep
  | _ => false
  end.

(** "A tool group contributes a clause iff its enabled flag is true and
    the effective mode is not the no-op mode." *)
Definition contributes_as_specified (t : ToolStates) (g : ToolGroup) : bool :=
  enabled_flag t g && negb (in_noop_mode t g).

(** "The clause appears iff noiseAndOptics is enabled and at least one of
    the five parameters is nonzero." *)
Definition noise_clause_as_specified (t : ToolStates) : bool :=
  let n := noiseAndOptics t in
  NoiseAndOptics.enabled n
  && negb ((NoiseAndOptics.lumaNoise n =? 0)%Z && (NoiseAndOptics.chromaNoise n =? 0)%Z
           && (NoiseAndOptics.caFix n =? 0)%Z && (NoiseAndOptics.vignette n =? 0)%Z
           && (NoiseAndOptics.distortion n =? 0)%Z).

End SpecWording.

(** *** Recording a settings value in the history *)

(** The two actions that record: [UPDATE_TOOL] and [LOAD_PRESET]. *)
Inductive RecordOp := RecordUpdate (u : ToolUpdate) | RecordPreset (t : ToolStates).

Definition record_action (r : RecordOp) : Action :=
  match r with
  | RecordUpdate u => UPDATE_TOOL u
  | RecordPreset t => LOAD_PRESET t
  end.

(** The settings value the action records when [current] are the live settings. *)
Definition recorded (current : ToolStates) (r : RecordOp) : ToolStates :=
  match r with
  | RecordUpdate u => update_tool current u
  | RecordPreset t => t
  end.

(** The index addresses an entry of the history. *)
Definition history_wf (s : AppState) : Prop := historyIndex s < length (history s).

(** The live settings are those of the entry the index addresses. *)
Definition synced (s : AppState) : Prop :=
  nth_error (history s) (historyIndex s) = Some {| tools_of := tools s |}.

(** The state moved to entry [j] of its history. *)
Definition goto (j : nat) (s : AppState) : AppState :=
  set_historyIndex j
    (set_tools (tools_of (nth j (history s) {| tools_of := tools s |})) s).

(** *** The scheduler invariant *)

(** The index addresses a history entry, the ids of the queue are pairwise
    distinct, and at most [BATCH_CONCURRENCY] items are being processed. *)
Definition state_ok (s : AppState) : Prop :=
  history_wf s
  /\ NoDup (ids (batchQueue s))
  /\ count_processing (batchQueue s) <= BATCH_CONCURRENCY.

(** Actions that neither add items to the queue nor mark one as being
    processed. *)
Definition queue_safe (a : Action) : bool :=
  match a with
  | ADD_TO_BATCH _ => false
  | UPDATE_BATCH_ITEM p =>
      match patch_status p with
      | Some processing => false
      | _ => true
      end
  | _ => true
  end.

(** *** Settings used as test inputs *)

Module Samples.

(** Hair styling enabled in custom mode with a blank instruction. *)
Definition hair_custom_blank : ToolStates :=
  update_tool initialToolStates
    (UpHairStyling {| HairStyling.p_enabled := Some true;
                      HairStyling.p_mode := Some HairCustom;
                      HairStyling.p_color := None;
                      HairStyling.p_customInstruction := Some "  " |}).

(** Distraction removal enabled with a blank list. *)
Definition distractions_blank : ToolStates :=
  update_tool initialToolStates
    (UpDistractions {| Distractions.p_enabled := Some true;
                       Distractions.p_list := Some "   " |}).

(** Noise and optics enabled with every parameter at zero. *)
Definition noise_all_zero : ToolStates :=
  update_tool initialToolStates
    (UpNoiseAndOptics {| NoiseAndOptics.p_enabled := Some true;
                         NoiseAndOptics.p_lumaNoise := None;
                         NoiseAndOptics.p_chromaNoise := None;
                         NoiseAndOptics.p_caFix := None;
                         NoiseAndOptics.p_vignette := None;
                         NoiseAndOptics.p_distortion := None |}).

(** Noise and optics enabled with a negative luma value, as an imported
    preset can carry. *)
Definition noise_negative_luma : ToolStates :=
  update_tool initialToolStates
    (UpNoiseAndOptics {| NoiseAndOptics.p_enabled := Some true;
                         NoiseAndOptics.p_lumaNoise := Some (-1)%Z;
                         NoiseAndOptics.p_chromaNoise := None;
                         NoiseAndOptics.p_caFix := None;
                         NoiseAndOptics.p_vignette := None;
                         NoiseAndOptics.p_distortion := None |}).

(** A state reached by one edit, with an entry to undo to. *)
Definition edited_once : AppState :=
  match appReducer no_env initialState
          (UPDATE_TOOL (UpCrop {| Crop.p_enabled := Some true; Crop.p_aspectRatio := None |}))
  with
  | Some s => s
  | None => initialState
  end.

Definition portrait : ImageFile :=
  {| name := "portrait.png"; type := "image/png"; data := "data:image/png;base64,AAAA" |}.

(** An environment whose reads differ from call to call. *)
Definition sample_env : Env :=
  {| Date_now := fun k => (1700000000000 + Z.of_nat k)%Z;
     Math_random := fun k => ("0." ++ JS.show_nat (k + 1))%string |}.

Definition portrait_id : string := new_id sample_env portrait 0.

(** The service answers with an image. *)
Definition image_response : ApiOutcome :=
  Resolves {| parts := [ {| inlineData := Some {| mimeType := "image/png";
                                                   inline_data := "BBBB" |} |} ];
              text := None |}.

Definition quota_failure : ApiOutcome := Rejects (Error "quota exceeded").

(** One file is enqueued, admitted by the effect, and cancelled while its
    call is outstanding. *)
Definition cancelled_in_flight : list Event :=
  [Dispatch sample_env (ADD_TO_BATCH [portrait]); RunEffect;
   Dispatch no_env (UPDATE_BATCH_ITEM (cancel_payload portrait_id))].

(** Three files are enqueued and the effect runs. *)
Definition three_enqueued : list Event :=
  [Dispatch sample_env (ADD_TO_BATCH [portrait; portrait; portrait]); RunEffect].

(** The world with three files enqueued and none admitted yet. *)
Definition three_pending : World :=
  {| app := set_batchQueue
              (JS.mapi (new_item sample_env initialToolStates) [portrait; portrait; portrait])
              initialState;
     inflight := [] |}.

(** A queue holding one item, and a payload naming another id. *)
Definition one_item_state : AppState :=
  set_batchQueue [new_item sample_env initialToolStates portrait 0] initialState.

(** What a run leaves in the queue: id, status, result and error of each item. *)
Definition queue_view (w : option World)
  : option (list (string * Status * option string * option string)) :=
  option_map
    (fun w => map (fun i => (id i, status i, result i, error_msg i)) (batchQueue (app w))) w.

End Samples.

(** ** The controls of [App], [Header] and [PresetsManager] *)

Definition MAX_IMAGE_UPLOAD_SIZE_BYTES : Z := 15 * 1024 * 1024.

(** A browser [File] with the data URL a [FileReader] reads from it. *)
Record File := { file_name : string; file_type : string; file_size : Z; file_dataURL : string }.

Definition is_image (f : File) : bool := JS.starts_with "image/" (file_type f).
Definition is_oversized (f : File) : bool := (MAX_IMAGE_UPLOAD_SIZE_BYTES <? file_size f)%Z.

(** What [r.onloadend] resolves with. *)
Definition read_file (f : File) : ImageFile :=
  {| name := file_name f; type := file_type f; data := file_dataURL f |}.

Definition is_some {A} (o : option A) : bool :=
  match o with Some _ => true | None => false end.

(** [processFiles]: the actions it dispatches, in order, for the
    [currentImage] its closure holds. *)
Definition processFiles (currentImage : option ImageFile) (files : list File) : list Action :=
  let imageFiles := filter is_image files in
  if length imageFiles =? 0
  then [SHOW_TOAST "No valid image files selected." toast_error]
  else
    match find is_oversized imageFiles with
    | Some oversized =>
        [SHOW_TOAST ("File " ++ file_name oversized ++ " is too large (max 15MB).")%string
                    toast_error]
    | None =>
        let results := map read_file imageFiles in
        (if negb (is_some currentImage) || (1 <? length imageFiles)
         then [SET_IMAGE (hd_error results)] else [])
        ++ [ADD_TO_BATCH results;
            SHOW_TOAST (JS.show_nat (length results) ++ " image(s) added to queue.")%string
                       success]
    end.

Definition error_message (err : Thrown) : string :=
  match err with
  | Error m => m
  | NotAnError => "An unknown error occurred."
  end.

(** [handleEnhance]: the actions it dispatches for the state its closure
    holds, when the awaited call settles as [o]. *)
Definition handleEnhance (ai : option GoogleGenAI) (env : Env) (s : AppState)
    (o : ApiOutcome) : list Action :=
  if existsb is_pending (batchQueue s) then
    let pendingItems := filter is_pending (batchQueue s) in
    if 0 <? length pendingItems
    then [SHOW_TOAST ("Starting batch enhancement for " ++ JS.show_nat (length pendingItems)
                      ++ " images.")%string success]
    else []
  else
    match currentImage s with
    | None => [SHOW_TOAST "Please upload an image first." toast_error]
    | Some img =>
        ENHANCE_START
        :: match enhanceImage ai img (tools s) (activeModel s) o with
           | inr r =>
               [ENHANCE_SUCCESS (image r) (prompt_used r);
                ADD_TO_LIBRARY
                  {| id := (name img ++ "-" ++ JS.show_Z (Date_now env 0))%string;
                     file := img; status := done; result := Some (image r);
                     prompt := Some (prompt_used r); error_msg := None;
                     preset := Some (tools s) |};
                SHOW_TOAST "Image enhanced and saved to library!" success]
           | inl err =>
               [ENHANCE_FAILURE (error_message err); SHOW_TOAST (error_message err) toast_error]
           end
    end.

(** [canEnhance] of [Header], as the truth value the button tests. *)
Definition canEnhance (apiKey : option string) (s : AppState) : bool :=
  let hasPendingBatch := existsb is_pending (batchQueue s) in
  let isProcessing := isLoading s || existsb is_processing (batchQueue s) in
  (is_some (currentImage s) || hasPendingBatch) && negb isProcessing
  && match apiKey with Some k => JS.truthy k | None => false end.

(** [currentImage.name.replace(/\.[^.]+$/, "")]: the leftmost dot followed,
    up to the end, by one or more characters that are not dots is removed
    together with what follows it. *)
Fixpoint no_dot (s : string) : bool :=
  match s with
  | EmptyString => true
  | String c r => negb (Ascii.eqb c "."%char) && no_dot r
  end.

Fixpoint base_name (s : string) : string :=
  match s with
  | EmptyString => EmptyString
  | String c r =>
      if Ascii.eqb c "."%char && JS.truthy r && no_dot r then EmptyString
      else String c (base_name r)
  end.

Definition BUILT_IN_PRESETS : list Preset :=
  [ {| preset_id := "builtin_linkedin"; preset_name := "LinkedIn Clean"; isBuiltIn := Some true;
       preset_tools :=
         update_tool
           (update_tool
              (update_tool
                 (update_tool initialToolStates
                    (UpSuperResolution {| SuperResolution.p_enabled := Some true;
                                          SuperResolution.p_upscale := Some X2 |}))
                 (UpColorTone {| ColorTone.p_enabled := Some true;
                                 ColorTone.p_whiteBalance := None;
                                 ColorTone.p_temp := None; ColorTone.p_tint := None;
                                 ColorTone.p_exposure := Some 1%Z;
                                 ColorTone.p_contrast := Some 1%Z;
                                 ColorTone.p_highlights := None; ColorTone.p_shadows := None;
                                 ColorTone.p_vibrance := None; ColorTone.p_saturation := None;
                                 ColorTone.p_skinTone := None |}))
              (UpFacialRetouch {| FacialRetouch.p_enabled := Some true;
                                  FacialRetouch.p_intensity := Some Low;
                                  FacialRetouch.p_eyeEnhance := Some true;
                                  FacialRetouch.p_teethWhiten := Some true |}))
           (UpDistractions {| Distractions.p_enabled := Some true;
                              Distractions.p_list := Some "minor lint on collar, stray hairs" |})
    |};
    {| preset_id := "builtin_studio"; preset_name := "Studio Neutral"; isBuiltIn := Some true;
       preset_tools :=
         update_tool
           (update_tool
              (update_tool
                 (update_tool initialToolStates
                    (UpSuperResolution {| SuperResolution.p_enabled := Some true;
                                          SuperResolution.p_upscale := Some X2 |}))
                 (UpColorTone {| ColorTone.p_enabled := Some true;
                                 ColorTone.p_whiteBalance := None;
                                 ColorTone.p_temp := None; ColorTone.p_tint := None;
                                 ColorTone.p_exposure := None; ColorTone.p_contrast := None;
                                 ColorTone.p_highlights := None; ColorTone.p_shadows := None;
                                 ColorTone.p_vibrance := None; ColorTone.p_saturation := None;
                                 ColorTone.p_skinTone := None |}))
              (UpFacialRetouch {| FacialRetouch.p_enabled := Some true;
                                  FacialRetouch.p_intensity := Some Low;
                                  FacialRetouch.p_eyeEnhance := None;
                                  FacialRetouch.p_teethWhiten := None |}))
           (UpBackground {| Background.p_enabled := Some true;
                            Background.p_mode := Some BgSolid;
                            Background.p_solidColor := Some "#e0e0e0";
                            Background.p_customInstruction := None |})
    |};
    {| preset_id := "builtin_warm"; preset_name := "Soft Warm"; isBuiltIn := Some true;
       preset_tools :=
         update_tool
           (update_tool
              (update_tool initialToolStates
                 (UpSuperResolution {| SuperResolution.p_enabled := Some true;
                                       SuperResolution.p_upscale := Some X2 |}))
              (UpColorTone {| ColorTone.p_enabled := Some true;
                              ColorTone.p_whiteBalance := None;
                              ColorTone.p_temp := Some 2%Z; ColorTone.p_tint := None;
                              ColorTone.p_exposure := None; ColorTone.p_contrast := None;
                              ColorTone.p_highlights := None; ColorTone.p_shadows := None;
                              ColorTone.p_vibrance := Some 2%Z; ColorTone.p_saturation := None;
                              ColorTone.p_skinTone := Some SlightlyWarm |}))
           (UpFacialRetouch {| FacialRetouch.p_enabled := Some true;
                               FacialRetouch.p_intensity := Some Low;
                               FacialRetouch.p_eyeEnhance := None;
                               FacialRetouch.p_teethWhiten := None |})
    |} ].

(** [availablePresets] of [PresetsManager]. *)
Definition availablePresets (s : AppState) : list Preset :=
  userPresets s ++ (if showBuiltInPresets s then BUILT_IN_PRESETS else []).

(** [handleSave], for the answer of the [prompt] dialog ([None] when it is
    dismissed). *)
Definition handleSave (env : Env) (s : AppState) (answer : option string) : list Action :=
  match answer with
  | Some n =>
      if JS.truthy n then
        [SAVE_PRESET {| preset_id := ("user_" ++ JS.show_Z (Date_now env 0))%string;
                        preset_name := n; preset_tools := tools s; isBuiltIn := None |};
         SHOW_TOAST ("Preset " ++ JS.dquote ++ n ++ JS.dquote ++ " saved!")%string success]
      else []
  | None => []
  end.

(** [handleLoad], for the value of the selected option. *)
Definition handleLoad (s : AppState) (selected : string) : list Action :=
  if negb (JS.truthy selected) then []
  else
    match find (fun p => (preset_id p =? selected)%string) (availablePresets s) with
    | Some p =>
        [LOAD_PRESET (preset_tools p);
         SHOW_TOAST ("Preset " ++ JS.dquote ++ preset_name p ++ JS.dquote ++ " loaded!")%string
                    success]
    | None => []
    end.

(** *** Vocabulary of the further properties *)

Definition set_status (st : Status) (item : BatchItem) : BatchItem :=
  {| id := id item; file := file item; status := st; result := result item;
     prompt := prompt item; error_msg := error_msg item; preset := preset item |}.

(** The first [k] pending items of the queue marked as being processed. *)
Fixpoint promote (k : nat) (q : list BatchItem) : list BatchItem :=
  match k, q with
  | 0, _ => q
  | _, [] => []
  | S k', x :: r =>
      if is_pending x then set_status processing x :: promote k' r else x :: promote k r
  end.

Definition pending_ids (q : list BatchItem) : list string := ids (filter is_pending q).

(** Actions that overwrite the batch queue, and actions that overwrite the
    library. *)
Definition touches_queue (a : Action) : bool :=
  match a with
  | ADD_TO_BATCH _ | UPDATE_BATCH_ITEM _ | CLEAR_BATCH | APPLY_PRESET_TO_BATCH _ => true
  | _ => false
  end.

Definition touches_library (a : Action) : bool :=
  match a with
  | ADD_TO_LIBRARY _ | REMOVE_FROM_LIBRARY _ | CLEAR_LIBRARY | LOAD_LIBRARY _ => true
  | _ => false
  end.

(** The tool an [UPDATE_TOOL] payload addresses is enabled in [t]; the
    payload switches the tool on. *)
Definition tool_enabled (t : ToolStates) (u : ToolUpdate) : bool :=
  match u with
  | UpSuperResolution _ => SuperResolution.enabled (superResolution t)
  | UpColorTone _ => ColorTone.enabled (colorTone t)
  | UpFacialRetouch _ => FacialRetouch.enabled (facialRetouch t)
  | UpPreserveDetails _ => PreserveDetails.enabled (preserveDetails t)
  | UpHairStyling _ => HairStyling.enabled (hairStyling t)
  | UpBackground _ => Background.enabled (background t)
  | UpCrop _ => Crop.enabled (crop t)
  | UpDistractions _ => Distractions.enabled (distractions t)
  | UpNoiseAndOptics _ => NoiseAndOptics.enabled (noiseAndOptics t)
  end.

Definition switches_on (u : ToolUpdate) : bool :=
  JS.or_else
    match u with
    | UpSuperResolution p => SuperResolution.p_enabled p
    | UpColorTone p => ColorTone.p_enabled p
    | UpFacialRetouch p => FacialRetouch.p_enabled p
    | UpPreserveDetails p => PreserveDetails.p_enabled p
    | UpHairStyling p => HairStyling.p_enabled p
    | UpBackground p => Background.p_enabled p
    | UpCrop p => Crop.p_enabled p
    | UpDistractions p => Distractions.p_enabled p
    | UpNoiseAndOptics p => NoiseAndOptics.p_enabled p
    end false.

(** The items whose id is in [sel] marked as being processed. *)
Definition mark (sel : list string) (item : BatchItem) : BatchItem :=
  if existsb (String.eqb (id item)) sel then set_status processing item else item.

Definition is_enqueue (ev : Event) : bool :=
  match ev with
  | Dispatch _ (ADD_TO_BATCH _) => true
  | _ => false
  end.

(** Actions that cannot give a job the status ['pending']. *)
Definition never_pends (a : Action) : bool :=
  match a with
  | ADD_TO_BATCH _ => false
  | UPDATE_BATCH_ITEM p =>
      match patch_status p with
      | Some pending => false
      | _ => true
      end
  | _ => true
  end.

(** The payload only sets fields that the mode selected in [t] does not
    use: the temperature and tint while the white balance is not 'custom',
    the hair color while the hair mode is not 'color', a custom instruction
    while the mode is not 'custom', the solid color while the background
    mode is not 'solid'. *)
Definition sets_only_unused_fields (t : ToolStates) (u : ToolUpdate) : bool :=
  match u with
  | UpColorTone p =>
      negb (is_some (ColorTone.p_enabled p)) && negb (is_some (ColorTone.p_whiteBalance p))
      && negb (is_some (ColorTone.p_exposure p)) && negb (is_some (ColorTone.p_contrast p))
      && negb (is_some (ColorTone.p_vibrance p)) && negb (is_some (ColorTone.p_saturation p))
      && negb (is_some (ColorTone.p_skinTone p))
      && negb (whiteBalance_eqb (ColorTone.whiteBalance (colorTone t)) WbCustom)
  | UpHairStyling p =>
      negb (is_some (HairStyling.p_enabled p)) && negb (is_some (HairStyling.p_mode p))
      && (negb (is_some (HairStyling.p_color p))
          || negb (hairMode_eqb (HairStyling.mode (hairStyling t)) HairColor))
      && (negb (is_some (HairStyling.p_customInstruction p))
          || negb (hairMode_eqb (HairStyling.mode (hairStyling t)) HairCustom))
  | UpBackground p =>
      negb (is_some (Background.p_enabled p)) && negb (is_some (Background.p_mode p))
      && (negb (is_some (Background.p_solidColor p))
          || negb (backgroundMode_eqb (Background.mode (background t)) BgSolid))
      && (negb (is_some (Background.p_customInstruction p))
          || negb (backgroundMode_eqb (Background.mode (background t)) BgCustom))
  | _ => false
  end.

(** * Properties *)

(** ** Sanity checks of the primitives *)

Example show_Z_examples :
  JS.show_Z 0 = "0" /\ JS.show_Z 7 = "7" /\ JS.show_Z (-10) = "-10" /\ JS.show_nat 12 = "12".
Proof. repeat split; reflexivity. Qed.

Example trim_examples :
  JS.trim "  stray hair, lint  " = "stray hair, lint" /\ JS.trim "   " = EmptyString
  /\ JS.toUpperCase "medium" = "MEDIUM".
Proof. repeat split; reflexivity. Qed.

Example initial_prompt_groups :
  Prompt.clause_groups initialToolStates
  = map Some [Prompt.GSuperResolution; Prompt.GColorTone; Prompt.GFacialRetouch;
              Prompt.GHairStyling].
Proof. reflexivity. Qed.

(** Three files enqueued with a cap of two: two are admitted, one waits. *)
Example three_enqueued_two_admitted :
  option_map (fun w => map status (batchQueue (app w)))
    (run None initialWorld Samples.three_enqueued)
  = Some [processing; processing; pending].
Proof. vm_compute. reflexivity. Qed.

(** ** The prompt compiler *)

Section PromptFacts.

Import Prompt.

Lemma is_clause_of_clause (t : ToolStates) (g g' : ToolGroup) :
  is_clause_of g (clause t g') = group_eqb g g'.
Proof. destruct g, g'; reflexivity. Qed.

Lemma group_of_clause (t : ToolStates) (g : ToolGroup) :
  group_of (clause t g) = Some g.
Proof. destruct g; reflexivity. Qed.

Lemma ops_by_group (t : ToolStates) :
  ops t = flat_map (fun g => push_if (contributes t g) (clause t g)) canonical_order.
Proof. unfold ops. simpl. rewrite app_nil_r. reflexivity. Qed.

Lemma existsb_flat_map {A B} (f : B -> bool) (k : A -> list B) (l : list A) :
  existsb f (flat_map k l) = existsb (fun a => existsb f (k a)) l.
Proof.
  induction l as [|a l IH]; simpl; [reflexivity|].
  rewrite existsb_app, IH. reflexivity.
Qed.

Lemma existsb_push_if (f : string -> bool) (c : bool) (s : string) :
  existsb f (push_if c s) = c && f s.
Proof. destruct c; simpl; [apply orb_false_r | reflexivity]. Qed.

(** A group has a clause exactly when its guard in [buildPrompt] holds. *)
Lemma has_clause_contributes (t : ToolStates) (g : ToolGroup) :
  has_clause g t = contributes t g.
Proof.
  unfold has_clause. rewrite ops_by_group, existsb_flat_map.
  unfold canonical_order. cbn [existsb].
  rewrite !existsb_push_if, !is_clause_of_clause.
  destruct g; unfold group_eqb; cbn [rank Nat.eqb contributes];
    rewrite ?andb_false_r, ?andb_true_r, ?orb_false_r, ?orb_false_l; reflexivity.
Qed.

Lemma corrections_nonempty (n : NoiseAndOptics.t) :
  (0 <? length (corrections n))%nat = any_correction n.
Proof.
  unfold corrections, any_correction.
  destruct (0 <? NoiseAndOptics.lumaNoise n)%Z, (0 <? NoiseAndOptics.chromaNoise n)%Z,
    (0 <? NoiseAndOptics.caFix n)%Z, (NoiseAndOptics.vignette n =? 0)%Z,
    (NoiseAndOptics.distortion n =? 0)%Z; reflexivity.
Qed.

Lemma clause_groups_filter (t : ToolStates) :
  clause_groups t = map Some (filter (contributes t) canonical_order).
Proof.
  unfold clause_groups. rewrite ops_by_group.
  induction canonical_order as [|g l IH]; simpl; [reflexivity|].
  rewrite map_app, IH.
  destruct (contributes t g); simpl; [rewrite group_of_clause|]; reflexivity.
Qed.

Lemma canonical_order_sorted :
  StronglySorted (fun a b => rank a < rank b) canonical_order.
Proof.
  unfold canonical_order.
  repeat first [apply SSorted_nil | apply SSorted_cons | apply Forall_nil | apply Forall_cons];
    simpl; lia.
Qed.

Lemma StronglySorted_filter {A} (R : A -> A -> Prop) (f : A -> bool) (l : list A) :
  StronglySorted R l -> StronglySorted R (filter f l).
Proof.
  induction 1 as [|a l Hs IH Ha]; simpl; [constructor|].
  destruct (f a); [|exact IH].
  constructor; [exact IH|].
  rewrite Forall_forall in *. intros x Hx.
  apply filter_In in Hx. apply Ha, Hx.
Qed.

Lemma mapi_from_combine (l : list string) (i0 : nat) :
  JS.mapi_from i0 (fun op i => (JS.show_nat (i + 1) ++ ") " ++ op)%string) l
  = map (fun p => (JS.show_nat (fst p) ++ ") " ++ snd p)%string)
        (combine (seq (i0 + 1) (length l)) l).
Proof.
  revert i0. induction l as [|x l IH]; intros i0; [reflexivity|].
  cbn [JS.mapi_from length seq combine map fst snd].
  rewrite (IH (S i0)). reflexivity.
Qed.

Lemma existsb_eqb_ops (t : ToolStates) (x : string) :
  existsb (String.eqb x) (ops t)
  = existsb (fun g => contributes t g && String.eqb x (clause t g)) canonical_order.
Proof.
  rewrite ops_by_group, existsb_flat_map.
  induction canonical_order as [|g l IH]; simpl; [reflexivity|].
  rewrite existsb_push_if, IH. reflexivity.
Qed.

End PromptFacts.


Section PromptClaims.

Import Prompt.
Local Open Scope string_scope.

(** C6. The clauses of the numbered order-of-operations list appear in the
    canonical order (super resolution, color and exposure, facial retouch,
    preserve details, hair styling, background, crop, distraction removal,
    noise and optics), whatever the settings are and however they were
    reached: the groups of the clauses of [ops] form a list that is
    strictly increasing for the canonical rank, and the numbered list
    labels them 1, 2, ... in that order. *)
Theorem clauses_follow_canonical_order (t : ToolStates) :
  exists gs : list ToolGroup,
    clause_groups t = map Some gs
    /\ StronglySorted (fun a b => rank a < rank b) gs
    /\ numbered (ops t)
       = map (fun p => JS.show_nat (fst p) ++ ") " ++ snd p)
             (combine (seq 1 (length (ops t))) (ops t)).
Proof.
  exists (filter (contributes t) canonical_order). split; [|split].
  - apply clause_groups_filter.
  - apply StronglySorted_filter, canonical_order_sorted.
  - apply (mapi_from_combine (ops t) 0).
Qed.

(** C3, counterexample.  Distraction removal enabled with a blank list, and
    noise and optics enabled with all parameters at zero: the groups are
    enabled and have no no-op mode, yet neither has a clause. *)
Lemma enabled_group_without_clause :
  SpecWording.contributes_as_specified Samples.distractions_blank GDistractions = true
  /\ has_clause GDistractions Samples.distractions_blank = false
  /\ SpecWording.contributes_as_specified Samples.noise_all_zero GNoiseAndOptics = true
  /\ has_clause GNoiseAndOptics Samples.noise_all_zero = false.
Proof. repeat split; reflexivity. Qed.

(** C3, as amended.  A group has a clause exactly when it is enabled and,
    in addition: for hair styling, the mode is not 'keep'; for distraction
    removal, the trimmed list is not empty; for noise and optics, one of
    the five corrections is active.  The background clause appears only
    when the group is enabled, and it does appear when the group is
    enabled with a mode other than 'keep'. *)
Theorem clause_presence (t : ToolStates) :
  has_clause GSuperResolution t = SuperResolution.enabled (superResolution t)
  /\ has_clause GColorTone t = ColorTone.enabled (colorTone t)
  /\ has_clause GFacialRetouch t = FacialRetouch.enabled (facialRetouch t)
  /\ has_clause GPreserveDetails t = PreserveDetails.enabled (preserveDetails t)
  /\ has_clause GCrop t = Crop.enabled (crop t)
  /\ has_clause GHairStyling t
     = HairStyling.enabled (hairStyling t)
       && negb (hairMode_eqb (HairStyling.mode (hairStyling t)) HairKeep)
  /\ has_clause GDistractions t
     = Distractions.enabled (distractions t)
       && JS.truthy (JS.trim (Distractions.list (distractions t)))
  /\ has_clause GNoiseAndOptics t
     = NoiseAndOptics.enabled (noiseAndOptics t)
       && ((0 <? NoiseAndOptics.lumaNoise (noiseAndOptics t))%Z
           || (0 <? NoiseAndOptics.chromaNoise (noiseAndOptics t))%Z
           || (0 <? NoiseAndOptics.caFix (noiseAndOptics t))%Z
           || negb (NoiseAndOptics.vignette (noiseAndOptics t) =? 0)%Z
           || negb (NoiseAndOptics.distortion (noiseAndOptics t) =? 0)%Z)
  /\ implb (has_clause GBackground t) (Background.enabled (background t)) = true
  /\ implb (Background.enabled (background t)
            && negb (backgroundMode_eqb (Background.mode (background t)) BgKeep))
           (has_clause GBackground t) = true.
Proof.
  rewrite !has_clause_contributes. cbn [contributes].
  rewrite corrections_nonempty. unfold any_correction.
  repeat split; try reflexivity.
  - destruct (Background.enabled (background t)); reflexivity.
  - destruct (Background.enabled (background t)),
      (backgroundMode_eqb (Background.mode (background t)) BgKeep); reflexivity.
Qed.

(** C9, counterexample.  Noise and optics enabled with [lumaNoise = -1] and
    the four other parameters at zero: a parameter is nonzero, yet the
    prompt has no noise and optics clause. *)
Lemma nonzero_parameter_without_clause :
  SpecWording.noise_clause_as_specified Samples.noise_negative_luma = true
  /\ has_clause GNoiseAndOptics Samples.noise_negative_luma = false.
Proof. split; reflexivity. Qed.

(** C9, as amended.  The noise and optics clause appears exactly when the
    group is enabled and [lumaNoise > 0], [chromaNoise > 0], [caFix > 0],
    [vignette <> 0] or [distortion <> 0]; in particular it is absent when
    all five parameters are zero. *)
Theorem noise_clause_condition (t : ToolStates) :
  has_clause GNoiseAndOptics t
  = NoiseAndOptics.enabled (noiseAndOptics t)
    && ((0 <? NoiseAndOptics.lumaNoise (noiseAndOptics t))%Z
        || (0 <? NoiseAndOptics.chromaNoise (noiseAndOptics t))%Z
        || (0 <? NoiseAndOptics.caFix (noiseAndOptics t))%Z
        || negb (NoiseAndOptics.vignette (noiseAndOptics t) =? 0)%Z
        || negb (NoiseAndOptics.distortion (noiseAndOptics t) =? 0)%Z).
Proof.
  rewrite has_clause_contributes. cbn [contributes].
  rewrite corrections_nonempty. reflexivity.
Qed.

(** Within the ranges of the sliders (the three noise parameters are not
    negative) the guard of the code and the wording of the specification
    agree. *)
Lemma noise_clause_in_slider_range (t : ToolStates) :
  (0 <= NoiseAndOptics.lumaNoise (noiseAndOptics t))%Z ->
  (0 <= NoiseAndOptics.chromaNoise (noiseAndOptics t))%Z ->
  (0 <= NoiseAndOptics.caFix (noiseAndOptics t))%Z ->
  has_clause GNoiseAndOptics t = SpecWording.noise_clause_as_specified t.
Proof.
  intros Hl Hc Ha.
  rewrite has_clause_contributes. cbn [contributes].
  rewrite corrections_nonempty.
  unfold any_correction, SpecWording.noise_clause_as_specified.
  destruct (NoiseAndOptics.enabled (noiseAndOptics t)); [|reflexivity].
  cbn [andb].
  destruct (Z.ltb_spec 0 (NoiseAndOptics.lumaNoise (noiseAndOptics t))),
    (Z.ltb_spec 0 (NoiseAndOptics.chromaNoise (noiseAndOptics t))),
    (Z.ltb_spec 0 (NoiseAndOptics.caFix (noiseAndOptics t))),
    (Z.eqb_spec (NoiseAndOptics.lumaNoise (noiseAndOptics t)) 0),
    (Z.eqb_spec (NoiseAndOptics.chromaNoise (noiseAndOptics t)) 0),
    (Z.eqb_spec (NoiseAndOptics.caFix (noiseAndOptics t)) 0),
    (NoiseAndOptics.vignette (noiseAndOptics t) =? 0)%Z,
    (NoiseAndOptics.distortion (noiseAndOptics t) =? 0)%Z;
    try reflexivity; lia.
Qed.

End PromptClaims.

Section FreeText.

Import Prompt.
Local Open Scope string_scope.

Lemma string_app_assoc (a b c : string) : (a ++ b) ++ c = a ++ b ++ c.
Proof. induction a as [|x a IH]; simpl; [reflexivity|]. rewrite IH. reflexivity. Qed.

(** C2, counterexample.  Hair styling enabled in custom mode with a blank
  instruction: the trimmed instruction is empty, yet the prompt has a hair
  styling clause, and the clause carries the instruction untrimmed. *)
Lemma blank_instruction_keeps_clause :
JS.trim (HairStyling.customInstruction (hairStyling Samples.hair_custom_blank)) = EmptyString
/\ HairStyling.enabled (hairStyling Samples.hair_custom_blank) = true
/\ has_clause GHairStyling Samples.hair_custom_blank = true
/\ In ("HAIR STYLING: mode: custom, instruction: " ++ JS.dquote ++ "  " ++ JS.dquote
       ++ "; maintain realistic texture/shine; precise masking; no color bleed.")
      (ops Samples.hair_custom_blank).
Proof.
repeat split; try reflexivity.
vm_compute. tauto.
Qed.

(** C2, as amended.  The distraction list is trimmed: its clause is present
  exactly when the group is enabled and the trimmed list is not empty, and
  it then quotes the trimmed list.  The custom instructions of hair
  styling and of background are not trimmed: whenever the group is enabled
  in 'custom' mode its clause is present and quotes the instruction as it
  was typed, blank or not. *)
Theorem free_text_fields (t : ToolStates) :
has_clause GDistractions t
= Distractions.enabled (distractions t)
  && JS.truthy (JS.trim (Distractions.list (distractions t)))
/\ existsb
     (String.eqb
        ("OBJECT REMOVAL: Carefully and seamlessly remove the following distractions: "
         ++ JS.dquote ++ JS.trim (Distractions.list (distractions t)) ++ JS.dquote
         ++ ". Fill the area with realistic, context-aware content. The edit must be undetectable."))
     (ops t)
   = Distractions.enabled (distractions t)
     && JS.truthy (JS.trim (Distractions.list (distractions t)))
/\ existsb
     (String.eqb
        ("HAIR STYLING: mode: custom, instruction: "
         ++ JS.dquote ++ HairStyling.customInstruction (hairStyling t) ++ JS.dquote
         ++ "; maintain realistic texture/shine; precise masking; no color bleed."))
     (ops t)
   = HairStyling.enabled (hairStyling t)
     && hairMode_eqb (HairStyling.mode (hairStyling t)) HairCustom
/\ existsb
     (String.eqb
        ("BACKGROUND: mode: custom, instruction: "
         ++ JS.dquote ++ Background.customInstruction (background t) ++ JS.dquote
         ++ "; hair-safe matting; realistic shadows; no halos/spill."))
     (ops t)
   = Background.enabled (background t)
     && backgroundMode_eqb (Background.mode (background t)) BgCustom.
Proof.
split; [apply has_clause_contributes|].
rewrite !existsb_eqb_ops. unfold canonical_order. cbn [existsb contributes].
split; [|split].
- replace (String.eqb _ (clause t GSuperResolution)) with false by reflexivity.
  replace (String.eqb _ (clause t GColorTone)) with false by reflexivity.
  replace (String.eqb _ (clause t GFacialRetouch)) with false by reflexivity.
  replace (String.eqb _ (clause t GPreserveDetails)) with false by reflexivity.
  replace (String.eqb _ (clause t GHairStyling)) with false by reflexivity.
  replace (String.eqb _ (clause t GBackground)) with false by reflexivity.
  replace (String.eqb _ (clause t GCrop)) with false by reflexivity.
  replace (String.eqb _ (clause t GNoiseAndOptics)) with false by reflexivity.
  replace (String.eqb _ (clause t GDistractions)) with true
    by (symmetry; apply String.eqb_refl).
  rewrite ?andb_false_r, ?andb_true_r, ?orb_false_r, ?orb_false_l. reflexivity.
- replace (String.eqb _ (clause t GSuperResolution)) with false by reflexivity.
  replace (String.eqb _ (clause t GColorTone)) with false by reflexivity.
  replace (String.eqb _ (clause t GFacialRetouch)) with false by reflexivity.
  replace (String.eqb _ (clause t GPreserveDetails)) with false by reflexivity.
  replace (String.eqb _ (clause t GBackground)) with false by reflexivity.
  replace (String.eqb _ (clause t GCrop)) with false by reflexivity.
  replace (String.eqb _ (clause t GDistractions)) with false by reflexivity.
  replace (String.eqb _ (clause t GNoiseAndOptics)) with false by reflexivity.
  rewrite ?andb_false_r, ?andb_true_r, ?orb_false_r, ?orb_false_l.
  cbn [clause]. unfold hairStyling_clause, hair_text.
  destruct (hairStyling t) as [en m col ci]. cbn [HairStyling.enabled HairStyling.mode
    HairStyling.color HairStyling.customInstruction].
  destruct en; [|reflexivity]. destruct m; cbn [hairMode_eqb negb andb]; try reflexivity.
  rewrite !string_app_assoc. apply String.eqb_refl.
- replace (String.eqb _ (clause t GSuperResolution)) with false by reflexivity.
  replace (String.eqb _ (clause t GColorTone)) with false by reflexivity.
  replace (String.eqb _ (clause t GFacialRetouch)) with false by reflexivity.
  replace (String.eqb _ (clause t GPreserveDetails)) with false by reflexivity.
  replace (String.eqb _ (clause t GHairStyling)) with false by reflexivity.
  replace (String.eqb _ (clause t GCrop)) with false by reflexivity.
  replace (String.eqb _ (clause t GDistractions)) with false by reflexivity.
  replace (String.eqb _ (clause t GNoiseAndOptics)) with false by reflexivity.
  rewrite ?andb_false_r, ?andb_true_r, ?orb_false_r, ?orb_false_l.
  cbn [clause]. unfold background_clause, background_text.
  destruct (background t) as [en m col ci]. cbn [Background.enabled Background.mode
    Background.solidColor Background.customInstruction].
  destruct en; [|reflexivity]. destruct m; cbn [backgroundMode_eqb andb]; try reflexivity.
  rewrite !string_app_assoc. apply String.eqb_refl.
Qed.

End FreeText.

(** ** The settings history *)

Section History.

Variable env : Env.

Lemma dispatch_all_app (s : AppState) (l1 l2 : list Action) :
  dispatch_all env s (l1 ++ l2)
  = match dispatch_all env s l1 with
    | Some s' => dispatch_all env s' l2
    | None => None
    end.
Proof.
  revert s. induction l1 as [|a l1 IH]; intros s; simpl; [reflexivity|].
  destruct (appReducer env s a); [apply IH | reflexivity].
Qed.

Lemma goto_self (s : AppState) : synced s -> goto (historyIndex s) s = s.
Proof.
  unfold synced, goto. intros H.
  rewrite (nth_error_nth _ _ _ H). destruct s; reflexivity.
Qed.

Lemma goto_goto (j k : nat) (s : AppState) :
  k < length (history s) -> goto k (goto j s) = goto k s.
Proof.
  intros Hk. unfold goto. cbn [history set_historyIndex set_tools tools].
  rewrite (nth_indep _ _ {| tools_of := tools s |} Hk). reflexivity.
Qed.

Lemma goto_wf (j : nat) (s : AppState) :
  j < length (history s) -> history_wf (goto j s) /\ synced (goto j s).
Proof.
  intros Hj. unfold history_wf, synced, goto. cbn. split; [exact Hj|].
  rewrite (nth_error_nth' _ {| tools_of := tools s |} Hj).
  destruct (nth j (history s) {| tools_of := tools s |}); reflexivity.
Qed.

Lemma undo_goto (s : AppState) :
  history_wf s -> synced s ->
  appReducer env s UNDO = Some (goto (historyIndex s - 1) s).
Proof.
  unfold history_wf. intros Hwf Hs. cbn [appReducer].
  destruct (Nat.ltb_spec 0 (historyIndex s)) as [Hpos|Hz].
  - assert (Hi : historyIndex s - 1 < length (history s)) by lia.
    rewrite (nth_error_nth' _ {| tools_of := tools s |} Hi).
    unfold goto. destruct s; reflexivity.
  - replace (historyIndex s - 1) with (historyIndex s) by lia.
    rewrite (goto_self s Hs). reflexivity.
Qed.

Lemma redo_goto (s : AppState) :
  history_wf s -> synced s ->
  appReducer env s REDO
  = Some (goto (Nat.min (historyIndex s + 1) (length (history s) - 1)) s).
Proof.
  unfold history_wf. intros Hwf Hs. cbn [appReducer].
  destruct (Nat.ltb_spec (historyIndex s) (length (history s) - 1)) as [Hlt|Hge].
  - assert (Hi : historyIndex s + 1 < length (history s)) by lia.
    rewrite (nth_error_nth' _ {| tools_of := tools s |} Hi).
    replace (Nat.min (historyIndex s + 1) (length (history s) - 1))
      with (historyIndex s + 1) by lia.
    unfold goto. destruct s; reflexivity.
  - replace (Nat.min (historyIndex s + 1) (length (history s) - 1))
      with (historyIndex s) by lia.
    rewrite (goto_self s Hs). reflexivity.
Qed.

Lemma undo_many (k : nat) (s : AppState) :
  history_wf s -> synced s ->
  dispatch_all env s (repeat UNDO k) = Some (goto (historyIndex s - k) s).
Proof.
  revert s. induction k as [|k IH]; intros s Hwf Hs.
  - simpl. rewrite Nat.sub_0_r, (goto_self s Hs). reflexivity.
  - cbn [repeat dispatch_all]. rewrite (undo_goto s Hwf Hs).
    assert (Hi : historyIndex s - 1 < length (history s)) by (unfold history_wf in Hwf; lia).
    destruct (goto_wf _ s Hi) as [Hwf' Hs'].
    rewrite (IH _ Hwf' Hs').
    replace (historyIndex (goto (historyIndex s - 1) s) - k) with (historyIndex s - S k)
      by (unfold goto; cbn; lia).
    rewrite goto_goto; [reflexivity | unfold history_wf in Hwf; lia].
Qed.

Lemma redo_many (k : nat) (s : AppState) :
  history_wf s -> synced s ->
  dispatch_all env s (repeat REDO k)
  = Some (goto (Nat.min (historyIndex s + k) (length (history s) - 1)) s).
Proof.
  revert s. induction k as [|k IH]; intros s Hwf Hs.
  - simpl. unfold history_wf in Hwf.
    replace (Nat.min (historyIndex s + 0) (length (history s) - 1)) with (historyIndex s)
      by lia.
    rewrite (goto_self s Hs). reflexivity.
  - cbn [repeat dispatch_all]. rewrite (redo_goto s Hwf Hs).
    unfold history_wf in Hwf.
    assert (Hi : Nat.min (historyIndex s + 1) (length (history s) - 1) < length (history s))
      by lia.
    destruct (goto_wf _ s Hi) as [Hwf' Hs'].
    rewrite (IH _ Hwf' Hs').
    rewrite goto_goto by (unfold goto; cbn; lia).
    f_equal. f_equal. unfold goto. cbn. lia.
Qed.

(** A record action never throws; it leaves the index on the last entry,
    which holds the recorded settings. *)
Lemma record_tip (s : AppState) (r : RecordOp) :
  exists s',
    appReducer env s (record_action r) = Some s'
    /\ historyIndex s' + 1 = length (history s')
    /\ synced s'
    /\ tools s' = recorded (tools s) r.
Proof.
  destruct r as [u|t]; cbn [record_action appReducer recorded];
    eexists; (split; [reflexivity|]); unfold synced;
    cbn [historyIndex history tools set_tools set_history set_historyIndex];
    rewrite length_app; cbn [length];
    (split; [lia|]); (split; [|reflexivity]);
    replace (length (JS.slice0 (historyIndex s + 1) (history s)) + 1 - 1)
      with (length (JS.slice0 (historyIndex s + 1) (history s)) + 0) by lia;
    rewrite nth_error_app2 by lia;
    replace (length (JS.slice0 (historyIndex s + 1) (history s)) + 0
             - length (JS.slice0 (historyIndex s + 1) (history s))) with 0 by lia;
    reflexivity.
Qed.

Lemma records_tip (s0 : AppState) (recs : list RecordOp) :
  recs <> [] ->
  exists s1,
    dispatch_all env s0 (map record_action recs) = Some s1
    /\ historyIndex s1 + 1 = length (history s1)
    /\ synced s1.
Proof.
  revert s0. induction recs as [|r recs IH]; intros s0 Hne; [congruence|].
  destruct (record_tip s0 r) as (s' & Hr & Hi & Hs & _).
  cbn [map dispatch_all]. rewrite Hr.
  destruct recs as [|r' recs'].
  - exists s'. simpl. auto.
  - apply IH. discriminate.
Qed.

(** C7. From any state, after [N] record operations, [k <= N] undos followed
    by [k] redos bring the state back to what it was before the undos; in
    particular the current settings are those held before the undos.  None
    of the dispatches throws. *)
Theorem undo_redo_round_trip (s0 : AppState) (recs : list RecordOp) (k : nat) :
  k <= length recs ->
  exists s1 s2,
    dispatch_all env s0 (map record_action recs) = Some s1
    /\ dispatch_all env s1 (repeat UNDO k ++ repeat REDO k) = Some s2
    /\ tools s2 = tools s1
    /\ s2 = s1.
Proof.
  intros Hk. destruct recs as [|r recs].
  - assert (k = 0) by (simpl in Hk; lia). subst k.
    exists s0, s0. repeat split; reflexivity.
  - destruct (records_tip s0 (r :: recs)) as (s1 & Hrun & Hi & Hs); [discriminate|].
    exists s1, s1. split; [exact Hrun|]. split; [|split; reflexivity].
    assert (Hwf : history_wf s1) by (unfold history_wf; lia).
    rewrite dispatch_all_app, (undo_many k s1 Hwf Hs).
    assert (Hj : historyIndex s1 - k < length (history s1)) by (unfold history_wf in Hwf; lia).
    destruct (goto_wf _ s1 Hj) as [Hwf' Hs'].
    rewrite (redo_many k _ Hwf' Hs').
    rewrite goto_goto by (unfold goto; cbn; lia).
    replace (Nat.min (historyIndex (goto (historyIndex s1 - k) s1) + k)
               (length (history (goto (historyIndex s1 - k) s1)) - 1))
      with (historyIndex s1) by (unfold goto; cbn; lia).
    rewrite (goto_self s1 Hs). reflexivity.
Qed.

(** C8. In a state whose index addresses an entry other than the first,
    after an undo and the recording of a settings value [X], a redo changes
    nothing and the current settings are [X]. *)
Theorem redo_after_record_is_noop (s : AppState) (r : RecordOp) :
  history_wf s -> 0 < historyIndex s ->
  exists s1 s2,
    appReducer env s UNDO = Some s1
    /\ appReducer env s1 (record_action r) = Some s2
    /\ appReducer env s2 REDO = Some s2
    /\ tools s2 = recorded (tools s1) r.
Proof.
  unfold history_wf. intros Hwf Hpos.
  assert (Hi : historyIndex s - 1 < length (history s)) by lia.
  assert (Hu : exists s1, appReducer env s UNDO = Some s1).
  { cbn [appReducer]. destruct (Nat.ltb_spec 0 (historyIndex s)); [|lia].
    rewrite (nth_error_nth' _ {| tools_of := tools s |} Hi). eexists. reflexivity. }
  destruct Hu as [s1 Hu].
  destruct (record_tip s1 r) as (s2 & Hr & Htip & _ & Ht).
  exists s1, s2. repeat split; try assumption.
  cbn [appReducer].
  destruct (Nat.ltb_spec (historyIndex s2) (length (history s2) - 1)); [lia|reflexivity].
Qed.

End History.

Lemma undo_redo_round_trip_witness :
  2 <= length [RecordUpdate (UpCrop {| Crop.p_enabled := Some true;
                                       Crop.p_aspectRatio := Some R4x5 |});
               RecordPreset Samples.noise_all_zero]
  /\ exists s1 s2,
       dispatch_all no_env initialState
         (map record_action
              [RecordUpdate (UpCrop {| Crop.p_enabled := Some true;
                                       Crop.p_aspectRatio := Some R4x5 |});
               RecordPreset Samples.noise_all_zero]) = Some s1
       /\ dispatch_all no_env s1 (repeat UNDO 2 ++ repeat REDO 2) = Some s2
       /\ tools s2 = tools s1
       /\ s2 = s1.
Proof.
  split; [simpl; lia|].
  apply (undo_redo_round_trip no_env initialState
           [RecordUpdate (UpCrop {| Crop.p_enabled := Some true;
                                    Crop.p_aspectRatio := Some R4x5 |});
            RecordPreset Samples.noise_all_zero] 2).
  simpl; lia.
Defined.

Lemma redo_after_record_is_noop_witness :
  history_wf Samples.edited_once
  /\ 0 < historyIndex Samples.edited_once
  /\ exists s1 s2,
       appReducer no_env Samples.edited_once UNDO = Some s1
       /\ appReducer no_env s1 (record_action (RecordPreset Samples.noise_all_zero)) = Some s2
       /\ appReducer no_env s2 REDO = Some s2
       /\ tools s2 = recorded (tools s1) (RecordPreset Samples.noise_all_zero).
Proof.
  split; [unfold history_wf; simpl; lia|].
  split; [simpl; lia|].
  apply (redo_after_record_is_noop no_env Samples.edited_once
           (RecordPreset Samples.noise_all_zero)).
  - unfold history_wf; simpl; lia.
  - simpl; lia.
Defined.

(** ** The batch queue *)

Section BatchQueue.

Lemma update_batch_item_no_match (p : BatchItemPatch) (q : list BatchItem) :
  forallb (fun item => negb (id item =? patch_id p)%string) q = true ->
  update_batch_item p q = q.
Proof.
  unfold update_batch_item. induction q as [|x q IH]; simpl; [reflexivity|].
  intros H. apply andb_true_iff in H. destruct H as [Hx Hq].
  apply negb_true_iff in Hx. rewrite Hx, (IH Hq). reflexivity.
Qed.

Lemma set_batchQueue_same (s : AppState) : set_batchQueue (batchQueue s) s = s.
Proof. destruct s; reflexivity. Qed.

(** C10. An [UPDATE_BATCH_ITEM] whose id matches no item of the batch queue
    returns a state equal to its input, and does not throw. *)
Theorem update_of_unknown_id_is_identity (env : Env) (s : AppState) (p : BatchItemPatch) :
  forallb (fun item => negb (id item =? patch_id p)%string) (batchQueue s) = true ->
  appReducer env s (UPDATE_BATCH_ITEM p) = Some s.
Proof.
  intros H. cbn [appReducer].
  rewrite (update_batch_item_no_match p _ H), set_batchQueue_same. reflexivity.
Qed.

Lemma update_of_unknown_id_is_identity_witness :
  forallb (fun item => negb (id item =? patch_id (error_payload
             (new_item Samples.sample_env initialToolStates Samples.portrait 1) "late"))%string)
          (batchQueue Samples.one_item_state) = true
  /\ appReducer no_env Samples.one_item_state
       (UPDATE_BATCH_ITEM (error_payload
          (new_item Samples.sample_env initialToolStates Samples.portrait 1) "late"))
     = Some Samples.one_item_state.
Proof.
  split; [reflexivity|].
  apply (update_of_unknown_id_is_identity no_env Samples.one_item_state
           (error_payload (new_item Samples.sample_env initialToolStates Samples.portrait 1)
                          "late")).
  reflexivity.
Defined.

(** After [CLEAR_BATCH] every late completion is of this kind. *)
Lemma late_completion_after_clear (env : Env) (s s' : AppState) (p : BatchItemPatch) :
  appReducer env s CLEAR_BATCH = Some s' ->
  appReducer env s' (UPDATE_BATCH_ITEM p) = Some s'.
Proof.
  cbn [appReducer]. intros H. inversion H; subst.
  cbn [batchQueue set_batchQueue update_batch_item map]. reflexivity.
Qed.

End BatchQueue.

(** ** The batch scheduler *)

Section Scheduler.

Lemma count_processing_cons (x : BatchItem) (q : list BatchItem) :
  count_processing (x :: q) = (if is_processing x then 1 else 0) + count_processing q.
Proof. unfold count_processing. simpl. destruct (is_processing x); reflexivity. Qed.

Lemma count_processing_app (q1 q2 : list BatchItem) :
  count_processing (q1 ++ q2) = count_processing q1 + count_processing q2.
Proof. unfold count_processing. rewrite filter_app, length_app. reflexivity. Qed.

Lemma ids_update_batch_item (p : BatchItemPatch) (q : list BatchItem) :
  ids (update_batch_item p q) = ids q.
Proof.
  unfold ids, update_batch_item. induction q as [|x q IH]; simpl; [reflexivity|].
  rewrite IH. destruct (String.eqb_spec (id x) (patch_id p)) as [E|_]; simpl;
    [rewrite E|]; reflexivity.
Qed.

Lemma count_update_safe (p : BatchItemPatch) (q : list BatchItem) :
  queue_safe (UPDATE_BATCH_ITEM p) = true ->
  count_processing (update_batch_item p q) <= count_processing q.
Proof.
  cbn [queue_safe]. intros Hp.
  induction q as [|x q IH]; [apply Nat.le_refl|].
  change (update_batch_item p (x :: q))
    with ((if (id x =? patch_id p)%string then merge_item x p else x)
          :: update_batch_item p q).
  rewrite !count_processing_cons.
  destruct (id x =? patch_id p)%string; [|lia].
  unfold is_processing at 1. cbn [merge_item status]. unfold JS.over, JS.or_else.
  destruct (patch_status p) as [[| | | |]|]; cbn [status_eqb]; try discriminate;
    fold (is_processing x); destruct (is_processing x); lia.
Qed.

Lemma absent_id_no_match (i : string) (q : list BatchItem) :
  ~ In i (ids q) -> forallb (fun item => negb (id item =? i)%string) q = true.
Proof.
  induction q as [|x q IH]; simpl; [reflexivity|]. intros H.
  apply andb_true_iff. split.
  - apply negb_true_iff. apply String.eqb_neq. intros E. apply H. left. exact E.
  - apply IH. intros Hin. apply H. right. exact Hin.
Qed.

(** With distinct ids one payload changes at most one item. *)
Lemma count_update_any (p : BatchItemPatch) (q : list BatchItem) :
  NoDup (ids q) ->
  count_processing (update_batch_item p q) <= S (count_processing q).
Proof.
  induction q as [|x q IH]; intros Hnd; [simpl; lia|].
  simpl in Hnd. inversion Hnd as [|? ? Hnotin Hnd']; subst.
  change (update_batch_item p (x :: q))
    with ((if (id x =? patch_id p)%string then merge_item x p else x)
          :: update_batch_item p q).
  rewrite !count_processing_cons.
  destruct (String.eqb_spec (id x) (patch_id p)) as [E|_].
  - rewrite E in Hnotin.
    rewrite (update_batch_item_no_match p q (absent_id_no_match _ _ Hnotin)).
    destruct (is_processing (merge_item x p)), (is_processing x); lia.
  - specialize (IH Hnd'). lia.
Qed.

Lemma distinct_NoDup (l : list string) : distinct l = true -> NoDup l.
Proof.
  induction l as [|x l IH]; simpl; intros H; [constructor|].
  apply andb_true_iff in H. destruct H as [Hx Hl].
  constructor; [|apply IH, Hl].
  intros Hin. apply negb_true_iff in Hx.
  assert (existsb (String.eqb x) l = true); [|congruence].
  apply existsb_exists. exists x. split; [exact Hin | apply String.eqb_refl].
Qed.

Lemma new_items_not_processing (env : Env) (t : ToolStates) (files : list ImageFile) (k : nat) :
  count_processing (JS.mapi_from k (new_item env t) files) = 0.
Proof.
  revert k. induction files as [|f files IH]; intros k; [reflexivity|].
  cbn [JS.mapi_from]. rewrite count_processing_cons, IH. reflexivity.
Qed.

Lemma with_preset_map (t : ToolStates) (q : list BatchItem) :
  let q' := map (fun item => if status_eqb (status item) pending
                             then with_preset t item else item) q in
  ids q' = ids q /\ count_processing q' = count_processing q.
Proof.
  induction q as [|x q [IH1 IH2]]; [split; reflexivity|].
  cbn [map]. split.
  - unfold ids in *. cbn [map]. rewrite IH1.
    destruct (status_eqb (status x) pending); reflexivity.
  - rewrite !count_processing_cons, IH2.
    destruct (status_eqb (status x) pending); reflexivity.
Qed.

(** Every action but the two excluded by [queue_safe] keeps the invariant,
    and none throws. *)
Lemma reducer_safe_ok (env : Env) (s : AppState) (a : Action) :
  state_ok s -> queue_safe a = true ->
  exists s', appReducer env s a = Some s' /\ state_ok s'.
Proof.
  unfold state_ok, history_wf. intros (Hwf & Hnd & Hc) Hsafe.
  destruct a; try discriminate Hsafe; cbn [appReducer];
    try (eexists; split; [reflexivity|];
         cbn [history historyIndex batchQueue set_tools set_history set_historyIndex
              set_currentImage set_enhancedImage set_isLoading set_toast set_currentPrompt
              set_userPresets set_showBuiltInPresets set_batchQueue set_enhancedLibrary
              initialState length];
         rewrite ?length_app; cbn [length];
         repeat split; solve [assumption | lia | constructor]).
  - (* UNDO *)
    destruct (Nat.ltb_spec 0 (historyIndex s)).
    + assert (Hi : historyIndex s - 1 < length (history s)) by lia.
      rewrite (nth_error_nth' _ {| tools_of := tools s |} Hi).
      eexists; split; [reflexivity|]. cbn. repeat split; assumption || lia.
    + eexists; split; [reflexivity|]. repeat split; assumption.
  - (* REDO *)
    destruct (Nat.ltb_spec (historyIndex s) (length (history s) - 1)).
    + assert (Hi : historyIndex s + 1 < length (history s)) by lia.
      rewrite (nth_error_nth' _ {| tools_of := tools s |} Hi).
      eexists; split; [reflexivity|]. cbn. repeat split; assumption || lia.
    + eexists; split; [reflexivity|]. repeat split; assumption.
  - (* UPDATE_BATCH_ITEM *)
    eexists; split; [reflexivity|]. cbn [history historyIndex batchQueue set_batchQueue].
    rewrite ids_update_batch_item. repeat split; try assumption.
    pose proof (count_update_safe payload (batchQueue s) Hsafe). lia.
  - (* CLEAR_BATCH *)
    eexists; split; [reflexivity|]. cbn [history historyIndex batchQueue set_batchQueue].
    repeat split; [assumption | apply NoDup_nil | unfold count_processing, BATCH_CONCURRENCY; simpl; lia].
  - (* APPLY_PRESET_TO_BATCH *)
    eexists; split; [reflexivity|]. cbn [history historyIndex batchQueue set_batchQueue].
    match goal with
    | |- context [with_preset ?t] =>
        destruct (with_preset_map t (batchQueue s)) as [E1 E2]
    end.
    cbn zeta in E1, E2.
    rewrite E1, E2. repeat split; assumption.
Qed.

Lemma reducer_enqueue_ok (env : Env) (s : AppState) (files : list ImageFile) :
  state_ok s ->
  distinct (ids (batchQueue s) ++ ids (JS.mapi (new_item env (tools s)) files)) = true ->
  exists s', appReducer env s (ADD_TO_BATCH files) = Some s' /\ state_ok s'.
Proof.
  unfold state_ok, history_wf. intros (Hwf & Hnd & Hc) Hd.
  cbn [appReducer]. eexists; split; [reflexivity|].
  cbn [history historyIndex batchQueue set_batchQueue].
  repeat split; [assumption | |].
  - unfold ids in *. rewrite map_app. apply distinct_NoDup, Hd.
  - rewrite count_processing_app. unfold JS.mapi.
    rewrite new_items_not_processing. lia.
Qed.

(** The synchronous part of the effect: one ['processing'] payload per item. *)
Lemma effect_dispatches_ok (s : AppState) (items : list BatchItem) :
  history_wf s -> NoDup (ids (batchQueue s)) ->
  exists s',
    dispatch_all no_env s
      (map (fun item => UPDATE_BATCH_ITEM (processing_payload item)) items) = Some s'
    /\ history_wf s'
    /\ NoDup (ids (batchQueue s'))
    /\ count_processing (batchQueue s') <= count_processing (batchQueue s) + length items.
Proof.
  revert s. induction items as [|item items IH]; intros s Hwf Hnd.
  - exists s. simpl. repeat split; [assumption | assumption | lia].
  - cbn [map dispatch_all appReducer].
    destruct (IH (set_batchQueue (update_batch_item (processing_payload item) (batchQueue s)) s))
      as (s' & Hrun & Hwf' & Hnd' & Hc').
    + exact Hwf.
    + cbn [batchQueue set_batchQueue]. rewrite ids_update_batch_item. exact Hnd.
    + exists s'. split; [exact Hrun|]. repeat split; [assumption | assumption |].
      cbn [batchQueue set_batchQueue] in Hc'.
      pose proof (count_update_any (processing_payload item) (batchQueue s) Hnd).
      cbn [length]. lia.
Qed.

Lemma itemsToProcess_length (q : list BatchItem) :
  count_processing q <= BATCH_CONCURRENCY ->
  count_processing q + length (itemsToProcess q) <= BATCH_CONCURRENCY.
Proof.
  intros Hc. unfold itemsToProcess. fold (count_processing q).
  destruct (Nat.leb_spec BATCH_CONCURRENCY (count_processing q)); cbn [orb].
  - simpl. lia.
  - destruct (length (filter is_pending q) =? 0); [simpl; lia|].
    unfold JS.slice0. rewrite length_firstn. lia.
Qed.

(** What the [try]/[catch] dispatches never marks an item as being processed. *)
Lemma settle_safe (ai : option GoogleGenAI) (c : Call) (o : ApiOutcome) :
  forallb queue_safe (settle ai c o) = true.
Proof.
  unfold settle.
  destruct (enhanceImage ai (file (call_item c))
              (JS.or_else (preset (call_item c)) (call_tools c)) (call_model c) o);
    reflexivity.
Qed.

Lemma dispatch_all_safe_ok (env : Env) (actions : list Action) (s : AppState) :
  state_ok s -> forallb queue_safe actions = true ->
  exists s', dispatch_all env s actions = Some s' /\ state_ok s'.
Proof.
  revert s. induction actions as [|a actions IH]; intros s Hok Hsafe.
  - exists s. split; [reflexivity | exact Hok].
  - cbn [forallb] in Hsafe. apply andb_true_iff in Hsafe. destruct Hsafe as [Ha Hrest].
    destruct (reducer_safe_ok env s a Hok Ha) as (s1 & Hr & Hok1).
    cbn [dispatch_all]. rewrite Hr. apply IH; assumption.
Qed.

(** One admissible event keeps the invariant and does not throw. *)
Lemma step_ok (ai : option GoogleGenAI) (w : World) (ev : Event) :
  state_ok (app w) -> admissible w ev = true ->
  exists w', step ai w ev = Some w' /\ state_ok (app w').
Proof.
  intros Hok Hadm. destruct ev as [env a| |n o]; cbn [step].
  - assert (H : exists s', appReducer env (app w) a = Some s' /\ state_ok s').
    { destruct a; cbn [admissible] in Hadm;
        try (apply reducer_safe_ok; [exact Hok | reflexivity]).
      - apply reducer_enqueue_ok; assumption.
      - apply reducer_safe_ok; [exact Hok|]. cbn [queue_safe].
        destruct (patch_status payload) as [[| | | |]|]; try discriminate; reflexivity. }
    destruct H as (s' & Hr & Hok'). rewrite Hr. eexists; split; [reflexivity | exact Hok'].
  - destruct Hok as (Hwf & Hnd & Hc).
    destruct (effect_dispatches_ok (app w) (itemsToProcess (batchQueue (app w))) Hwf Hnd)
      as (s' & Hrun & Hwf' & Hnd' & Hc').
    rewrite Hrun. eexists; split; [reflexivity|]. cbn [app].
    pose proof (itemsToProcess_length (batchQueue (app w)) Hc).
    repeat split; [assumption | assumption | lia].
  - destruct (nth_error (inflight w) n) as [c|].
    + destruct (dispatch_all_safe_ok no_env (settle ai c o) (app w) Hok (settle_safe ai c o))
        as (s' & Hrun & Hok').
      rewrite Hrun. eexists; split; [reflexivity | exact Hok'].
    + exists w. split; [reflexivity | exact Hok].
Qed.

Lemma run_ok (ai : option GoogleGenAI) (evs : list Event) (w : World) :
  state_ok (app w) -> admissible_run ai w evs = true ->
  exists w', run ai w evs = Some w' /\ state_ok (app w').
Proof.
  revert w. induction evs as [|ev evs IH]; intros w Hok Hadm.
  - exists w. split; [reflexivity | exact Hok].
  - cbn [admissible_run] in Hadm. apply andb_true_iff in Hadm. destruct Hadm as [Hev Hrest].
    destruct (step_ok ai w ev Hok Hev) as (w1 & Hstep & Hok1).
    cbn [run]. rewrite Hstep in *. apply IH; assumption.
Qed.

Lemma initialWorld_ok : state_ok (app initialWorld).
Proof.
  unfold state_ok, history_wf. cbn. repeat split; [lia | apply NoDup_nil | lia].
Qed.

(** C5. Along every run of enqueue, cancel, effect and completion events
    from the initial state, in which the controls dispatch only what they
    can and the ids drawn for new items are new, no dispatch throws and the
    number of items whose status is ['processing'] never exceeds
    [BATCH_CONCURRENCY], which is 2. *)
Theorem processing_never_exceeds_cap (ai : option GoogleGenAI) (evs : list Event) :
  admissible_run ai initialWorld evs = true ->
  exists w,
    run ai initialWorld evs = Some w
    /\ count_processing (batchQueue (app w)) <= BATCH_CONCURRENCY
    /\ BATCH_CONCURRENCY = 2.
Proof.
  intros Hadm.
  destruct (run_ok ai evs initialWorld initialWorld_ok Hadm) as (w & Hrun & _ & _ & Hc).
  exists w. repeat split; assumption || reflexivity.
Qed.

End Scheduler.

Lemma processing_never_exceeds_cap_witness :
  admissible_run None initialWorld Samples.three_enqueued = true
  /\ exists w,
       run None initialWorld Samples.three_enqueued = Some w
       /\ count_processing (batchQueue (app w)) <= BATCH_CONCURRENCY
       /\ BATCH_CONCURRENCY = 2.
Proof.
  split; [vm_compute; reflexivity|].
  apply (processing_never_exceeds_cap None Samples.three_enqueued).
  vm_compute; reflexivity.
Defined.

(** ** Cancellation and late completions *)

(** A payload overwrites the status of every item it names, whatever that
    status was. *)
Lemma completion_overwrites_status (p : BatchItemPatch) (st : Status) (q : list BatchItem)
    (item : BatchItem) :
  patch_status p = Some st -> id item = patch_id p -> In item q ->
  In (merge_item item p) (update_batch_item p q) /\ status (merge_item item p) = st.
Proof.
  intros Hst Hid Hin. split.
  - unfold update_batch_item. apply in_map_iff. exists item. split; [|exact Hin].
    rewrite Hid, String.eqb_refl. reflexivity.
  - cbn [merge_item status]. rewrite Hst. reflexivity.
Qed.

(** C1, the code at the failing input.  One file is enqueued and admitted,
    then cancelled while its call is outstanding; the events are ones the
    application produces.  When the call then resolves with an image the
    item becomes ['done'] with its result set, and when it rejects the item
    becomes ['error'] with its error set: the ['cancelled'] status is
    overwritten in both cases. *)
Lemma late_completion_overwrites_cancelled :
  let ai := make_ai (Some "key") in
  admissible_run ai initialWorld (Samples.cancelled_in_flight ++ [Settle 0 Samples.image_response])
  = true
  /\ Samples.queue_view (run ai initialWorld Samples.cancelled_in_flight)
     = Some [(Samples.portrait_id, cancelled, None, None)]
  /\ Samples.queue_view
       (run ai initialWorld (Samples.cancelled_in_flight ++ [Settle 0 Samples.image_response]))
     = Some [(Samples.portrait_id, done, Some "data:image/png;base64,BBBB", None)]
  /\ Samples.queue_view
       (run ai initialWorld (Samples.cancelled_in_flight ++ [Settle 0 Samples.quota_failure]))
     = Some [(Samples.portrait_id, error, None, Some "quota exceeded")].
Proof. repeat split; vm_compute; reflexivity. Qed.

(** ** A missing API key *)

(** C4, counterexample.  Without an API key, enqueueing a file queues a
    ['pending'] job, the effect admits it to ['processing'], and the call
    drives it to the per-job ['error'] status; the state never carries a
    toast. *)
Lemma missing_key_jobs_are_queued_and_failed :
  let ai := make_ai None in
  let enqueue := Dispatch Samples.sample_env (ADD_TO_BATCH [Samples.portrait]) in
  ai = None
  /\ Samples.queue_view (run ai initialWorld [enqueue])
     = Some [(Samples.portrait_id, pending, None, None)]
  /\ Samples.queue_view (run ai initialWorld [enqueue; RunEffect])
     = Some [(Samples.portrait_id, processing, None, None)]
  /\ Samples.queue_view
       (run ai initialWorld [enqueue; RunEffect; Settle 0 Samples.image_response])
     = Some [(Samples.portrait_id, error, None, Some MISSING_API_KEY)]
  /\ option_map (fun w => toast (app w))
       (run ai initialWorld [enqueue; RunEffect; Settle 0 Samples.image_response])
     = Some None.
Proof. repeat split; vm_compute; reflexivity. Qed.

(** C4, as amended.  Without an API key an [ADD_TO_BATCH] still appends one
    ['pending'] job per file, the effect admits jobs exactly as it does with
    a key, and every call then fails with the missing-key message: what is
    dispatched for it is the per-job payload that sets the status ['error']
    and the error message on the job. *)
Theorem missing_key_fails_each_job (env : Env) (w : World) (files : list ImageFile)
    (k : string) (c : Call) (o : ApiOutcome) (item : BatchItem) :
  step (make_ai None) w (Dispatch env (ADD_TO_BATCH files))
  = Some {| app := set_batchQueue
                     (batchQueue (app w) ++ JS.mapi (new_item env (tools (app w))) files)
                     (app w);
            inflight := inflight w |}
  /\ forallb is_pending (JS.mapi (new_item env (tools (app w))) files) = true
  /\ step (make_ai None) w RunEffect = step (make_ai (Some k)) w RunEffect
  /\ settle (make_ai None) c o
     = [UPDATE_BATCH_ITEM (error_payload (call_item c) MISSING_API_KEY)]
  /\ status (merge_item item (error_payload (call_item c) MISSING_API_KEY)) = error
  /\ error_msg (merge_item item (error_payload (call_item c) MISSING_API_KEY))
     = Some MISSING_API_KEY.
Proof.
  repeat split.
  unfold JS.mapi. generalize 0.
  induction files as [|f files IH]; intros n; [reflexivity|].
  cbn [JS.mapi_from forallb]. rewrite IH. reflexivity.
Qed.

(** * Further properties of the reducer and of the controls *)

(** ** The settings history *)

(** X1. In a state whose index addresses a history entry holding the live
    settings, no action makes the reducer throw, and the state it returns
    is again of that kind. *)
Theorem reducer_keeps_history_invariant (env : Env) (s : AppState) (a : Action) :
  history_wf s -> synced s ->
  exists s', appReducer env s a = Some s' /\ history_wf s' /\ synced s'.
Proof.
  intros Hwf Hs.
  destruct a;
    try (eexists; split; [reflexivity|]; split; [exact Hwf | exact Hs]);
    try (eexists; split; [reflexivity|]; unfold history_wf, synced; cbn;
         split; [lia | reflexivity]).
  - destruct (record_tip env s (RecordUpdate payload)) as (s' & Hr & Hi & Hs' & _).
    exists s'. split; [exact Hr|]. split; [unfold history_wf; lia | exact Hs'].
  - rewrite (undo_goto env s Hwf Hs). eexists; split; [reflexivity|].
    apply goto_wf. unfold history_wf in Hwf. lia.
  - rewrite (redo_goto env s Hwf Hs). eexists; split; [reflexivity|].
    apply goto_wf. unfold history_wf in Hwf. lia.
  - match goal with
    | |- context [LOAD_PRESET ?t] =>
        destruct (record_tip env s (RecordPreset t)) as (s' & Hr & Hi & Hs' & _)
    end.
    exists s'. split; [exact Hr|]. split; [unfold history_wf; lia | exact Hs'].
Qed.

Lemma reducer_keeps_history_invariant_witness :
  history_wf Samples.edited_once /\ synced Samples.edited_once
  /\ exists s', appReducer no_env Samples.edited_once UNDO = Some s'
                /\ history_wf s' /\ synced s'.
Proof.
  split; [unfold history_wf; simpl; lia|].
  split; [reflexivity|].
  apply (reducer_keeps_history_invariant no_env Samples.edited_once UNDO).
  - unfold history_wf; simpl; lia.
  - reflexivity.
Defined.

Lemma record_shape (env : Env) (s : AppState) (r : RecordOp) :
  history_wf s ->
  exists s1,
    appReducer env s (record_action r) = Some s1
    /\ history s1
       = JS.slice0 (historyIndex s + 1) (history s) ++ [ {| tools_of := recorded (tools s) r |} ]
    /\ historyIndex s1 = historyIndex s + 1
    /\ tools s1 = recorded (tools s) r.
Proof.
  unfold history_wf. intros Hwf.
  assert (Hlen : length (JS.slice0 (historyIndex s + 1) (history s)) = historyIndex s + 1)
    by (unfold JS.slice0; rewrite length_firstn; lia).
  destruct r as [u|t]; cbn [record_action appReducer recorded];
    eexists; (split; [reflexivity|]);
    cbn [historyIndex history tools set_tools set_history set_historyIndex];
    rewrite length_app, Hlen; cbn [length];
    repeat split; lia.
Qed.

(** X2. In such a state, recording a settings value (by [UPDATE_TOOL] or
    [LOAD_PRESET]) and then undoing gives back the settings and the index
    as they were, the history keeping the recorded entry after the index; a
    redo then returns to the state that held the recorded value. *)
Theorem record_then_undo_restores (env : Env) (s : AppState) (r : RecordOp) :
  history_wf s -> synced s ->
  exists s1 s2,
    appReducer env s (record_action r) = Some s1
    /\ appReducer env s1 UNDO = Some s2
    /\ tools s2 = tools s
    /\ historyIndex s2 = historyIndex s
    /\ history s2
       = JS.slice0 (historyIndex s + 1) (history s) ++ [ {| tools_of := recorded (tools s) r |} ]
    /\ appReducer env s2 REDO = Some s1.
Proof.
  intros Hwf Hs.
  destruct (record_shape env s r Hwf) as (s1 & Hr & Hh & Hi & Ht).
  destruct (record_tip env s r) as (s1' & Hr' & Htip & Hs1 & _).
  rewrite Hr in Hr'. inversion Hr'; subst s1'. clear Hr'.
  assert (Hwf1 : history_wf s1) by (unfold history_wf; lia).
  unfold history_wf, synced in Hwf, Hs.
  assert (Hlen : length (JS.slice0 (historyIndex s + 1) (history s)) = historyIndex s + 1)
    by (unfold JS.slice0; rewrite length_firstn; lia).
  assert (Hnth : nth_error (history s1) (historyIndex s) = Some {| tools_of := tools s |}).
  { rewrite Hh, nth_error_app1 by lia. unfold JS.slice0.
    rewrite nth_error_firstn.
    destruct (Nat.ltb_spec (historyIndex s) (historyIndex s + 1)); [exact Hs | lia]. }
  assert (Hj : historyIndex s < length (history s1)) by lia.
  exists s1, (goto (historyIndex s) s1).
  split; [exact Hr|]. split.
  { rewrite (undo_goto env s1 Hwf1 Hs1). do 2 f_equal. lia. }
  split. { unfold goto. cbn. rewrite (nth_error_nth _ _ _ Hnth). reflexivity. }
  split. { reflexivity. }
  split. { exact Hh. }
  destruct (goto_wf _ s1 Hj) as [Hwf2 Hs2].
  rewrite (redo_goto env _ Hwf2 Hs2).
  rewrite goto_goto by (unfold goto; cbn; lia).
  replace (Nat.min (historyIndex (goto (historyIndex s) s1) + 1)
             (length (history (goto (historyIndex s) s1)) - 1))
    with (historyIndex s1) by (unfold goto; cbn; lia).
  rewrite (goto_self s1 Hs1). reflexivity.
Qed.

Lemma record_then_undo_restores_witness :
  history_wf initialState /\ synced initialState
  /\ exists s1 s2,
       appReducer no_env initialState (record_action (RecordPreset Samples.noise_all_zero))
       = Some s1
       /\ appReducer no_env s1 UNDO = Some s2
       /\ tools s2 = tools initialState
       /\ historyIndex s2 = historyIndex initialState
       /\ history s2
          = JS.slice0 (historyIndex initialState + 1) (history initialState)
            ++ [ {| tools_of := recorded (tools initialState)
                                         (RecordPreset Samples.noise_all_zero) |} ]
       /\ appReducer no_env s2 REDO = Some s1.
Proof.
  split; [unfold history_wf; simpl; lia|].
  split; [reflexivity|].
  apply (record_then_undo_restores no_env initialState (RecordPreset Samples.noise_all_zero)).
  - unfold history_wf; simpl; lia.
  - reflexivity.
Defined.

(** X3. Choosing an image, selecting a batch or library item and resetting
    the tools leave a history of one entry: an undo or a redo dispatched
    next changes nothing, so the settings held before cannot be recalled. *)
Theorem history_reset_actions (env : Env) (s : AppState) (img : option ImageFile)
    (item : BatchItem) :
  (exists s', appReducer env s (SET_IMAGE img) = Some s'
              /\ tools s' = tools s
              /\ appReducer env s' UNDO = Some s' /\ appReducer env s' REDO = Some s')
  /\ (exists s', appReducer env s (SELECT_BATCH_ITEM item) = Some s'
                 /\ tools s' = JS.or_else (preset item) (tools s)
                 /\ appReducer env s' UNDO = Some s' /\ appReducer env s' REDO = Some s')
  /\ (exists s', appReducer env s RESET_STATE = Some s'
                 /\ tools s' = initialToolStates
                 /\ batchQueue s' = batchQueue s /\ enhancedLibrary s' = enhancedLibrary s
                 /\ userPresets s' = userPresets s /\ currentImage s' = currentImage s
                 /\ appReducer env s' UNDO = Some s' /\ appReducer env s' REDO = Some s').
Proof.
  repeat split; eexists; (split; [reflexivity|]); repeat split.
Qed.

(** ** What an action leaves alone *)

(** X4. Only [ADD_TO_BATCH], [UPDATE_BATCH_ITEM], [CLEAR_BATCH] and
    [APPLY_PRESET_TO_BATCH] change the batch queue, and only the four
    library actions change the library: editing the tools, undoing,
    redoing, loading a preset, choosing an image or resetting leaves every
    queued job, with the settings it was enqueued with, as it is. *)
Theorem queue_and_library_frame (env : Env) (s s' : AppState) (a : Action) :
  appReducer env s a = Some s' ->
  (touches_queue a = false -> batchQueue s' = batchQueue s)
  /\ (touches_library a = false -> enhancedLibrary s' = enhancedLibrary s).
Proof.
  intros H. destruct a; cbn [appReducer] in H;
    try (inversion H; subst; split; intros; try discriminate; reflexivity).
  - destruct (0 <? historyIndex s); [|inversion H; subst; split; reflexivity].
    destruct (nth_error (history s) (historyIndex s - 1)); [|discriminate].
    inversion H; subst; split; reflexivity.
  - destruct (historyIndex s <? length (history s) - 1);
      [|inversion H; subst; split; reflexivity].
    destruct (nth_error (history s) (historyIndex s + 1)); [|discriminate].
    inversion H; subst; split; reflexivity.
Qed.

Lemma queue_and_library_frame_witness :
  appReducer no_env Samples.one_item_state
    (UPDATE_TOOL (UpCrop {| Crop.p_enabled := Some true; Crop.p_aspectRatio := None |}))
  = Some (set_tools
            (update_tool initialToolStates
               (UpCrop {| Crop.p_enabled := Some true; Crop.p_aspectRatio := None |}))
            (set_history
               [ {| tools_of := initialToolStates |};
                 {| tools_of :=
                      update_tool initialToolStates
                        (UpCrop {| Crop.p_enabled := Some true; Crop.p_aspectRatio := None |}) |} ]
               (set_historyIndex 1 Samples.one_item_state)))
  /\ (touches_queue
        (UPDATE_TOOL (UpCrop {| Crop.p_enabled := Some true; Crop.p_aspectRatio := None |}))
      = false ->
      batchQueue
        (set_tools
           (update_tool initialToolStates
              (UpCrop {| Crop.p_enabled := Some true; Crop.p_aspectRatio := None |}))
           (set_history
              [ {| tools_of := initialToolStates |};
                {| tools_of :=
                     update_tool initialToolStates
                       (UpCrop {| Crop.p_enabled := Some true; Crop.p_aspectRatio := None |}) |} ]
              (set_historyIndex 1 Samples.one_item_state)))
      = batchQueue Samples.one_item_state).
Proof.
  split; [reflexivity|].
  apply (queue_and_library_frame no_env Samples.one_item_state _
           (UPDATE_TOOL (UpCrop {| Crop.p_enabled := Some true; Crop.p_aspectRatio := None |}))).
  reflexivity.
Defined.

(** ** The library *)

Lemma ids_filter_other (i : string) (l : list BatchItem) :
  ~ In i (ids (filter (fun it => negb (id it =? i)%string) l)).
Proof.
  unfold ids. intros H. apply in_map_iff in H. destruct H as (x & Hx & Hin).
  apply filter_In in Hin. destruct Hin as [_ Hne].
  apply negb_true_iff, String.eqb_neq in Hne. congruence.
Qed.

Lemma NoDup_ids_filter (f : BatchItem -> bool) (l : list BatchItem) :
  NoDup (ids l) -> NoDup (ids (filter f l)).
Proof.
  unfold ids. induction l as [|x l IH]; simpl; intros H; [constructor|].
  inversion H as [|? ? Hx Hl]; subst.
  destruct (f x); simpl; [|apply IH, Hl].
  constructor; [|apply IH, Hl].
  intros Hin. apply Hx. apply in_map_iff in Hin. destruct Hin as (y & Hy & Hin).
  apply filter_In in Hin. apply in_map_iff. exists y. tauto.
Qed.

Lemma filter_other_absent (i : string) (l : list BatchItem) :
  ~ In i (ids l) -> filter (fun it => negb (id it =? i)%string) l = l.
Proof.
  induction l as [|x l IH]; simpl; intros H; [reflexivity|].
  destruct (String.eqb_spec (id x) i) as [E|_]; [exfalso; apply H; left; exact E|].
  simpl. rewrite IH; [reflexivity|]. intros Hin. apply H. right. exact Hin.
Qed.

(** X5. [ADD_TO_LIBRARY] puts the item first, drops every entry that had
    its id, and keeps the other entries in their order; the library is at
    most one entry longer, and its ids stay pairwise distinct when they
    were. *)
Theorem add_to_library_moves_to_front (env : Env) (s : AppState) (item : BatchItem) :
  exists s',
    appReducer env s (ADD_TO_LIBRARY item) = Some s'
    /\ enhancedLibrary s'
       = item :: filter (fun it => negb (id it =? id item)%string) (enhancedLibrary s)
    /\ ~ In (id item) (ids (tl (enhancedLibrary s')))
    /\ length (enhancedLibrary s') <= S (length (enhancedLibrary s))
    /\ (NoDup (ids (enhancedLibrary s)) -> NoDup (ids (enhancedLibrary s'))).
Proof.
  eexists. split; [reflexivity|]. cbn [enhancedLibrary set_enhancedLibrary tl].
  split; [reflexivity|]. split; [apply ids_filter_other|]. split.
  - cbn [length]. pose proof (filter_length_le
      (fun it => negb (id it =? id item)%string) (enhancedLibrary s)). lia.
  - intros Hnd. cbn [ids map]. constructor.
    + apply ids_filter_other.
    + apply NoDup_ids_filter, Hnd.
Qed.

(** X6. Removing from the library the id just added gives the library
    without the entries of that id; when the id was not in the library,
    adding and then removing gives the library back. *)
Theorem add_then_remove_from_library (env : Env) (s : AppState) (item : BatchItem) :
  exists s1 s2,
    appReducer env s (ADD_TO_LIBRARY item) = Some s1
    /\ appReducer env s1 (REMOVE_FROM_LIBRARY (id item)) = Some s2
    /\ enhancedLibrary s2
       = filter (fun it => negb (id it =? id item)%string) (enhancedLibrary s)
    /\ ~ In (id item) (ids (enhancedLibrary s2))
    /\ (existsb (fun it => (id it =? id item)%string) (enhancedLibrary s) = false -> s2 = s).
Proof.
  eexists. eexists. split; [reflexivity|]. split; [reflexivity|].
  cbn [enhancedLibrary set_enhancedLibrary filter].
  rewrite String.eqb_refl. cbn [negb].
  assert (E : forall l : list BatchItem,
             filter (fun it => negb (id it =? id item)%string)
               (filter (fun it => negb (id it =? id item)%string) l)
             = filter (fun it => negb (id it =? id item)%string) l).
  { intros l. induction l as [|x l IH]; simpl; [reflexivity|].
    destruct (negb (id x =? id item)%string) eqn:Hx; simpl; [rewrite Hx, IH|]; auto. }
  rewrite E. split; [reflexivity|]. split; [apply ids_filter_other|].
  intros Habs. rewrite filter_other_absent.
  - destruct s; reflexivity.
  - intros Hin. unfold ids in Hin. apply in_map_iff in Hin. destruct Hin as (x & Hx & Hin).
    assert (existsb (fun it => (id it =? id item)%string) (enhancedLibrary s) = true);
      [|congruence].
    apply existsb_exists. exists x. split; [exact Hin|]. rewrite Hx. apply String.eqb_refl.
Qed.

(** ** Presets *)

Lemma import_into_appends (u l : list Preset) :
  exists added,
    import_into u l = u ++ added
    /\ forall p, In p added -> In p l /\ ~ In (preset_id p) (map preset_id u).
Proof.
  revert u. induction l as [|p l IH]; intros u; cbn [import_into].
  - exists []. rewrite app_nil_r. split; [reflexivity | intros p []].
  - destruct (existsb (fun up => (preset_id up =? preset_id p)%string) u) eqn:E.
    + destruct (IH u) as (added & Ha & Hin). exists added. split; [exact Ha|].
      intros x Hx. destruct (Hin x Hx). split; [right|]; assumption.
    + destruct (IH (u ++ [p])) as (added & Ha & Hin). exists (p :: added).
      split; [rewrite Ha, <- app_assoc; reflexivity|].
      intros x [<-|Hx].
      * split; [left; reflexivity|]. intros Hm. apply in_map_iff in Hm.
        destruct Hm as (y & Hy & Hyin).
        assert (existsb (fun up => (preset_id up =? preset_id p)%string) u = true);
          [|congruence].
        apply existsb_exists. exists y. split; [exact Hyin|]. rewrite Hy.
        apply String.eqb_refl.
      * destruct (Hin x Hx) as [H1 H2]. split; [right; exact H1|].
        intros Hm. apply H2. rewrite map_app. apply in_or_app. left. exact Hm.
Qed.

Lemma import_into_NoDup (u l : list Preset) :
  NoDup (map preset_id u) -> NoDup (map preset_id (import_into u l)).
Proof.
  revert u. induction l as [|p l IH]; intros u Hnd; cbn [import_into]; [exact Hnd|].
  destruct (existsb (fun up => (preset_id up =? preset_id p)%string) u) eqn:E;
    [apply IH, Hnd|].
  apply IH. rewrite map_app. cbn [map].
  apply NoDup_app; [exact Hnd | constructor; [intros [] | constructor] |].
  intros x Hx [Hp|[]]. subst x.
  apply in_map_iff in Hx. destruct Hx as (y & Hy & Hyin).
  assert (existsb (fun up => (preset_id up =? preset_id p)%string) u = true); [|congruence].
  apply existsb_exists. exists y. split; [exact Hyin|]. rewrite Hy. apply String.eqb_refl.
Qed.

Lemma import_into_known (u l : list Preset) :
  (forall p, In p l -> In (preset_id p) (map preset_id u)) -> import_into u l = u.
Proof.
  induction l as [|p l IH]; intros H; cbn [import_into]; [reflexivity|].
  assert (E : existsb (fun up => (preset_id up =? preset_id p)%string) u = true).
  { specialize (H p (or_introl eq_refl)). apply in_map_iff in H.
    destruct H as (y & Hy & Hyin). apply existsb_exists. exists y.
    split; [exact Hyin|]. rewrite Hy. apply String.eqb_refl. }
  rewrite E. apply IH. intros x Hx. apply H. right. exact Hx.
Qed.

Lemma import_into_covers (u l : list Preset) (p : Preset) :
  In p l -> In (preset_id p) (map preset_id (import_into u l)).
Proof.
  revert u. induction l as [|x l IH]; intros u Hin; [destruct Hin|].
  assert (Hmono : forall v i, In i (map preset_id v) -> In i (map preset_id (import_into v l))).
  { intros v i Hi. destruct (import_into_appends v l) as (added & Ha & _).
    rewrite Ha, map_app. apply in_or_app. left. exact Hi. }
  cbn [import_into].
  destruct (existsb (fun up => (preset_id up =? preset_id x)%string) u) eqn:E.
  - destruct Hin as [<-|Hin]; [|apply IH, Hin].
    apply Hmono. apply existsb_exists in E. destruct E as (y & Hyin & Hy).
    apply String.eqb_eq in Hy. rewrite <- Hy. apply in_map, Hyin.
  - destruct Hin as [<-|Hin]; [|apply IH, Hin].
    apply Hmono. rewrite map_app. apply in_or_app. right. left. reflexivity.
Qed.

(** X7. [IMPORT_PRESETS] keeps the user's presets as they are and in their
    order, and appends only presets of the payload that have an id and a
    name, are not flagged built-in, and whose id no user preset had; ids
    that were pairwise distinct stay so. *)
Theorem import_presets_first_writer_wins (env : Env) (s : AppState) (presets : list Preset) :
  exists s' added,
    appReducer env s (IMPORT_PRESETS presets) = Some s'
    /\ userPresets s' = userPresets s ++ added
    /\ Forall (fun p => In p presets
                        /\ importable p = true
                        /\ ~ In (preset_id p) (map preset_id (userPresets s))) added
    /\ (NoDup (map preset_id (userPresets s)) -> NoDup (map preset_id (userPresets s'))).
Proof.
  destruct (import_into_appends (userPresets s) (filter importable presets))
    as (added & Ha & Hin).
  eexists. exists added. split; [reflexivity|].
  cbn [userPresets set_userPresets]. split; [exact Ha|]. split.
  - apply Forall_forall. intros p Hp. destruct (Hin p Hp) as [H1 H2].
    apply filter_In in H1. tauto.
  - apply import_into_NoDup.
Qed.

(** X8. Importing the same presets a second time changes nothing. *)
Theorem import_presets_idempotent (env : Env) (s : AppState) (presets : list Preset) :
  exists s1,
    appReducer env s (IMPORT_PRESETS presets) = Some s1
    /\ appReducer env s1 (IMPORT_PRESETS presets) = Some s1.
Proof.
  eexists. split; [reflexivity|].
  cbn [appReducer userPresets set_userPresets].
  rewrite import_into_known.
  - reflexivity.
  - intros p Hp. apply import_into_covers, Hp.
Qed.

(** ** The batch queue *)

(** X9. [APPLY_PRESET_TO_BATCH] gives the settings to every pending job and
    to no other: ids, files, statuses, results and errors of all jobs are
    kept, every job that is pending holds the new settings, and every job
    that is not pending is unchanged. *)
Theorem apply_preset_only_to_pending (env : Env) (s : AppState) (t : ToolStates) :
  exists s',
    appReducer env s (APPLY_PRESET_TO_BATCH t) = Some s'
    /\ map (fun i => (id i, file i, status i, result i, error_msg i, prompt i)) (batchQueue s')
       = map (fun i => (id i, file i, status i, result i, error_msg i, prompt i)) (batchQueue s)
    /\ map preset (filter is_pending (batchQueue s'))
       = map (fun _ => Some t) (filter is_pending (batchQueue s))
    /\ filter (fun i => negb (is_pending i)) (batchQueue s')
       = filter (fun i => negb (is_pending i)) (batchQueue s).
Proof.
  eexists. split; [reflexivity|]. cbn [batchQueue set_batchQueue].
  induction (batchQueue s) as [|x q (IH1 & IH2 & IH3)]; [repeat split|].
  cbn [map filter].
  change (status_eqb (status x) pending) with (is_pending x).
  destruct (is_pending x) eqn:E.
  - change (is_pending (with_preset t x)) with (is_pending x). rewrite E.
    cbn [negb map with_preset id file status result error_msg prompt preset].
    rewrite IH1, IH2, IH3. repeat split.
  - rewrite E. cbn [negb map]. rewrite IH1, IH2, IH3. repeat split.
Qed.

(** ** Admission by the batch effect *)

Lemma merge_processing_payload (x it : BatchItem) :
  id it = id x -> merge_item it (processing_payload x) = set_status processing it.
Proof. intros E. unfold merge_item, set_status. cbn. rewrite <- E. reflexivity. Qed.

Lemma set_batchQueue_twice (q1 q2 : list BatchItem) (s : AppState) :
  set_batchQueue q2 (set_batchQueue q1 s) = set_batchQueue q2 s.
Proof. reflexivity. Qed.

(** The dispatches of the effect, taken together. *)
Lemma effect_dispatches_mark (items : list BatchItem) (s : AppState) :
  dispatch_all no_env s (map (fun item => UPDATE_BATCH_ITEM (processing_payload item)) items)
  = Some (set_batchQueue (map (mark (ids items)) (batchQueue s)) s).
Proof.
  revert s. induction items as [|x items IH]; intros s.
  - cbn [map dispatch_all ids]. unfold mark. cbn [existsb].
    rewrite map_id, set_batchQueue_same. reflexivity.
  - cbn [map dispatch_all appReducer]. rewrite IH.
    cbn [batchQueue set_batchQueue]. rewrite set_batchQueue_twice.
    do 2 f_equal. unfold update_batch_item. rewrite map_map.
    apply map_ext. intros it. cbn [patch_id processing_payload status_payload].
    unfold mark. cbn [ids map existsb].
    destruct (String.eqb_spec (id it) (id x)) as [E|_]; [|reflexivity].
    rewrite (merge_processing_payload x it E). cbn [orb set_status id].
    destruct (existsb (String.eqb (id it)) (ids items)); reflexivity.
Qed.

Lemma In_firstn_In {A} (x : A) (k : nat) (l : list A) : In x (firstn k l) -> In x l.
Proof.
  intros H. rewrite <- (firstn_skipn k l). apply in_or_app. left. exact H.
Qed.

Lemma ids_firstn_filter (i : string) (k : nat) (f : BatchItem -> bool) (q : list BatchItem) :
  In i (ids (firstn k (filter f q))) -> In i (ids q).
Proof.
  unfold ids. intros H. apply in_map_iff in H. destruct H as (x & Hx & Hin).
  apply In_firstn_In, filter_In in Hin. apply in_map_iff. exists x. tauto.
Qed.

Lemma existsb_eqb_absent (i : string) (l : list string) :
  ~ In i l -> existsb (String.eqb i) l = false.
Proof.
  intros H. destruct (existsb (String.eqb i) l) eqn:E; [|reflexivity].
  apply existsb_exists in E. destruct E as (x & Hx & Hi).
  apply String.eqb_eq in Hi. subst x. contradiction.
Qed.

(** With distinct ids, marking the ids of the first [k] pending items marks
    exactly those items. *)
Lemma mark_first_pending (q : list BatchItem) (k : nat) :
  NoDup (ids q) ->
  map (mark (ids (firstn k (filter is_pending q)))) q = promote k q.
Proof.
  revert k. induction q as [|x q IH]; intros k Hnd.
  - destruct k; reflexivity.
  - cbn [ids map] in Hnd. inversion Hnd as [|? ? Hx Hq]; subst.
    destruct k as [|k].
    + cbn [firstn ids map promote]. unfold mark. cbn [existsb].
      change (map (fun it => it) (x :: q) = x :: q). apply map_id.
    + cbn [filter promote]. destruct (is_pending x) eqn:Ep.
      * cbn [firstn ids map]. f_equal.
        -- unfold mark. cbn [existsb]. rewrite String.eqb_refl. reflexivity.
        -- rewrite <- (IH k Hq). apply map_ext_in. intros it Hit.
           unfold mark. cbn [existsb].
           destruct (String.eqb_spec (id it) (id x)) as [E|_]; [|reflexivity].
           exfalso. apply Hx. rewrite <- E. apply in_map, Hit.
      * cbn [map]. f_equal; [|apply IH, Hq].
        unfold mark. rewrite existsb_eqb_absent; [reflexivity|].
        intros Hin. apply Hx. eapply ids_firstn_filter. exact Hin.
Qed.

Lemma itemsToProcess_firstn (q : list BatchItem) :
  itemsToProcess q = firstn (BATCH_CONCURRENCY - count_processing q) (filter is_pending q).
Proof.
  unfold itemsToProcess. fold (count_processing q).
  destruct (Nat.leb_spec BATCH_CONCURRENCY (count_processing q)) as [H|H]; cbn [orb].
  - replace (BATCH_CONCURRENCY - count_processing q) with 0 by lia. reflexivity.
  - destruct (filter is_pending q) as [|y l]; cbn [length Nat.eqb].
    + rewrite firstn_nil. reflexivity.
    + reflexivity.
Qed.

Lemma pending_not_processing (x : BatchItem) : is_pending x = true -> is_processing x = false.
Proof. unfold is_pending, is_processing. destruct (status x); simpl; congruence. Qed.

Lemma promote_count (k : nat) (q : list BatchItem) :
  count_processing (promote k q)
  = count_processing q + Nat.min k (length (filter is_pending q)).
Proof.
  revert k. induction q as [|x q IH]; intros k.
  - destruct k; reflexivity.
  - destruct k as [|k]; [simpl; lia|].
    cbn [promote filter]. destruct (is_pending x) eqn:Ep.
    + rewrite !count_processing_cons, IH, (pending_not_processing x Ep).
      cbn [length]. change (is_processing (set_status processing x)) with true.
      rewrite <- Nat.succ_min_distr. lia.
    + rewrite !count_processing_cons, IH. lia.
Qed.

Lemma promote_pending (k : nat) (q : list BatchItem) :
  filter is_pending (promote k q) = skipn k (filter is_pending q).
Proof.
  revert k. induction q as [|x q IH]; intros k.
  - destruct k; reflexivity.
  - destruct k as [|k]; [reflexivity|].
    cbn [promote filter]. destruct (is_pending x) eqn:Ep.
    + cbn [filter skipn]. change (is_pending (set_status processing x)) with false.
      apply IH.
    + cbn [filter]. rewrite Ep. apply IH.
Qed.

(** What one run of the effect does to a world whose queue has distinct ids. *)
Lemma effect_step_shape (ai : option GoogleGenAI) (w : World) :
  NoDup (ids (batchQueue (app w))) ->
  let q := batchQueue (app w) in
  let k := BATCH_CONCURRENCY - count_processing q in
  exists w',
    step ai w RunEffect = Some w'
    /\ batchQueue (app w') = promote k q
    /\ map call_item (inflight w') = map call_item (inflight w) ++ firstn k (filter is_pending q).
Proof.
  intros Hnd q k. cbn [step]. rewrite effect_dispatches_mark.
  eexists. split; [reflexivity|]. cbn [app inflight batchQueue set_batchQueue].
  rewrite itemsToProcess_firstn. fold q. fold k. split.
  - apply mark_first_pending, Hnd.
  - rewrite map_app, map_map. cbn [call_item]. rewrite map_id. reflexivity.
Qed.

(** X10. With distinct ids in the queue, one run of the effect admits the
    oldest pending jobs, in queue order, as far as the free capacity allows:
    the queue becomes [promote k] of itself for [k] the free capacity, the
    number of jobs being processed grows by the smaller of [k] and the
    number of pending jobs, the jobs still pending are those after the
    first [k] pending ones, and one call is started for each admitted job,
    in that order. *)
Theorem effect_admits_oldest_pending (ai : option GoogleGenAI) (w : World) :
  NoDup (ids (batchQueue (app w))) ->
  exists w',
    step ai w RunEffect = Some w'
    /\ batchQueue (app w')
       = promote (BATCH_CONCURRENCY - count_processing (batchQueue (app w))) (batchQueue (app w))
    /\ count_processing (batchQueue (app w'))
       = count_processing (batchQueue (app w))
         + Nat.min (BATCH_CONCURRENCY - count_processing (batchQueue (app w)))
                   (length (filter is_pending (batchQueue (app w))))
    /\ filter is_pending (batchQueue (app w'))
       = skipn (BATCH_CONCURRENCY - count_processing (batchQueue (app w)))
               (filter is_pending (batchQueue (app w)))
    /\ map call_item (inflight w')
       = map call_item (inflight w)
         ++ firstn (BATCH_CONCURRENCY - count_processing (batchQueue (app w)))
                   (filter is_pending (batchQueue (app w))).
Proof.
  intros Hnd. destruct (effect_step_shape ai w Hnd) as (w' & Hs & Hq & Hf).
  exists w'. split; [exact Hs|]. split; [exact Hq|]. rewrite Hq.
  split; [apply promote_count|]. split; [apply promote_pending | exact Hf].
Qed.

Lemma effect_admits_oldest_pending_witness :
  NoDup (ids (batchQueue (app Samples.three_pending)))
  /\ exists w',
       step None Samples.three_pending RunEffect = Some w'
       /\ batchQueue (app w')
          = promote (BATCH_CONCURRENCY - count_processing (batchQueue (app Samples.three_pending)))
                  (batchQueue (app Samples.three_pending))
       /\ count_processing (batchQueue (app w'))
          = count_processing (batchQueue (app Samples.three_pending))
            + Nat.min
                (BATCH_CONCURRENCY - count_processing (batchQueue (app Samples.three_pending)))
                (length (filter is_pending (batchQueue (app Samples.three_pending))))
       /\ filter is_pending (batchQueue (app w'))
          = skipn (BATCH_CONCURRENCY - count_processing (batchQueue (app Samples.three_pending)))
                  (filter is_pending (batchQueue (app Samples.three_pending)))
       /\ map call_item (inflight w')
          = map call_item (inflight Samples.three_pending)
            ++ firstn
                 (BATCH_CONCURRENCY - count_processing (batchQueue (app Samples.three_pending)))
                 (filter is_pending (batchQueue (app Samples.three_pending))).
Proof.
  split; [apply distinct_NoDup; reflexivity|].
  apply (effect_admits_oldest_pending None Samples.three_pending).
  apply distinct_NoDup; reflexivity.
Defined.

Lemma promote_ids (k : nat) (q : list BatchItem) : ids (promote k q) = ids q.
Proof.
  unfold ids. revert k. induction q as [|x q IH]; intros k.
  - destruct k; reflexivity.
  - destruct k as [|k]; [reflexivity|].
    cbn [promote]. destruct (is_pending x); cbn [map]; rewrite IH; reflexivity.
Qed.

(** X11. Running the effect again right after it has run does nothing:
    either the capacity is used up or no job is pending any more, so no
    status changes and no second call is started for a job. *)
Theorem effect_is_idempotent (ai : option GoogleGenAI) (w w' : World) :
  NoDup (ids (batchQueue (app w))) ->
  step ai w RunEffect = Some w' ->
  step ai w' RunEffect = Some w'.
Proof.
  intros Hnd Hstep.
  destruct (effect_step_shape ai w Hnd) as (w1 & Hs & Hq & _).
  rewrite Hstep in Hs. inversion Hs; subst w1. clear Hs.
  assert (Hnd' : NoDup (ids (batchQueue (app w')))) by (rewrite Hq, promote_ids; exact Hnd).
  assert (Hnone : itemsToProcess (batchQueue (app w')) = []).
  { rewrite itemsToProcess_firstn, Hq, promote_count, promote_pending.
    set (c := count_processing (batchQueue (app w))).
    set (P := filter is_pending (batchQueue (app w))).
    destruct (Nat.le_gt_cases (length P) (BATCH_CONCURRENCY - c)) as [Hle|Hgt].
    - rewrite skipn_all2 by exact Hle. apply firstn_nil.
    - replace (BATCH_CONCURRENCY - (c + Nat.min (BATCH_CONCURRENCY - c) (length P))) with 0
        by lia.
      reflexivity. }
  cbn [step]. rewrite Hnone. cbn [map dispatch_all]. rewrite app_nil_r.
  destruct w'; reflexivity.
Qed.

Lemma effect_is_idempotent_witness :
  NoDup (ids (batchQueue (app Samples.three_pending)))
  /\ step None Samples.three_pending RunEffect
     = Some {| app := set_batchQueue
                        (promote 2 (batchQueue (app Samples.three_pending)))
                        (app Samples.three_pending);
               inflight := map (fun item => {| call_item := item;
                                               call_tools := initialToolStates;
                                               call_model := GEMINI_MODEL_NAME |})
                               (firstn 2 (batchQueue (app Samples.three_pending))) |}
  /\ step None
       {| app := set_batchQueue
                   (promote 2 (batchQueue (app Samples.three_pending)))
                   (app Samples.three_pending);
          inflight := map (fun item => {| call_item := item;
                                          call_tools := initialToolStates;
                                          call_model := GEMINI_MODEL_NAME |})
                          (firstn 2 (batchQueue (app Samples.three_pending))) |}
       RunEffect
     = Some {| app := set_batchQueue
                        (promote 2 (batchQueue (app Samples.three_pending)))
                        (app Samples.three_pending);
               inflight := map (fun item => {| call_item := item;
                                               call_tools := initialToolStates;
                                               call_model := GEMINI_MODEL_NAME |})
                               (firstn 2 (batchQueue (app Samples.three_pending))) |}.
Proof.
  split; [apply distinct_NoDup; reflexivity|].
  split; [vm_compute; reflexivity|].
  apply (effect_is_idempotent None Samples.three_pending).
  - apply distinct_NoDup; reflexivity.
  - vm_compute; reflexivity.
Defined.

(** ** Statuses never return to ['pending'] *)

Lemma pending_ids_cons (x : BatchItem) (q : list BatchItem) :
  pending_ids (x :: q) = (if is_pending x then [id x] else []) ++ pending_ids q.
Proof. unfold pending_ids, ids. cbn [filter]. destruct (is_pending x); reflexivity. Qed.

Lemma pending_ids_update (p : BatchItemPatch) (q : list BatchItem) :
  never_pends (UPDATE_BATCH_ITEM p) = true ->
  incl (pending_ids (update_batch_item p q)) (pending_ids q).
Proof.
  cbn [never_pends]. intros Hp. induction q as [|x q IH]; [apply incl_refl|].
  change (update_batch_item p (x :: q))
    with ((if (id x =? patch_id p)%string then merge_item x p else x)
          :: update_batch_item p q).
  rewrite !pending_ids_cons. apply incl_app_app; [|exact IH].
  destruct (String.eqb_spec (id x) (patch_id p)) as [E|_]; [|apply incl_refl].
  unfold is_pending at 1. cbn [merge_item status id]. unfold JS.over, JS.or_else.
  destruct (patch_status p) as [[| | | |]|]; cbn [status_eqb]; try discriminate;
    try (intros i []).
  fold (is_pending x). rewrite E. apply incl_refl.
Qed.

Lemma pending_ids_with_preset (t : ToolStates) (q : list BatchItem) :
  pending_ids (map (fun item => if status_eqb (status item) pending
                                then with_preset t item else item) q)
  = pending_ids q.
Proof.
  induction q as [|x q IH]; [reflexivity|].
  cbn [map]. rewrite !pending_ids_cons, IH.
  change (status_eqb (status x) pending) with (is_pending x).
  destruct (is_pending x) eqn:E; [|rewrite E; reflexivity].
  change (is_pending (with_preset t x)) with (is_pending x). rewrite E. reflexivity.
Qed.

Lemma reducer_never_pends (env : Env) (s s' : AppState) (a : Action) :
  never_pends a = true -> appReducer env s a = Some s' ->
  incl (pending_ids (batchQueue s')) (pending_ids (batchQueue s)).
Proof.
  intros Hn H. destruct a; try discriminate Hn; cbn [appReducer] in H;
    try (inversion H; subst; cbn [batchQueue set_batchQueue]; apply incl_refl).
  - destruct (0 <? historyIndex s); [|inversion H; subst; apply incl_refl].
    destruct (nth_error (history s) (historyIndex s - 1)); [|discriminate].
    inversion H; subst; apply incl_refl.
  - destruct (historyIndex s <? length (history s) - 1);
      [|inversion H; subst; apply incl_refl].
    destruct (nth_error (history s) (historyIndex s + 1)); [|discriminate].
    inversion H; subst; apply incl_refl.
  - inversion H; subst. cbn [batchQueue set_batchQueue]. apply pending_ids_update, Hn.
  - inversion H; subst. cbn [batchQueue set_batchQueue]. intros i [].
  - inversion H; subst. cbn [batchQueue set_batchQueue].
    rewrite pending_ids_with_preset. apply incl_refl.
Qed.

Lemma dispatch_all_never_pends (env : Env) (actions : list Action) (s s' : AppState) :
  forallb never_pends actions = true -> dispatch_all env s actions = Some s' ->
  incl (pending_ids (batchQueue s')) (pending_ids (batchQueue s)).
Proof.
  revert s. induction actions as [|a actions IH]; intros s Hn H.
  - inversion H; subst. apply incl_refl.
  - cbn [forallb] in Hn. apply andb_true_iff in Hn. destruct Hn as [Ha Hrest].
    cbn [dispatch_all] in H. destruct (appReducer env s a) as [s1|] eqn:E; [|discriminate].
    eapply incl_tran; [apply (IH s1 Hrest H) | apply (reducer_never_pends env s s1 a Ha E)].
Qed.

Lemma processing_payloads_never_pend (l : list BatchItem) :
  forallb never_pends (map (fun item => UPDATE_BATCH_ITEM (processing_payload item)) l) = true.
Proof. induction l as [|x l IH]; [reflexivity|]. cbn [map forallb]. rewrite IH. reflexivity. Qed.

(** X12. Only an enqueue makes a job pending: after any other event that
    the application can produce (an action of a control, a run of the
    effect, the settling of a call), every id that is pending was pending
    before.  A job that was admitted, completed, failed or cancelled is
    therefore never admitted again. *)
Theorem only_enqueue_makes_pending (ai : option GoogleGenAI) (w w' : World) (ev : Event) :
  admissible w ev = true -> is_enqueue ev = false ->
  step ai w ev = Some w' ->
  incl (pending_ids (batchQueue (app w'))) (pending_ids (batchQueue (app w))).
Proof.
  intros Hadm Hne Hstep. destruct ev as [env a| |n o]; cbn [step] in Hstep.
  - destruct (appReducer env (app w) a) as [s1|] eqn:E; [|discriminate].
    inversion Hstep; subst. cbn [app].
    apply (reducer_never_pends env (app w) s1 a); [|exact E].
    destruct a; try reflexivity; try discriminate Hne.
    cbn [admissible] in Hadm. cbn [never_pends].
    destruct (patch_status payload) as [[| | | |]|]; try discriminate; reflexivity.
  - destruct (dispatch_all no_env (app w) _) as [s1|] eqn:E; [|discriminate].
    inversion Hstep; subst. cbn [app].
    refine (dispatch_all_never_pends no_env _ (app w) s1 _ E).
    apply processing_payloads_never_pend.
  - destruct (nth_error (inflight w) n) as [c|]; [|inversion Hstep; subst; apply incl_refl].
    destruct (dispatch_all no_env (app w) (settle ai c o)) as [s1|] eqn:E; [|discriminate].
    inversion Hstep; subst. cbn [app].
    refine (dispatch_all_never_pends no_env _ (app w) s1 _ E).
    unfold settle.
    destruct (enhanceImage ai (file (call_item c))
                (JS.or_else (preset (call_item c)) (call_tools c)) (call_model c) o);
      reflexivity.
Qed.

Lemma only_enqueue_makes_pending_witness :
  admissible Samples.three_pending
    (Dispatch no_env (UPDATE_BATCH_ITEM (cancel_payload Samples.portrait_id))) = true
  /\ is_enqueue (Dispatch no_env (UPDATE_BATCH_ITEM (cancel_payload Samples.portrait_id)))
     = false
  /\ step None Samples.three_pending
       (Dispatch no_env (UPDATE_BATCH_ITEM (cancel_payload Samples.portrait_id)))
     = Some {| app := set_batchQueue
                        (update_batch_item (cancel_payload Samples.portrait_id)
                           (batchQueue (app Samples.three_pending)))
                        (app Samples.three_pending);
               inflight := [] |}
  /\ incl (pending_ids
             (batchQueue
                (app {| app := set_batchQueue
                                 (update_batch_item (cancel_payload Samples.portrait_id)
                                    (batchQueue (app Samples.three_pending)))
                                 (app Samples.three_pending);
                        inflight := [] |})))
          (pending_ids (batchQueue (app Samples.three_pending))).
Proof.
  split; [reflexivity|]. split; [reflexivity|]. split; [reflexivity|].
  apply (only_enqueue_makes_pending None Samples.three_pending _
           (Dispatch no_env (UPDATE_BATCH_ITEM (cancel_payload Samples.portrait_id))));
    reflexivity.
Defined.

(** ** Completions *)

Lemma update_batch_item_named (p : BatchItemPatch) (q : list BatchItem) (item' : BatchItem) :
  In item' (update_batch_item p q) -> id item' = patch_id p ->
  exists item, In item q /\ id item = patch_id p /\ item' = merge_item item p.
Proof.
  unfold update_batch_item. intros Hin Hid. apply in_map_iff in Hin.
  destruct Hin as (item & Hi & Hin). exists item.
  destruct (String.eqb_spec (id item) (patch_id p)) as [E|N].
  - split; [exact Hin|]. split; [exact E | symmetry; exact Hi].
  - subst item'. contradiction.
Qed.

Lemma update_batch_item_others (p : BatchItemPatch) (q : list BatchItem) :
  filter (fun it => negb (id it =? patch_id p)%string) (update_batch_item p q)
  = filter (fun it => negb (id it =? patch_id p)%string) q.
Proof.
  unfold update_batch_item. induction q as [|x q IH]; [reflexivity|].
  cbn [map filter]. rewrite IH.
  destruct (String.eqb_spec (id x) (patch_id p)) as [E|N].
  - cbn [merge_item id]. rewrite String.eqb_refl. reflexivity.
  - destruct (String.eqb_spec (id x) (patch_id p)); [contradiction | reflexivity].
Qed.

(** X13. When the call of a job resolves with an image, every queue entry
    of that id becomes ['done'] with the image as result and, as prompt, the
    prompt compiled from the settings the job was enqueued with (not from
    the tools the effect captured); the entries of other ids are unchanged
    and the finished job becomes the first entry of the library. *)
Theorem successful_completion (k : string) (s : AppState) (c : Call) (r : Response)
    (part : Part) (d : InlineData) (t : ToolStates) :
  find has_inlineData (parts r) = Some part ->
  inlineData part = Some d ->
  preset (call_item c) = Some t ->
  exists s',
    dispatch_all no_env s (settle (Some (new_GoogleGenAI k)) c (Resolves r)) = Some s'
    /\ Forall (fun item' =>
                 id item' = id (call_item c) ->
                 status item' = done
                 /\ result item' = Some ("data:" ++ mimeType d ++ ";base64," ++ inline_data d)%string
                 /\ prompt item' = Some (Prompt.buildPrompt t))
              (batchQueue s')
    /\ filter (fun it => negb (id it =? id (call_item c))%string) (batchQueue s')
       = filter (fun it => negb (id it =? id (call_item c))%string) (batchQueue s)
    /\ option_map (fun e => (id e, status e, prompt e)) (hd_error (enhancedLibrary s'))
       = Some (id (call_item c), done, Some (Prompt.buildPrompt t)).
Proof.
  intros Hfind Hd Hp. unfold settle, enhanceImage. rewrite Hfind.
  destruct part as [dd]. cbn [inlineData] in Hd. subst dd. rewrite Hp. cbn [JS.or_else].
  cbn [dispatch_all appReducer]. eexists. split; [reflexivity|].
  cbn [batchQueue enhancedLibrary set_batchQueue set_enhancedLibrary hd_error option_map].
  split; [|split; [|reflexivity]].
  - apply Forall_forall. intros item' Hin Hid.
    destruct (update_batch_item_named _ _ item' Hin Hid) as (item & _ & _ & ->).
    repeat split.
  - apply (update_batch_item_others
             (patch_of_item (finishedItem (call_item c)
                {| image := ("data:" ++ mimeType d ++ ";base64," ++ inline_data d)%string;
                   prompt_used := Prompt.buildPrompt t |}))).
Qed.

Lemma successful_completion_witness :
  find has_inlineData
    (parts {| parts := [ {| inlineData := Some {| mimeType := "image/png";
                                                   inline_data := "BBBB" |} |} ];
              text := None |})
  = Some {| inlineData := Some {| mimeType := "image/png"; inline_data := "BBBB" |} |}
  /\ exists s',
       dispatch_all no_env Samples.one_item_state
         (settle (Some (new_GoogleGenAI "key"))
            {| call_item := new_item Samples.sample_env initialToolStates Samples.portrait 0;
               call_tools := Samples.noise_all_zero; call_model := GEMINI_MODEL_NAME |}
            (Resolves
               {| parts := [ {| inlineData := Some {| mimeType := "image/png";
                                                       inline_data := "BBBB" |} |} ];
                  text := None |})) = Some s'
       /\ Forall (fun item' =>
                    id item' = Samples.portrait_id ->
                    status item' = done
                    /\ result item' = Some "data:image/png;base64,BBBB"
                    /\ prompt item' = Some (Prompt.buildPrompt initialToolStates))
                 (batchQueue s')
       /\ filter (fun it => negb (id it =? Samples.portrait_id)%string) (batchQueue s')
          = filter (fun it => negb (id it =? Samples.portrait_id)%string)
                   (batchQueue Samples.one_item_state)
       /\ option_map (fun e => (id e, status e, prompt e)) (hd_error (enhancedLibrary s'))
          = Some (Samples.portrait_id, done, Some (Prompt.buildPrompt initialToolStates)).
Proof.
  split; [reflexivity|].
  apply (successful_completion "key" Samples.one_item_state
           {| call_item := new_item Samples.sample_env initialToolStates Samples.portrait 0;
              call_tools := Samples.noise_all_zero; call_model := GEMINI_MODEL_NAME |}
           {| parts := [ {| inlineData := Some {| mimeType := "image/png";
                                                   inline_data := "BBBB" |} |} ];
              text := None |}
           {| inlineData := Some {| mimeType := "image/png"; inline_data := "BBBB" |} |}
           {| mimeType := "image/png"; inline_data := "BBBB" |}
           initialToolStates);
    reflexivity.
Defined.

(** X14. When the call of a job fails, with whatever the service or the
    missing key throws, every queue entry of that id becomes ['error'] with
    the message of the failure (or "An unknown error occurred." when what
    was thrown is not an [Error]), keeping its result and prompt; the
    entries of other ids and the library are unchanged. *)
Theorem failed_completion (ai : option GoogleGenAI) (s : AppState) (c : Call)
    (o : ApiOutcome) (err : Thrown) :
  enhanceImage ai (file (call_item c)) (JS.or_else (preset (call_item c)) (call_tools c))
    (call_model c) o = inl err ->
  exists s',
    dispatch_all no_env s (settle ai c o) = Some s'
    /\ Forall2 (fun item item' =>
                  if (id item =? id (call_item c))%string
                  then item' = set_status error
                                 {| id := id item; file := file item; status := status item;
                                    result := result item; prompt := prompt item;
                                    error_msg := Some (error_message err);
                                    preset := preset item |}
                  else item' = item)
               (batchQueue s) (batchQueue s')
    /\ enhancedLibrary s' = enhancedLibrary s.
Proof.
  intros He. unfold settle. rewrite He.
  cbn [dispatch_all appReducer]. eexists. split; [reflexivity|].
  cbn [batchQueue enhancedLibrary set_batchQueue]. split; [|reflexivity].
  fold (error_message err).
  unfold update_batch_item. cbn [patch_id error_payload status_payload].
  induction (batchQueue s) as [|x q IH]; [constructor|].
  cbn [map]. constructor; [|exact IH].
  destruct (String.eqb_spec (id x) (id (call_item c))) as [E|_]; [|reflexivity].
  unfold merge_item, set_status. cbn. rewrite E. reflexivity.
Qed.

Lemma failed_completion_witness :
  enhanceImage None
    (file (new_item Samples.sample_env initialToolStates Samples.portrait 0))
    (JS.or_else (preset (new_item Samples.sample_env initialToolStates Samples.portrait 0))
                Samples.noise_all_zero)
    GEMINI_MODEL_NAME Samples.image_response
  = inl (Error MISSING_API_KEY)
  /\ exists s',
       dispatch_all no_env Samples.one_item_state
         (settle None
            {| call_item := new_item Samples.sample_env initialToolStates Samples.portrait 0;
               call_tools := Samples.noise_all_zero; call_model := GEMINI_MODEL_NAME |}
            Samples.image_response) = Some s'
       /\ Forall2 (fun item item' =>
                     if (id item =? Samples.portrait_id)%string
                     then item' = set_status error
                                    {| id := id item; file := file item; status := status item;
                                       result := result item; prompt := prompt item;
                                       error_msg := Some (error_message (Error MISSING_API_KEY));
                                       preset := preset item |}
                     else item' = item)
                  (batchQueue Samples.one_item_state) (batchQueue s')
       /\ enhancedLibrary s' = enhancedLibrary Samples.one_item_state.
Proof.
  split; [reflexivity|].
  apply (failed_completion None Samples.one_item_state
           {| call_item := new_item Samples.sample_env initialToolStates Samples.portrait 0;
              call_tools := Samples.noise_all_zero; call_model := GEMINI_MODEL_NAME |}
           Samples.image_response (Error MISSING_API_KEY)).
  reflexivity.
Defined.

(** ** Settings the prompt does not depend on *)

Lemma buildPrompt_of_ops (t t' : ToolStates) :
  Prompt.ops t' = Prompt.ops t -> Prompt.buildPrompt t' = Prompt.buildPrompt t.
Proof. intros H. unfold Prompt.buildPrompt, Prompt.numberedOps. rewrite H. reflexivity. Qed.

(** X15. Editing a tool that is switched off, without switching it on,
    does not change the compiled prompt. *)
Theorem disabled_tool_edit_keeps_prompt (t : ToolStates) (u : ToolUpdate) :
  tool_enabled t u = false -> switches_on u = false ->
  Prompt.buildPrompt (update_tool t u) = Prompt.buildPrompt t.
Proof.
  intros Hoff Hon. apply buildPrompt_of_ops.
  destruct t as [sr ct fr pd hs bg cr ds no].
  destruct u as [p|p|p|p|p|p|p|p|p]; destruct p as [e];
    cbn [tool_enabled switches_on superResolution colorTone facialRetouch preserveDetails
         hairStyling background crop distractions noiseAndOptics
         SuperResolution.p_enabled ColorTone.p_enabled FacialRetouch.p_enabled
         PreserveDetails.p_enabled HairStyling.p_enabled Background.p_enabled
         Crop.p_enabled Distractions.p_enabled NoiseAndOptics.p_enabled JS.or_else]
      in Hoff, Hon;
    unfold Prompt.ops;
    cbn [update_tool superResolution colorTone facialRetouch preserveDetails
         hairStyling background crop distractions noiseAndOptics
         SuperResolution.merge ColorTone.merge FacialRetouch.merge PreserveDetails.merge
         HairStyling.merge Background.merge Crop.merge Distractions.merge NoiseAndOptics.merge
         SuperResolution.enabled ColorTone.enabled FacialRetouch.enabled
         PreserveDetails.enabled HairStyling.enabled Background.enabled
         Crop.enabled Distractions.enabled NoiseAndOptics.enabled
         SuperResolution.p_enabled ColorTone.p_enabled FacialRetouch.p_enabled
         PreserveDetails.p_enabled HairStyling.p_enabled Background.p_enabled
         Crop.p_enabled Distractions.p_enabled NoiseAndOptics.p_enabled];
    rewrite Hoff; destruct e as [[|]|]; try discriminate Hon;
    cbn [JS.over JS.or_else andb Prompt.push_if]; reflexivity.
Qed.

Lemma disabled_tool_edit_keeps_prompt_witness :
  tool_enabled initialToolStates
    (UpCrop {| Crop.p_enabled := None; Crop.p_aspectRatio := Some R16x9 |}) = false
  /\ Prompt.buildPrompt
       (update_tool initialToolStates
          (UpCrop {| Crop.p_enabled := None; Crop.p_aspectRatio := Some R16x9 |}))
     = Prompt.buildPrompt initialToolStates.
Proof.
  split; [reflexivity|].
  apply (disabled_tool_edit_keeps_prompt initialToolStates
           (UpCrop {| Crop.p_enabled := None; Crop.p_aspectRatio := Some R16x9 |}));
    reflexivity.
Defined.

(** X16. The highlights and shadows values are never read by the prompt
    compiler: whatever they are set to, in any settings, the compiled prompt
    is the same. *)
Theorem highlights_and_shadows_are_ignored (t : ToolStates) (h sh : Z) :
  Prompt.buildPrompt
    (update_tool t
       (UpColorTone {| ColorTone.p_enabled := None; ColorTone.p_whiteBalance := None;
                       ColorTone.p_temp := None; ColorTone.p_tint := None;
                       ColorTone.p_exposure := None; ColorTone.p_contrast := None;
                       ColorTone.p_highlights := Some h; ColorTone.p_shadows := Some sh;
                       ColorTone.p_vibrance := None; ColorTone.p_saturation := None;
                       ColorTone.p_skinTone := None |}))
  = Prompt.buildPrompt t.
Proof. apply buildPrompt_of_ops. destruct t as [? [] ? ? ? ? ? ? ?]. reflexivity. Qed.

(** X17. Fields that belong to a mode that is not selected do not reach
    the prompt: setting the temperature or tint while the white balance is
    'auto', the hair color while the hair mode is not 'color', the solid
    color while the background mode is not 'solid', or a custom instruction
    while the mode is not 'custom', leaves the compiled prompt unchanged. *)
Theorem unselected_mode_fields_are_ignored (t : ToolStates) (u : ToolUpdate) :
  sets_only_unused_fields t u = true ->
  Prompt.buildPrompt (update_tool t u) = Prompt.buildPrompt t.
Proof.
  intros H. apply buildPrompt_of_ops.
  destruct t as [sr ct fr pd hs bg cr ds no].
  destruct u as [p|p|p|p|p|p|p|p|p]; try discriminate H.
  - destruct p as [e w te ti ex co hi sh vi sa sk], ct as [en wb ? ? ? ? ? ? ? ? ?].
    cbn in H.
    destruct e, w, ex, co, vi, sa, sk; try discriminate H.
    destruct wb; try discriminate H. destruct te, ti, hi, sh; reflexivity.
  - destruct p as [e m c ci], hs as [en mo col cus]. cbn in H.
    destruct e, m; try discriminate H.
    destruct mo, c, ci; try discriminate H; reflexivity.
  - destruct p as [e m c ci], bg as [en mo col cus]. cbn in H.
    destruct e, m; try discriminate H.
    destruct mo, c, ci; try discriminate H; reflexivity.
Qed.

Lemma unselected_mode_fields_are_ignored_witness :
  sets_only_unused_fields initialToolStates
    (UpHairStyling {| HairStyling.p_enabled := None; HairStyling.p_mode := None;
                      HairStyling.p_color := None;
                      HairStyling.p_customInstruction := Some "curly" |}) = true
  /\ Prompt.buildPrompt
       (update_tool initialToolStates
          (UpHairStyling {| HairStyling.p_enabled := None; HairStyling.p_mode := None;
                            HairStyling.p_color := None;
                            HairStyling.p_customInstruction := Some "curly" |}))
     = Prompt.buildPrompt initialToolStates.
Proof.
  split; [reflexivity|].
  apply (unselected_mode_fields_are_ignored initialToolStates
           (UpHairStyling {| HairStyling.p_enabled := None; HairStyling.p_mode := None;
                             HairStyling.p_color := None;
                             HairStyling.p_customInstruction := Some "curly" |})).
  reflexivity.
Defined.

(** ** Uploading files *)

Lemma no_images_iff (files : list File) :
  (length (filter is_image files) =? 0) = negb (existsb is_image files).
Proof.
  induction files as [|f files IH]; [reflexivity|].
  cbn [filter existsb]. destruct (is_image f); [reflexivity | exact IH].
Qed.

Lemma find_oversized_image (files : list File) :
  is_some (find is_oversized (filter is_image files))
  = existsb (fun f => is_image f && is_oversized f) files.
Proof.
  induction files as [|f files IH]; [reflexivity|].
  cbn [filter existsb]. destruct (is_image f); cbn [andb orb find]; [|exact IH].
  destruct (is_oversized f); [reflexivity | exact IH].
Qed.

(** X18. A selection without any image file, or with one image file larger
    than 15 MB, is rejected as a whole: [processFiles] only shows an error
    toast, so nothing is enqueued (not even the valid files of the
    selection) and the current image, the settings and the queue stay as
    they are. *)
Theorem upload_rejected_as_a_whole (env : Env) (s : AppState) (files : list File) :
  negb (existsb is_image files) || existsb (fun f => is_image f && is_oversized f) files
  = true ->
  exists msg,
    dispatch_all env s (processFiles (currentImage s) files)
    = Some (set_toast (Some {| toast_id := Date_now env 0; message := msg;
                               toast_type := toast_error |}) s).
Proof.
  intros H. unfold processFiles. rewrite no_images_iff.
  destruct (existsb is_image files); cbn [negb orb] in *.
  - rewrite <- find_oversized_image in H.
    destruct (find is_oversized (filter is_image files)); [|discriminate].
    eexists. reflexivity.
  - eexists. reflexivity.
Qed.

Lemma upload_rejected_as_a_whole_witness :
  negb (existsb is_image
          [ {| file_name := "a.png"; file_type := "image/png"; file_size := 1000;
               file_dataURL := "data:image/png;base64,AAAA" |};
            {| file_name := "big.jpg"; file_type := "image/jpeg"; file_size := 16000000;
               file_dataURL := "data:image/jpeg;base64,BBBB" |} ])
  || existsb (fun f => is_image f && is_oversized f)
       [ {| file_name := "a.png"; file_type := "image/png"; file_size := 1000;
            file_dataURL := "data:image/png;base64,AAAA" |};
         {| file_name := "big.jpg"; file_type := "image/jpeg"; file_size := 16000000;
            file_dataURL := "data:image/jpeg;base64,BBBB" |} ]
  = true
  /\ exists msg,
       dispatch_all no_env initialState
         (processFiles (currentImage initialState)
            [ {| file_name := "a.png"; file_type := "image/png"; file_size := 1000;
                 file_dataURL := "data:image/png;base64,AAAA" |};
              {| file_name := "big.jpg"; file_type := "image/jpeg"; file_size := 16000000;
                 file_dataURL := "data:image/jpeg;base64,BBBB" |} ])
       = Some (set_toast (Some {| toast_id := Date_now no_env 0; message := msg;
                                  toast_type := toast_error |}) initialState).
Proof.
  split; [reflexivity|].
  apply (upload_rejected_as_a_whole no_env initialState
           [ {| file_name := "a.png"; file_type := "image/png"; file_size := 1000;
                file_dataURL := "data:image/png;base64,AAAA" |};
             {| file_name := "big.jpg"; file_type := "image/jpeg"; file_size := 16000000;
                file_dataURL := "data:image/jpeg;base64,BBBB" |} ]).
  reflexivity.
Defined.

(** X19. A selection with at least one image file and no oversized image
    file is accepted: one pending job is appended to the queue for each
    image file, in the order of the selection and holding the current
    settings, the files that are not images are skipped, and the settings
    are unchanged.  The first image becomes the current image, and the undo
    history is reset, exactly when there was no current image or several
    images were selected. *)
Theorem upload_accepted (env : Env) (s : AppState) (files : list File) :
  existsb is_image files = true ->
  existsb (fun f => is_image f && is_oversized f) files = false ->
  exists s',
    dispatch_all env s (processFiles (currentImage s) files) = Some s'
    /\ batchQueue s'
       = batchQueue s
         ++ JS.mapi (new_item env (tools s)) (map read_file (filter is_image files))
    /\ tools s' = tools s
    /\ (if negb (is_some (currentImage s)) || (1 <? length (filter is_image files))
        then currentImage s' = hd_error (map read_file (filter is_image files))
             /\ history s' = [ {| tools_of := tools s |} ] /\ historyIndex s' = 0
        else currentImage s' = currentImage s
             /\ history s' = history s /\ historyIndex s' = historyIndex s).
Proof.
  intros Himg Hbig. unfold processFiles. rewrite no_images_iff, Himg. cbn [negb].
  rewrite <- find_oversized_image in Hbig.
  destruct (find is_oversized (filter is_image files)); [discriminate|].
  destruct (negb (is_some (currentImage s)) || (1 <? length (filter is_image files)));
    cbn [app dispatch_all appReducer]; eexists; (split; [reflexivity|]); repeat split.
Qed.

Lemma upload_accepted_witness :
  existsb is_image
    [ {| file_name := "notes.txt"; file_type := "text/plain"; file_size := 10;
         file_dataURL := "data:text/plain;base64,AAAA" |};
      {| file_name := "a.png"; file_type := "image/png"; file_size := 1000;
         file_dataURL := "data:image/png;base64,AAAA" |} ] = true
  /\ exists s',
       dispatch_all Samples.sample_env initialState
         (processFiles (currentImage initialState)
            [ {| file_name := "notes.txt"; file_type := "text/plain"; file_size := 10;
                 file_dataURL := "data:text/plain;base64,AAAA" |};
              {| file_name := "a.png"; file_type := "image/png"; file_size := 1000;
                 file_dataURL := "data:image/png;base64,AAAA" |} ]) = Some s'
       /\ batchQueue s'
          = batchQueue initialState
            ++ JS.mapi (new_item Samples.sample_env (tools initialState))
                 (map read_file
                    (filter is_image
                       [ {| file_name := "notes.txt"; file_type := "text/plain";
                            file_size := 10; file_dataURL := "data:text/plain;base64,AAAA" |};
                         {| file_name := "a.png"; file_type := "image/png"; file_size := 1000;
                            file_dataURL := "data:image/png;base64,AAAA" |} ]))
       /\ tools s' = tools initialState
       /\ (if negb (is_some (currentImage initialState))
              || (1 <? length
                         (filter is_image
                            [ {| file_name := "notes.txt"; file_type := "text/plain";
                                 file_size := 10;
                                 file_dataURL := "data:text/plain;base64,AAAA" |};
                              {| file_name := "a.png"; file_type := "image/png";
                                 file_size := 1000;
                                 file_dataURL := "data:image/png;base64,AAAA" |} ]))
           then currentImage s'
                = hd_error
                    (map read_file
                       (filter is_image
                          [ {| file_name := "notes.txt"; file_type := "text/plain";
                               file_size := 10;
                               file_dataURL := "data:text/plain;base64,AAAA" |};
                            {| file_name := "a.png"; file_type := "image/png";
                               file_size := 1000;
                               file_dataURL := "data:image/png;base64,AAAA" |} ]))
                /\ history s' = [ {| tools_of := tools initialState |} ]
                /\ historyIndex s' = 0
           else currentImage s' = currentImage initialState
                /\ history s' = history initialState
                /\ historyIndex s' = historyIndex initialState).
Proof.
  split; [reflexivity|].
  apply (upload_accepted Samples.sample_env initialState
           [ {| file_name := "notes.txt"; file_type := "text/plain"; file_size := 10;
                file_dataURL := "data:text/plain;base64,AAAA" |};
             {| file_name := "a.png"; file_type := "image/png"; file_size := 1000;
                file_dataURL := "data:image/png;base64,AAAA" |} ]);
    reflexivity.
Defined.

(** ** The Enhance button *)

Lemma enhanceImage_prompt (ai : option GoogleGenAI) (img : ImageFile) (t : ToolStates)
    (m : ModelName) (o : ApiOutcome) (r : Enhanced) :
  enhanceImage ai img t m o = inr r -> prompt_used r = Prompt.buildPrompt t.
Proof.
  unfold enhanceImage. destruct ai; [|discriminate]. destruct o as [e|resp]; [discriminate|].
  destruct (find has_inlineData (parts resp)) as [[[d|]]|]; try discriminate.
  intros H. inversion H. reflexivity.
Qed.

(** X20. With no pending job and a current image, [handleEnhance] always
    ends with the loading flag off and the queue untouched.  On success the
    enhanced image is shown, the current prompt is the prompt compiled from
    the current settings, and a ['done'] entry holding those settings is
    put first in the library.  On failure no enhanced image is shown (the
    one shown before is gone), the library is unchanged and the toast
    carries the message of the failure. *)
Theorem single_enhance_outcome (ai : option GoogleGenAI) (env : Env) (s : AppState)
    (img : ImageFile) (o : ApiOutcome) :
  existsb is_pending (batchQueue s) = false ->
  currentImage s = Some img ->
  exists s',
    dispatch_all env s (handleEnhance ai env s o) = Some s'
    /\ isLoading s' = false
    /\ batchQueue s' = batchQueue s
    /\ tools s' = tools s
    /\ match enhanceImage ai img (tools s) (activeModel s) o with
       | inr r =>
           enhancedImage s' = Some (image r)
           /\ currentPrompt s' = Prompt.buildPrompt (tools s)
           /\ option_map (fun e => (file e, status e, result e, prompt e, preset e))
                (hd_error (enhancedLibrary s'))
              = Some (img, done, Some (image r), Some (Prompt.buildPrompt (tools s)),
                      Some (tools s))
       | inl err =>
           enhancedImage s' = None
           /\ currentPrompt s' = currentPrompt s
           /\ enhancedLibrary s' = enhancedLibrary s
           /\ option_map (fun x => (message x, toast_type x)) (toast s')
              = Some (error_message err, toast_error)
       end.
Proof.
  intros Hp Hi. unfold handleEnhance. rewrite Hp, Hi.
  destruct (enhanceImage ai img (tools s) (activeModel s) o) as [err|r] eqn:E.
  - eexists. split; [reflexivity|]. repeat split.
  - rewrite (enhanceImage_prompt _ _ _ _ _ _ E).
    eexists. split; [reflexivity|]. repeat split.
Qed.

Lemma single_enhance_outcome_witness :
  existsb is_pending (batchQueue (set_currentImage (Some Samples.portrait) initialState))
  = false
  /\ exists s',
       dispatch_all no_env (set_currentImage (Some Samples.portrait) initialState)
         (handleEnhance None no_env (set_currentImage (Some Samples.portrait) initialState)
            Samples.image_response) = Some s'
       /\ isLoading s' = false
       /\ batchQueue s' = batchQueue (set_currentImage (Some Samples.portrait) initialState)
       /\ tools s' = tools (set_currentImage (Some Samples.portrait) initialState)
       /\ match enhanceImage None Samples.portrait
                  (tools (set_currentImage (Some Samples.portrait) initialState))
                  (activeModel (set_currentImage (Some Samples.portrait) initialState))
                  Samples.image_response with
          | inr r =>
              enhancedImage s' = Some (image r)
              /\ currentPrompt s'
                 = Prompt.buildPrompt
                     (tools (set_currentImage (Some Samples.portrait) initialState))
              /\ option_map (fun e => (file e, status e, result e, prompt e, preset e))
                   (hd_error (enhancedLibrary s'))
                 = Some (Samples.portrait, done, Some (image r),
                         Some (Prompt.buildPrompt
                                 (tools (set_currentImage (Some Samples.portrait)
                                           initialState))),
                         Some (tools (set_currentImage (Some Samples.portrait) initialState)))
          | inl err =>
              enhancedImage s' = None
              /\ currentPrompt s'
                 = currentPrompt (set_currentImage (Some Samples.portrait) initialState)
              /\ enhancedLibrary s'
                 = enhancedLibrary (set_currentImage (Some Samples.portrait) initialState)
              /\ option_map (fun x => (message x, toast_type x)) (toast s')
                 = Some (error_message err, toast_error)
          end.
Proof.
  split; [reflexivity|].
  apply (single_enhance_outcome None no_env
           (set_currentImage (Some Samples.portrait) initialState)
           Samples.portrait Samples.image_response);
    reflexivity.
Defined.

(** X21. While a job is pending, [handleEnhance] starts nothing: whatever
    the client and the service would do, it only shows the toast announcing
    the number of pending jobs, and the state is otherwise unchanged. *)
Theorem enhance_with_pending_only_announces (ai : option GoogleGenAI) (env : Env)
    (s : AppState) (o : ApiOutcome) :
  existsb is_pending (batchQueue s) = true ->
  dispatch_all env s (handleEnhance ai env s o)
  = Some (set_toast
            (Some {| toast_id := Date_now env 0;
                     message := ("Starting batch enhancement for "
                                 ++ JS.show_nat (length (filter is_pending (batchQueue s)))
                                 ++ " images.")%string;
                     toast_type := success |}) s).
Proof.
  intros Hp. unfold handleEnhance. rewrite Hp.
  assert (H : (0 <? length (filter is_pending (batchQueue s))) = true).
  { apply existsb_exists in Hp. destruct Hp as (x & Hin & Hx).
    assert (Hf : In x (filter is_pending (batchQueue s))) by (apply filter_In; tauto).
    destruct (filter is_pending (batchQueue s)); [destruct Hf | reflexivity]. }
  rewrite H. reflexivity.
Qed.

Lemma enhance_with_pending_only_announces_witness :
  existsb is_pending (batchQueue Samples.one_item_state) = true
  /\ dispatch_all no_env Samples.one_item_state
       (handleEnhance None no_env Samples.one_item_state Samples.image_response)
     = Some (set_toast
               (Some {| toast_id := Date_now no_env 0;
                        message := ("Starting batch enhancement for "
                                    ++ JS.show_nat
                                         (length (filter is_pending
                                                    (batchQueue Samples.one_item_state)))
                                    ++ " images.")%string;
                        toast_type := success |}) Samples.one_item_state).
Proof.
  split; [reflexivity|].
  apply (enhance_with_pending_only_announces None no_env Samples.one_item_state
           Samples.image_response).
  reflexivity.
Defined.

(** X22. The Enhance button is enabled only when an API key is configured,
    nothing is loading or being processed, and there is something to work
    on: a pending job or a current image. *)
Theorem canEnhance_requirements (apiKey : option string) (s : AppState) :
  canEnhance apiKey s = true ->
  is_some (make_ai apiKey) = true
  /\ isLoading s = false
  /\ count_processing (batchQueue s) = 0
  /\ (existsb is_pending (batchQueue s) = true \/ is_some (currentImage s) = true).
Proof.
  unfold canEnhance, make_ai. intros H.
  apply andb_true_iff in H. destruct H as [H Hk].
  apply andb_true_iff in H. destruct H as [Hw Hb].
  apply negb_true_iff, orb_false_iff in Hb. destruct Hb as [Hl Hpr].
  split. { destruct apiKey as [k|]; [rewrite Hk; reflexivity | discriminate]. }
  split; [exact Hl|]. split.
  - unfold count_processing.
    destruct (filter is_processing (batchQueue s)) as [|x l] eqn:E; [reflexivity|].
    assert (Hin : In x (filter is_processing (batchQueue s))) by (rewrite E; left; reflexivity).
    apply filter_In in Hin.
    assert (existsb is_processing (batchQueue s) = true); [|congruence].
    apply existsb_exists. exists x. exact Hin.
  - apply orb_true_iff in Hw. tauto.
Qed.

Lemma canEnhance_requirements_witness :
  canEnhance (Some "key") Samples.one_item_state = true
  /\ is_some (make_ai (Some "key")) = true
  /\ isLoading Samples.one_item_state = false
  /\ count_processing (batchQueue Samples.one_item_state) = 0
  /\ (existsb is_pending (batchQueue Samples.one_item_state) = true
      \/ is_some (currentImage Samples.one_item_state) = true).
Proof.
  split; [reflexivity|].
  apply (canEnhance_requirements (Some "key") Samples.one_item_state). reflexivity.
Defined.

(** ** Saving and loading a preset *)

Lemma find_after_unmatched {A} (f : A -> bool) (l1 l2 : list A) :
  existsb f l1 = false -> find f (l1 ++ l2) = find f l2.
Proof.
  induction l1 as [|x l1 IH]; [reflexivity|]. simpl.
  intros H. apply orb_false_iff in H. destruct H as [Hx Hl]. rewrite Hx. apply IH, Hl.
Qed.

Lemma find_head {A} (f : A -> bool) (x : A) (l : list A) :
  f x = true -> find f ([x] ++ l) = Some x.
Proof. simpl. intros H. rewrite H. reflexivity. Qed.

(** X23. A preset saved under a name can be loaded again: when no user
    preset already has the id drawn for it, [handleSave] appends the preset
    to the user presets and, in any later state whose user presets are
    those, selecting that id dispatches [LOAD_PRESET] with exactly the
    settings that were current at the save. *)
Theorem saved_preset_loads_back (env : Env) (s s2 : AppState) (n : string) :
  JS.truthy n = true ->
  existsb (fun p => (preset_id p =? "user_" ++ JS.show_Z (Date_now env 0))%string)
          (userPresets s) = false ->
  userPresets s2
  = userPresets s
    ++ [ {| preset_id := ("user_" ++ JS.show_Z (Date_now env 0))%string;
            preset_name := n; preset_tools := tools s; isBuiltIn := None |} ] ->
  option_map userPresets (dispatch_all env s (handleSave env s (Some n)))
  = Some (userPresets s2)
  /\ handleLoad s2 ("user_" ++ JS.show_Z (Date_now env 0))%string
     = [LOAD_PRESET (tools s);
        SHOW_TOAST ("Preset " ++ JS.dquote ++ n ++ JS.dquote ++ " loaded!")%string success].
Proof.
  intros Hn Hfresh Hu. unfold handleSave. rewrite Hn. split.
  - rewrite Hu. reflexivity.
  - unfold handleLoad, availablePresets. rewrite Hu.
    replace (JS.truthy ("user_" ++ JS.show_Z (Date_now env 0))%string) with true
      by reflexivity.
    cbn [negb]. rewrite <- app_assoc, (find_after_unmatched _ _ _ Hfresh).
    rewrite find_head by apply String.eqb_refl. reflexivity.
Qed.

Lemma saved_preset_loads_back_witness :
  JS.truthy "Warm look" = true
  /\ existsb (fun p => (preset_id p =? "user_" ++ JS.show_Z (Date_now no_env 0))%string)
             (userPresets Samples.edited_once) = false
  /\ option_map userPresets
       (dispatch_all no_env Samples.edited_once
          (handleSave no_env Samples.edited_once (Some "Warm look")))
     = Some (userPresets
               (set_userPresets
                  [ {| preset_id := ("user_" ++ JS.show_Z (Date_now no_env 0))%string;
                       preset_name := "Warm look";
                       preset_tools := tools Samples.edited_once;
                       isBuiltIn := None |} ]
                  initialState))
  /\ handleLoad
       (set_userPresets
          [ {| preset_id := ("user_" ++ JS.show_Z (Date_now no_env 0))%string;
               preset_name := "Warm look";
               preset_tools := tools Samples.edited_once;
               isBuiltIn := None |} ]
          initialState)
       ("user_" ++ JS.show_Z (Date_now no_env 0))%string
     = [LOAD_PRESET (tools Samples.edited_once);
        SHOW_TOAST ("Preset " ++ JS.dquote ++ "Warm look" ++ JS.dquote ++ " loaded!")%string
                   success].
Proof.
  split; [reflexivity|]. split; [reflexivity|].
  apply (saved_preset_loads_back no_env Samples.edited_once
           (set_userPresets
              [ {| preset_id := ("user_" ++ JS.show_Z (Date_now no_env 0))%string;
                   preset_name := "Warm look";
                   preset_tools := tools Samples.edited_once;
                   isBuiltIn := None |} ]
              initialState)
           "Warm look");
    reflexivity.
Defined.

(** ** The base name of a download *)

Lemma no_dot_with_dot (b e : string) : no_dot (b ++ String "."%char e)%string = false.
Proof.
  induction b as [|c b IH]; [reflexivity|].
  cbn [append no_dot]. rewrite IH. apply andb_false_r.
Qed.

(** X24. The base name used for downloads is the file name without its
    last extension: for an extension that is not empty and has no dot,
    [base ++ "." ++ ext] gives [base], whatever dots [base] has; a name
    without a dot is kept whole. *)
Theorem base_name_strips_last_extension (b e : string) :
  JS.truthy e = true -> no_dot e = true ->
  base_name (b ++ "." ++ e)%string = b /\ base_name e = e.
Proof.
  intros Ht Hd. split.
  - induction b as [|c b IH].
    + cbn [append base_name]. rewrite Ht, Hd. reflexivity.
    + change (String c b ++ "." ++ e)%string with (String c (b ++ String "."%char e)).
      cbn [base_name]. rewrite no_dot_with_dot, !andb_false_r.
      change (b ++ String "."%char e)%string with (b ++ "." ++ e)%string.
      rewrite IH. reflexivity.
  - clear Ht. induction e as [|c e IH]; [reflexivity|].
    cbn [no_dot] in Hd. apply andb_true_iff in Hd. destruct Hd as [Hc He].
    cbn [base_name]. apply negb_true_iff in Hc. rewrite Hc. cbn [andb].
    rewrite (IH He). reflexivity.
Qed.

Lemma base_name_strips_last_extension_witness :
  JS.truthy "png" = true /\ no_dot "png" = true
  /\ base_name ("portrait.final" ++ "." ++ "png")%string = "portrait.final"
  /\ base_name "png" = "png".
Proof.
  split; [reflexivity|]. split; [reflexivity|].
  apply (base_name_strips_last_extension "portrait.final" "png"); reflexivity.
Defined.
